(** * FreeRTOS+TCP IGMP: membership registry and report scheduling

    A shallow embedding of [FreeRTOS_IGMP.c] / [FreeRTOS_IGMP.h].

    - Fixed-width C integers are integers of [Z] with the wrap-around
      written where the source computes ([uint8], [uint32]).
    - An intrusive [List_t] of descriptors is the list of its nodes, each
      node being the address of the descriptor together with the
      descriptor stored there, in list order.
    - The module's globals and the socket lists it reaches through
      [pxSocket] form one [State], threaded through every function.
    - What the file calls outside itself (the random source, the buffer
      pool, the link-layer filter, the allocator, the transmit path) is
      either an outcome taken from the state or an event appended to the
      state's trace. *)

From Stdlib Require Import ZArith List Bool Lia.
Import ListNotations.
Local Open Scope Z_scope.

(** ** Machine integers *)

Definition uint8 (x : Z) : Z := x mod 256.
Definition uint32 (x : Z) : Z := x mod 4294967296.

Definition pdFALSE : Z := 0.
Definition pdTRUE : Z := 1.
Definition NULL : Z := 0.

(** Modelled from the spec: the [max] macro of the stack's headers is not
    among the sources; "clamp to at least 2" is the larger of its two
    arguments. *)
Definition max (a b : Z) : Z := if a >? b then a else b.

(** ** Build configuration and declarations of other headers *)

Inductive ByteOrder := pdFREERTOS_LITTLE_ENDIAN | pdFREERTOS_BIG_ENDIAN.

Definition MACAddress_t := list Z.

(** Constants, sizes and helpers that [FreeRTOS_IGMP.c] uses and that
    other files of the stack declare. They are kept abstract: every
    theorem below holds for each choice of them. *)
Class Config := {
  ipconfigBYTE_ORDER : ByteOrder;
  ipconfigUSE_LLMNR : bool;
  ipLLMNR_IP_ADDR : Z;
  FREERTOS_AF_INET : Z;
  sizeof_freertos_sockaddr : Z;
  sizeof_EthernetHeader_t : Z;
  sizeof_IPHeader_t : Z;
  ipPROTOCOL_IGMP : Z;
  ipLOCAL_MAC_ADDRESS : MACAddress_t;
  ipLOCAL_IP_ADDRESS : Z;
  vSetMultiCastIPv4MacAddress : Z -> MACAddress_t;
  eSocketOptAddMembership : Z;
  eSocketOptDropMembership : Z;
  eSocketOpt_distinct : eSocketOptAddMembership <> eSocketOptDropMembership
}.

(** From the [ENUM_SWITCH_PORTS] declaration. *)
Definition ETHERNET_PORT_ALL : Z := 126.

(** IGMP protocol definitions. *)
Definition ipIGMP_MEMBERSHIP_QUERY : Z := 0x11.
Definition ipIGMP_MEMBERSHIP_REPORT_V1 : Z := 0x12.
Definition ipIGMP_MEMBERSHIP_REPORT_V2 : Z := 0x16.
Definition ipIGMP_MEMBERSHIP_REPORT_V3 : Z := 0x22.

Definition ipIGMP_IP_ADDR `{Config} : Z :=
  match ipconfigBYTE_ORDER with
  | pdFREERTOS_BIG_ENDIAN => 0xE0000001
  | pdFREERTOS_LITTLE_ENDIAN => 0x010000E0
  end.

(** [eFrameProcessingResult_t], declared with the IP task. *)
Inductive eFrameProcessingResult_t :=
| eReleaseBuffer
| eProcessBuffer
| eReturnEthernetFrame
| eFrameConsumed
| eWaitingARPResolution.

(** ** Data model *)

(** The fields of [struct freertos_sockaddr] that the file touches. *)
Record freertos_sockaddr := {
  sin_len : Z;
  sin_family : Z;
  sin_addr : Z
}.

Record freertos_ip_mreq := {
  imr_multiaddr : freertos_sockaddr;
  imr_interface : freertos_sockaddr
}.

(** [IGMPReportDesc_t]. [xListItem] is the position of the node in the
    list that holds it. [xNumSockets] is a [BaseType_t], the signed integer
    of the port ([portmacro.h]), whose width the sources do not fix and
    whose overflow C leaves undefined: the field is the integer it stands
    for, and no wrap-around is attributed to [xNumSockets++]. *)
Record IGMPReportDesc_t := {
  ird_mreq : freertos_ip_mreq;
  xNumSockets : Z;
  ucCountDown : Z
}.

(** A pointer to a descriptor: its address and what is stored there. *)
Definition IGMPReportDesc_ptr := (Z * IGMPReportDesc_t)%type.

(** [MCastGroupDesc_t]. [pxIGMPReportDesc] is [None] for a null pointer. *)
Record MCastGroupDesc_t := {
  mcg_mreq : freertos_ip_mreq;
  pxSocket : Z;
  pxIGMPReportDesc : option IGMPReportDesc_ptr
}.

Definition MCastGroupDesc_ptr := (Z * MCastGroupDesc_t)%type.

Definition ird_group (d : IGMPReportDesc_t) : Z :=
  sin_addr (imr_multiaddr (ird_mreq d)).
Definition mcg_group (d : MCastGroupDesc_t) : Z :=
  sin_addr (imr_multiaddr (mcg_mreq d)).

Definition set_xNumSockets (n : Z) (d : IGMPReportDesc_t) : IGMPReportDesc_t :=
  {| ird_mreq := ird_mreq d; xNumSockets := n; ucCountDown := ucCountDown d |}.
Definition set_ucCountDown (c : Z) (d : IGMPReportDesc_t) : IGMPReportDesc_t :=
  {| ird_mreq := ird_mreq d; xNumSockets := xNumSockets d; ucCountDown := c |}.
Definition set_pxIGMPReportDesc (r : option IGMPReportDesc_ptr)
    (d : MCastGroupDesc_t) : MCastGroupDesc_t :=
  {| mcg_mreq := mcg_mreq d; pxSocket := pxSocket d; pxIGMPReportDesc := r |}.

(** The IGMP header as the receive path reads it and the send path fills
    it. [usChecksum] is never read on receipt and is computed on sending by
    [usGenerateChecksum], which belongs to another file; it is left out. *)
Record IGMPHeader_t := {
  ucTypeOfMessage : Z;
  ucMaxResponseTime : Z;
  uiGroupAddress : Z
}.

(** An outgoing [IGMPPacket_t]: the header fields [vSendIGMP] sets to
    values that depend neither on the byte order nor on checksum code. *)
Record IGMPPacket_t := {
  xDestinationAddress : MACAddress_t;
  xSourceAddress : MACAddress_t;
  ucVersionHeaderLength : Z;
  ucDifferentiatedServicesCode : Z;
  ucTimeToLive : Z;
  ucProtocol : Z;
  ulSourceIPAddress : Z;
  ulDestinationIPAddress : Z;
  xIGMPHeader : IGMPHeader_t
}.

Record NetworkBufferDescriptor_t := {
  pucEthernetBuffer : list Z;
  xDataLength : Z
}.

(** Calls that leave the module. *)
Inductive Event :=
| xEMAC_AddMulticastAddress (mac : MACAddress_t)
| xEMAC_RemoveMulticastAddress (mac : MACAddress_t)
| vPortFree (p : Z)
| xNetworkInterfaceOutputToPortX (frame : IGMPPacket_t) (uiFrameLen : Z)
    (bReleaseAfterSend : Z) (port : Z).

(** The state the module works on.
    - [xIGMP_ScheduleList]: the report registry.
    - [xMulticastGroupsList s]: the group list of the socket at address [s].
    - [xRandomOutcomes]: what the coming calls of
      [xApplicationGetRandomNumber] answer, [None] for [pdFALSE]; once
      used up the source keeps failing.
    - [xBufferOutcomes]: whether the coming calls of
      [pxGetNetworkBufferWithDescriptor] find a buffer; once used up the
      pool stays empty.
    - [xTrace]: the calls made so far, oldest first. *)
Record State := {
  xIGMP_ScheduleList : list IGMPReportDesc_ptr;
  xMulticastGroupsList : Z -> list MCastGroupDesc_ptr;
  uiNumIGMP_Queries : Z;
  uiNumIGMP_Reports : Z;
  xRandomOutcomes : list (option Z);
  xBufferOutcomes : list bool;
  xTrace : list Event
}.

Definition set_ScheduleList (l : list IGMPReportDesc_ptr) (st : State) : State :=
  {| xIGMP_ScheduleList := l;
     xMulticastGroupsList := xMulticastGroupsList st;
     uiNumIGMP_Queries := uiNumIGMP_Queries st;
     uiNumIGMP_Reports := uiNumIGMP_Reports st;
     xRandomOutcomes := xRandomOutcomes st;
     xBufferOutcomes := xBufferOutcomes st;
     xTrace := xTrace st |}.

Definition set_GroupsList (s : Z) (l : list MCastGroupDesc_ptr) (st : State) : State :=
  {| xIGMP_ScheduleList := xIGMP_ScheduleList st;
     xMulticastGroupsList := fun s' => if s' =? s then l else xMulticastGroupsList st s';
     uiNumIGMP_Queries := uiNumIGMP_Queries st;
     uiNumIGMP_Reports := uiNumIGMP_Reports st;
     xRandomOutcomes := xRandomOutcomes st;
     xBufferOutcomes := xBufferOutcomes st;
     xTrace := xTrace st |}.

Definition set_Queries (n : Z) (st : State) : State :=
  {| xIGMP_ScheduleList := xIGMP_ScheduleList st;
     xMulticastGroupsList := xMulticastGroupsList st;
     uiNumIGMP_Queries := n;
     uiNumIGMP_Reports := uiNumIGMP_Reports st;
     xRandomOutcomes := xRandomOutcomes st;
     xBufferOutcomes := xBufferOutcomes st;
     xTrace := xTrace st |}.

Definition set_Reports (n : Z) (st : State) : State :=
  {| xIGMP_ScheduleList := xIGMP_ScheduleList st;
     xMulticastGroupsList := xMulticastGroupsList st;
     uiNumIGMP_Queries := uiNumIGMP_Queries st;
     uiNumIGMP_Reports := n;
     xRandomOutcomes := xRandomOutcomes st;
     xBufferOutcomes := xBufferOutcomes st;
     xTrace := xTrace st |}.

Definition set_RandomOutcomes (r : list (option Z)) (st : State) : State :=
  {| xIGMP_ScheduleList := xIGMP_ScheduleList st;
     xMulticastGroupsList := xMulticastGroupsList st;
     uiNumIGMP_Queries := uiNumIGMP_Queries st;
     uiNumIGMP_Reports := uiNumIGMP_Reports st;
     xRandomOutcomes := r;
     xBufferOutcomes := xBufferOutcomes st;
     xTrace := xTrace st |}.

Definition set_BufferOutcomes (b : list bool) (st : State) : State :=
  {| xIGMP_ScheduleList := xIGMP_ScheduleList st;
     xMulticastGroupsList := xMulticastGroupsList st;
     uiNumIGMP_Queries := uiNumIGMP_Queries st;
     uiNumIGMP_Reports := uiNumIGMP_Reports st;
     xRandomOutcomes := xRandomOutcomes st;
     xBufferOutcomes := b;
     xTrace := xTrace st |}.

(** Records the calls [evs], in order, after those already made. *)
Definition emit (evs : list Event) (st : State) : State :=
  {| xIGMP_ScheduleList := xIGMP_ScheduleList st;
     xMulticastGroupsList := xMulticastGroupsList st;
     uiNumIGMP_Queries := uiNumIGMP_Queries st;
     uiNumIGMP_Reports := uiNumIGMP_Reports st;
     xRandomOutcomes := xRandomOutcomes st;
     xBufferOutcomes := xBufferOutcomes st;
     xTrace := xTrace st ++ evs |}.

(** ** External collaborators *)

(** [xApplicationGetRandomNumber( &uiRandom )]: [None] when it returns
    [pdFALSE], otherwise the 32-bit value it stores. *)
Definition xApplicationGetRandomNumber (rnd : list (option Z))
    : option Z * list (option Z) :=
  match rnd with
  | [] => (None, [])
  | None :: rest => (None, rest)
  | Some v :: rest => (Some (uint32 v), rest)
  end.

(** [pxGetNetworkBufferWithDescriptor]: [true] when a buffer is returned. *)
Definition pxGetNetworkBufferWithDescriptor (pool : list bool)
    : bool * list bool :=
  match pool with
  | [] => (false, [])
  | b :: rest => (b, rest)
  end.

(** ** Receive path: reading the IGMP header of a frame *)

Definition sizeof_IGMPHeader_t : Z := 8.

Definition sizeof_IGMPPacket_t `{Config} : Z :=
  sizeof_EthernetHeader_t + sizeof_IPHeader_t + sizeof_IGMPHeader_t.

Definition read_uint8 (buf : list Z) (off : Z) : Z :=
  uint8 (nth (Z.to_nat off) buf 0).

(** A [uint32_t] loaded from four bytes in the byte order of the build. *)
Definition read_uint32 `{Config} (buf : list Z) (off : Z) : Z :=
  let b0 := read_uint8 buf off in
  let b1 := read_uint8 buf (off + 1) in
  let b2 := read_uint8 buf (off + 2) in
  let b3 := read_uint8 buf (off + 3) in
  match ipconfigBYTE_ORDER with
  | pdFREERTOS_LITTLE_ENDIAN =>
      Z.lor b0 (Z.lor (Z.shiftl b1 8) (Z.lor (Z.shiftl b2 16) (Z.shiftl b3 24)))
  | pdFREERTOS_BIG_ENDIAN =>
      Z.lor b3 (Z.lor (Z.shiftl b2 8) (Z.lor (Z.shiftl b1 16) (Z.shiftl b0 24)))
  end.

(** [ipCAST_PTR_TO_TYPE_PTR( IGMPPacket_t, pucEthernetBuffer )->xIGMPHeader]:
    the packed header that follows the Ethernet and IP headers. *)
Definition cast_xIGMPHeader `{Config} (buf : list Z) : IGMPHeader_t :=
  let base := sizeof_EthernetHeader_t + sizeof_IPHeader_t in
  {| ucTypeOfMessage := read_uint8 buf base;
     ucMaxResponseTime := read_uint8 buf (base + 1);
     uiGroupAddress := read_uint32 buf (base + 4) |}.

(** ** Random delay of a general query (inlined in [eProcessIGMPPacket]) *)

(** [ucMaxRespTime = max( 2, ucMaxResponseTime ); ucMaxRespTime--;] *)
Definition ucMaxRespTime_of (ucMaxResponseTime : Z) : Z :=
  uint8 (uint8 (max 2 ucMaxResponseTime) - 1).

(** [RandMask = ucMaxRespTime; RandMask--; RandMask |= RandMask >> 1;
     RandMask |= RandMask >> 2; if( 0 == RandMask ) RandMask = 1;] *)
Definition RandMask_of (ucMaxRespTime : Z) : Z :=
  let RandMask := ucMaxRespTime in
  let RandMask := uint32 (RandMask - 1) in
  let RandMask := Z.lor RandMask (Z.shiftr RandMask 1) in
  let RandMask := Z.lor RandMask (Z.shiftr RandMask 2) in
  if RandMask =? 0 then 1 else RandMask.

(** [while( uiRandom > ucMaxRespTime ) uiRandom -= ucMaxRespTime;]
    run for at most [fuel] iterations. *)
Fixpoint subtract_while (fuel : nat) (uiRandom ucMaxRespTime : Z) : Z :=
  match fuel with
  | O => uiRandom
  | S fuel' =>
      if uiRandom >? ucMaxRespTime
      then subtract_while fuel' (uint32 (uiRandom - ucMaxRespTime)) ucMaxRespTime
      else uiRandom
  end.

(** The [else] branch of the draw: mask, lift zero to one, reduce, and
    narrow to the [uint8_t] field. The loop gets as many iterations as the
    value it starts from, which is enough whenever [ucMaxRespTime] is at
    least one ([subtract_while_exits]). *)
Definition masked_delay (ucMaxRespTime RandMask uiRandom : Z) : Z :=
  let uiRandom := Z.land uiRandom RandMask in
  let uiRandom := if uiRandom =? 0 then 1 else uiRandom in
  let uiRandom := subtract_while (Z.to_nat uiRandom) uiRandom ucMaxRespTime in
  uint8 uiRandom.

(** The body of the [if] that reschedules one report: the new countdown,
    the fallback counter afterwards and the random outcomes left. *)
Definition draw_delay (ucMaxRespTime RandMask : Z)
    (uiNonRandomCounter : Z) (rnd : list (option Z))
    : Z * Z * list (option Z) :=
  match xApplicationGetRandomNumber rnd with
  | (None, rnd') =>
      let ucCountDown := uint8 uiNonRandomCounter in
      let uiNonRandomCounter := uint32 (uiNonRandomCounter + 1) in
      let uiNonRandomCounter :=
        if uiNonRandomCounter >? ucMaxRespTime then 1 else uiNonRandomCounter in
      (ucCountDown, uiNonRandomCounter, rnd')
  | (Some uiRandom, rnd') =>
      (masked_delay ucMaxRespTime RandMask uiRandom, uiNonRandomCounter, rnd')
  end.

(** The test that decides whether a report is rescheduled. *)
Definition needs_reschedule (ucMaxResponseTime : Z) (pxIRD : IGMPReportDesc_t) : bool :=
  (ucCountDown pxIRD <=? 0) || (ucCountDown pxIRD >=? ucMaxResponseTime).

(** The [for] loop over [xIGMP_ScheduleList] on a general query. *)
Fixpoint schedule_reports (ucMaxResponseTime ucMaxRespTime RandMask : Z)
    (uiNonRandomCounter : Z) (rnd : list (option Z))
    (l : list IGMPReportDesc_ptr)
    : list IGMPReportDesc_ptr * list (option Z) :=
  match l with
  | [] => ([], rnd)
  | (p, pxIRD) :: rest =>
      if needs_reschedule ucMaxResponseTime pxIRD then
        let '(c, counter', rnd') :=
          draw_delay ucMaxRespTime RandMask uiNonRandomCounter rnd in
        let '(rest', rnd'') :=
          schedule_reports ucMaxResponseTime ucMaxRespTime RandMask counter' rnd' rest in
        ((p, set_ucCountDown c pxIRD) :: rest', rnd'')
      else
        let '(rest', rnd'') :=
          schedule_reports ucMaxResponseTime ucMaxRespTime RandMask
            uiNonRandomCounter rnd rest in
        ((p, pxIRD) :: rest', rnd'')
  end.

(** ** [eProcessIGMPPacket] *)

Definition eProcessIGMPPacket `{Config}
    (pxNetworkBuffer : NetworkBufferDescriptor_t) (st : State)
    : eFrameProcessingResult_t * State :=
  let eReturn := eReleaseBuffer in
  if xDataLength pxNetworkBuffer <? sizeof_IGMPPacket_t then
    (eReleaseBuffer, st)
  else
    let hdr := cast_xIGMPHeader (pucEthernetBuffer pxNetworkBuffer) in
    if ucTypeOfMessage hdr =? ipIGMP_MEMBERSHIP_QUERY then
      let st := set_Queries (uint32 (uiNumIGMP_Queries st + 1)) st in
      let st :=
        if uiGroupAddress hdr =? 0 then
          let uiNonRandomCounter := 1 in
          let ucMaxRespTime := ucMaxRespTime_of (ucMaxResponseTime hdr) in
          let RandMask := RandMask_of ucMaxRespTime in
          let '(l, rnd) :=
            schedule_reports (ucMaxResponseTime hdr) ucMaxRespTime RandMask
              uiNonRandomCounter (xRandomOutcomes st) (xIGMP_ScheduleList st) in
          set_RandomOutcomes rnd (set_ScheduleList l st)
        else st in
      (eReleaseBuffer, st)
    else if (ucTypeOfMessage hdr =? ipIGMP_MEMBERSHIP_REPORT_V1)
         || (ucTypeOfMessage hdr =? ipIGMP_MEMBERSHIP_REPORT_V2)
         || (ucTypeOfMessage hdr =? ipIGMP_MEMBERSHIP_REPORT_V3) then
      (eReturn, set_Reports (uint32 (uiNumIGMP_Reports st + 1)) st)
    else
      (eReturn, st).

(** ** [vSendIGMP] and [vHandleIGMP_Event] *)

Definition vSendIGMP `{Config} (uiBlockTime ucIgmpMsgType ucIgmpRespTime
    uiMulticastGroup_NBO uiSendToAddr_NBO : Z) (st : State) : State :=
  match pxGetNetworkBufferWithDescriptor (xBufferOutcomes st) with
  | (true, pool) =>
      let pxIGMPPacket :=
        {| xDestinationAddress := vSetMultiCastIPv4MacAddress uiSendToAddr_NBO;
           xSourceAddress := ipLOCAL_MAC_ADDRESS;
           ucVersionHeaderLength := 0x45;
           ucDifferentiatedServicesCode := 0;
           ucTimeToLive := 1;
           ucProtocol := ipPROTOCOL_IGMP;
           ulSourceIPAddress := ipLOCAL_IP_ADDRESS;
           ulDestinationIPAddress := uiSendToAddr_NBO;
           xIGMPHeader :=
             {| ucTypeOfMessage := ucIgmpMsgType;
                ucMaxResponseTime := ucIgmpRespTime;
                uiGroupAddress := uiMulticastGroup_NBO |} |} in
      let uiFrameLen := sizeof_IGMPPacket_t in
      emit [xNetworkInterfaceOutputToPortX pxIGMPPacket uiFrameLen pdTRUE
              ETHERNET_PORT_ALL]
           (set_BufferOutcomes pool st)
  | (false, pool) => set_BufferOutcomes pool st
  end.

(** One pass of the loop body of [vHandleIGMP_Event] over the nodes [l];
    the state carries the buffer pool and the trace. *)
Fixpoint handle_reports `{Config} (l : list IGMPReportDesc_ptr) (st : State)
    : list IGMPReportDesc_ptr * State :=
  match l with
  | [] => ([], st)
  | (p, pxIRD) :: rest =>
      if ucCountDown pxIRD >? 0 then
        let c := uint8 (ucCountDown pxIRD - 1) in
        let st1 :=
          if c =? 0 then
            vSendIGMP 0 ipIGMP_MEMBERSHIP_REPORT_V2 0
                      (ird_group pxIRD) (ird_group pxIRD) st
          else st in
        let '(rest', st2) := handle_reports rest st1 in
        ((p, set_ucCountDown c pxIRD) :: rest', st2)
      else
        let '(rest', st2) := handle_reports rest st in
        ((p, pxIRD) :: rest', st2)
  end.

Definition vHandleIGMP_Event `{Config} (st : State) : State :=
  let '(l, st') := handle_reports (xIGMP_ScheduleList st) st in
  set_ScheduleList l st'.

(** ** Registry operations *)

(** The search loop of [xAddIGMPReportToList]: [Some] of the list with
    the first node of group [group] bumped, [None] when the loop reaches
    the end marker. *)
Fixpoint bump_duplicate (group : Z) (l : list IGMPReportDesc_ptr)
    : option (list IGMPReportDesc_ptr) :=
  match l with
  | [] => None
  | (p, pxIRD) :: rest =>
      if ird_group pxIRD =? group then
        Some ((p, set_xNumSockets (xNumSockets pxIRD + 1) pxIRD) :: rest)
      else
        match bump_duplicate group rest with
        | Some rest' => Some ((p, pxIRD) :: rest')
        | None => None
        end
  end.

(** [xAddIGMPReportToList( pNewEntry )]; [configASSERT( pNewEntry != NULL )]
    is the caller's obligation. *)
Definition xAddIGMPReportToList (pNewEntry : IGMPReportDesc_ptr) (st : State)
    : Z * State :=
  match bump_duplicate (ird_group (snd pNewEntry)) (xIGMP_ScheduleList st) with
  | Some l => (pdFALSE, set_ScheduleList l st)
  | None =>
      let entry := set_xNumSockets 1 (snd pNewEntry) in
      let '(r, rnd) := xApplicationGetRandomNumber (xRandomOutcomes st) in
      let uiRandom :=
        match r with
        | None => uint32 (fst pNewEntry)
        | Some v => v
        end in
      let uiRandom := uint32 (2 + Z.land uiRandom 0x07) in
      let entry := set_ucCountDown (uint8 uiRandom) entry in
      (pdTRUE,
       set_RandomOutcomes rnd
         (set_ScheduleList (xIGMP_ScheduleList st ++ [(fst pNewEntry, entry)]) st))
  end.

(** The loop of [vRemoveIGMPReportFromList]: the list afterwards and the
    calls of [vPortFree] made. *)
Fixpoint remove_report (group : Z) (l : list IGMPReportDesc_ptr)
    : list IGMPReportDesc_ptr * list Event :=
  match l with
  | [] => ([], [])
  | (p, pxIRD) :: rest =>
      if ird_group pxIRD =? group then
        let n := if xNumSockets pxIRD >? 0
                 then xNumSockets pxIRD - 1 else xNumSockets pxIRD in
        if 0 =? n then (rest, [vPortFree p])
        else ((p, set_xNumSockets n pxIRD) :: rest, [])
      else
        let '(rest', evs) := remove_report group rest in
        ((p, pxIRD) :: rest', evs)
  end.

Definition vRemoveIGMPReportFromList (pMCastGroup : freertos_ip_mreq)
    (st : State) : State :=
  let '(l, evs) :=
    remove_report (sin_addr (imr_multiaddr pMCastGroup)) (xIGMP_ScheduleList st) in
  emit evs (set_ScheduleList l st).

(** ** [vModifyMulticastMembership] *)

(** The search loop over the socket's groups: the first node of the
    group, if any. *)
Fixpoint find_group (group : Z) (l : list MCastGroupDesc_ptr)
    : option MCastGroupDesc_ptr :=
  match l with
  | [] => None
  | (p, pxMCG) :: rest =>
      if mcg_group pxMCG =? group then Some (p, pxMCG) else find_group group rest
  end.

(** [uxListRemove] of the node [find_group] returns. *)
Fixpoint unlink_group (group : Z) (l : list MCastGroupDesc_ptr)
    : list MCastGroupDesc_ptr :=
  match l with
  | [] => []
  | (p, pxMCG) :: rest =>
      if mcg_group pxMCG =? group then rest
      else (p, pxMCG) :: unlink_group group rest
  end.

Definition vModifyMulticastMembership `{Config}
    (pxMulticastGroup : MCastGroupDesc_ptr) (bAction : Z) (st : State) : State :=
  if negb (eSocketOptAddMembership =? bAction)
     && negb (eSocketOptDropMembership =? bAction) then st
  else
    let '(addr, desc) := pxMulticastGroup in
    let s := pxSocket desc in
    let groups := xMulticastGroupsList st s in
    let found := find_group (mcg_group desc) groups in
    if eSocketOptAddMembership =? bAction then
      match found with
      | None =>
          (* vListInsertEnd; the node and the argument are one object, so
             the node carries what the lines below leave in the argument. *)
          let st1 := emit [xEMAC_AddMulticastAddress
                             (vSetMultiCastIPv4MacAddress (mcg_group desc))] st in
          match pxIGMPReportDesc desc with
          | Some report =>
              let '(bReportItemConsumed, st2) := xAddIGMPReportToList report st1 in
              if negb (pdTRUE =? bReportItemConsumed) then
                emit [vPortFree (fst report)]
                  (set_GroupsList s
                     (groups ++ [(addr, set_pxIGMPReportDesc None desc)]) st2)
              else
                set_GroupsList s (groups ++ [(addr, desc)]) st2
          | None =>
              set_GroupsList s (groups ++ [(addr, desc)]) st1
          end
      | Some _ =>
          let st1 :=
            match pxIGMPReportDesc desc with
            | Some report => emit [vPortFree (fst report)] st
            | None => st
            end in
          (* bFreeInputItem is still pdTRUE, bFreeMatchedItem pdFALSE *)
          emit [vPortFree addr] st1
      end
    else
      match found with
      | None =>
          emit [vPortFree addr] st
      | Some (pMCG, pxMCG) =>
          let bFreeInputItem := negb (addr =? pMCG) in
          let st1 := set_GroupsList s (unlink_group (mcg_group desc) groups) st in
          let st2 := emit [xEMAC_RemoveMulticastAddress
                             (vSetMultiCastIPv4MacAddress (mcg_group desc))] st1 in
          let st3 := vRemoveIGMPReportFromList (mcg_mreq pxMCG) st2 in
          let st4 := if bFreeInputItem then emit [vPortFree addr] st3 else st3 in
          emit [vPortFree pMCG] st4
      end.

(** ** [vIGMP_Init]

    [pxIRD] is the address [pvPortMalloc] answers with ([NULL] when the
    heap is exhausted); it is asked only when LLMNR is compiled in. *)
Definition vIGMP_Init `{Config} (pxIRD : Z) (st : State) : State :=
  let st := set_ScheduleList [] st in
  let st := emit [xEMAC_AddMulticastAddress
                    (vSetMultiCastIPv4MacAddress ipIGMP_IP_ADDR)] st in
  if ipconfigUSE_LLMNR then
    if negb (NULL =? pxIRD) then
      let desc :=
        {| ird_mreq :=
             {| imr_multiaddr :=
                  {| sin_len := sizeof_freertos_sockaddr;
                     sin_family := FREERTOS_AF_INET;
                     sin_addr := ipLLMNR_IP_ADDR |};
                imr_interface :=
                  {| sin_len := sizeof_freertos_sockaddr;
                     sin_family := FREERTOS_AF_INET;
                     sin_addr := 0 |} |};
           xNumSockets := 0;
           ucCountDown := 0 |} in
      let '(bReportItemConsumed, st') := xAddIGMPReportToList (pxIRD, desc) st in
      if negb (pdTRUE =? bReportItemConsumed) then emit [vPortFree pxIRD] st'
      else st'
    else st
  else st.


(** ** Predicates used in the statements *)

(** What the rescheduling loop does to one node. *)
Definition rescheduled (m : Z) (old new : IGMPReportDesc_ptr) : Prop :=
  fst new = fst old /\
  ird_mreq (snd new) = ird_mreq (snd old) /\
  xNumSockets (snd new) = xNumSockets (snd old) /\
  (needs_reschedule m (snd old) = true ->
     1 <= ucCountDown (snd new) <= max 2 m - 1) /\
  (needs_reschedule m (snd old) = false -> snd new = snd old).

(** A frame that passes the length check, is a membership query, and asks
    about every group. *)
Definition is_general_query `{Config} (buf : NetworkBufferDescriptor_t) : Prop :=
  sizeof_IGMPPacket_t <= xDataLength buf /\
  ucTypeOfMessage (cast_xIGMPHeader (pucEthernetBuffer buf)) = ipIGMP_MEMBERSHIP_QUERY /\
  uiGroupAddress (cast_xIGMPHeader (pucEthernetBuffer buf)) = 0.

Definition query_max_response_time `{Config} (buf : NetworkBufferDescriptor_t) : Z :=
  ucMaxResponseTime (cast_xIGMPHeader (pucEthernetBuffer buf)).


(** The mask the design asks for, in the words of its description: the
    smallest number of the form [2^k - 1] that is at least [window]. *)
Definition smallest_mask (window : Z) : Z := Z.ones (Z.log2_up (window + 1)).

(** The general-query rule as the design document words it: rescheduled
    when the countdown is 0 or exceeds the max-response-time, untouched
    when it is positive and does not exceed it. *)
Definition general_query_rule_as_worded `{Config}
    (buf : NetworkBufferDescriptor_t) (st : State) : Prop :=
  is_general_query buf ->
  Forall2 (fun old new =>
     (ucCountDown (snd old) = 0 \/
      ucCountDown (snd old) > query_max_response_time buf ->
      1 <= ucCountDown (snd new) <= max 2 (query_max_response_time buf) - 1) /\
     (0 < ucCountDown (snd old) <= query_max_response_time buf ->
      snd new = snd old))
    (xIGMP_ScheduleList st)
    (xIGMP_ScheduleList (snd (eProcessIGMPPacket buf st))).

(** ** A concrete build and concrete inputs, for the examples *)

(** The usual mapping of an IPv4 group (network byte order, loaded on a
    little-endian host) to its Ethernet address 01:00:5E plus the low 23
    bits of the group. *)
Definition example_multicast_mac (ip : Z) : MACAddress_t :=
  [0x01; 0x00; 0x5E;
   Z.land (Z.shiftr ip 8) 0x7F; Z.land (Z.shiftr ip 16) 0xFF;
   Z.land (Z.shiftr ip 24) 0xFF].

Definition example_build : Config :=
  {| ipconfigBYTE_ORDER := pdFREERTOS_LITTLE_ENDIAN;
     ipconfigUSE_LLMNR := true;
     ipLLMNR_IP_ADDR := 0xFC0000E0;
     FREERTOS_AF_INET := 2;
     sizeof_freertos_sockaddr := 8;
     sizeof_EthernetHeader_t := 14;
     sizeof_IPHeader_t := 20;
     ipPROTOCOL_IGMP := 2;
     ipLOCAL_MAC_ADDRESS := [0x00; 0x11; 0x22; 0x33; 0x44; 0x55];
     ipLOCAL_IP_ADDRESS := 0x0A00A8C0;
     vSetMultiCastIPv4MacAddress := example_multicast_mac;
     eSocketOptAddMembership := 1;
     eSocketOptDropMembership := 2;
     eSocketOpt_distinct := ltac:(discriminate) |}.

(** A 42-byte frame whose IGMP header has the given type, max response
    time and (one-byte) group address. *)
Definition example_frame (type maxresp group : Z) : NetworkBufferDescriptor_t :=
  {| pucEthernetBuffer := repeat 0 34 ++ [type; maxresp; 0; 0; group; 0; 0; 0];
     xDataLength := 42 |}.

Definition example_sockaddr (addr : Z) : freertos_sockaddr :=
  {| sin_len := 8; sin_family := 2; sin_addr := addr |}.

Definition example_mreq (group : Z) : freertos_ip_mreq :=
  {| imr_multiaddr := example_sockaddr group;
     imr_interface := example_sockaddr 0 |}.

Definition example_report (group sockets countdown : Z) : IGMPReportDesc_t :=
  {| ird_mreq := example_mreq group;
     xNumSockets := sockets;
     ucCountDown := countdown |}.

(** Nothing registered, no socket has a group, no randomness, no buffer. *)
Definition example_empty : State :=
  {| xIGMP_ScheduleList := [];
     xMulticastGroupsList := fun _ => [];
     uiNumIGMP_Queries := 0;
     uiNumIGMP_Reports := 0;
     xRandomOutcomes := [];
     xBufferOutcomes := [];
     xTrace := [] |}.

(** 239.1.2.3 in network byte order on a little-endian host. *)
Definition example_group : Z := 0x030201EF.

(** One registered group with the given countdown. *)
Definition example_registered (countdown : Z) : State :=
  set_ScheduleList [(0x2000, example_report example_group 1 countdown)]
    example_empty.

(** ** Vocabulary of the tick and membership statements *)

(** The countdown fields hold bytes, as their C type says. *)
Definition countdowns_are_bytes (l : list IGMPReportDesc_ptr) : Prop :=
  Forall (fun e => 0 <= ucCountDown (snd e) < 256) l.

(** A report that the coming tick brings to zero. *)
Definition due (e : IGMPReportDesc_ptr) : bool := ucCountDown (snd e) =? 1.

(** Those of [l] for which the buffer pool, asked once per element in
    order, has a buffer. *)
Fixpoint granted {A : Type} (pool : list bool) (l : list A) {struct l} : list A :=
  match l with
  | [] => []
  | x :: rest =>
      match pool with
      | [] => []
      | true :: pool' => x :: granted pool' rest
      | false :: pool' => granted pool' rest
      end
  end.

(** [ev] is the transmission of one IGMPv2 membership report for [group],
    sent to the group itself. *)
Definition is_report_for `{Config} (group : Z) (ev : Event) : Prop :=
  match ev with
  | xNetworkInterfaceOutputToPortX frame _ _ _ =>
      ucTypeOfMessage (xIGMPHeader frame) = ipIGMP_MEMBERSHIP_REPORT_V2 /\
      uiGroupAddress (xIGMPHeader frame) = group /\
      ulDestinationIPAddress frame = group /\
      xDestinationAddress frame = vSetMultiCastIPv4MacAddress group
  | _ => False
  end.

(** What one tick does to a node. *)
Definition ticked (old new : IGMPReportDesc_ptr) : Prop :=
  fst new = fst old /\
  (ucCountDown (snd old) = 0 -> snd new = snd old) /\
  (ucCountDown (snd old) > 0 ->
     snd new = set_ucCountDown (ucCountDown (snd old) - 1) (snd old)).

(** The tick rule as the design document words it: one report frame for
    each node whose countdown the tick brings to zero, and no other. *)
Definition tick_rule_as_worded `{Config} (st : State) : Prop :=
  countdowns_are_bytes (xIGMP_ScheduleList st) ->
  Forall2 ticked (xIGMP_ScheduleList st) (xIGMP_ScheduleList (vHandleIGMP_Event st)) /\
  exists evs,
    xTrace (vHandleIGMP_Event st) = xTrace st ++ evs /\
    Forall2 is_report_for
      (map (fun e => ird_group (snd e)) (filter due (xIGMP_ScheduleList st))) evs.

(** The group addresses of the registered reports, in list order. *)
Definition registered_groups (l : list IGMPReportDesc_ptr) : list Z :=
  map (fun e => ird_group (snd e)) l.

(** The entry points of the module, as calls the IP task can make. *)
Inductive Call :=
| call_vModifyMulticastMembership (pxMulticastGroup : MCastGroupDesc_ptr) (bAction : Z)
| call_xAddIGMPReportToList (pNewEntry : IGMPReportDesc_ptr)
| call_vRemoveIGMPReportFromList (pMCastGroup : freertos_ip_mreq)
| call_eProcessIGMPPacket (pxNetworkBuffer : NetworkBufferDescriptor_t)
| call_vHandleIGMP_Event.

Definition step `{Config} (st : State) (c : Call) : State :=
  match c with
  | call_vModifyMulticastMembership pxMulticastGroup bAction =>
      vModifyMulticastMembership pxMulticastGroup bAction st
  | call_xAddIGMPReportToList pNewEntry => snd (xAddIGMPReportToList pNewEntry st)
  | call_vRemoveIGMPReportFromList pMCastGroup =>
      vRemoveIGMPReportFromList pMCastGroup st
  | call_eProcessIGMPPacket pxNetworkBuffer =>
      snd (eProcessIGMPPacket pxNetworkBuffer st)
  | call_vHandleIGMP_Event => vHandleIGMP_Event st
  end.

Definition run `{Config} (calls : list Call) (st : State) : State :=
  fold_left step calls st.

(** A state with one report due at the coming tick and one buffer. *)
Definition example_due_with_buffer : State :=
  set_BufferOutcomes [true] (example_registered 1).

(** ** Vocabulary of the reference-counting statements *)

(** The registered reports of [group], in list order. *)
Definition reports_of (group : Z) (l : list IGMPReportDesc_ptr)
    : list IGMPReportDesc_ptr :=
  filter (fun e => ird_group (snd e) =? group) l.

(** The calls to the link-layer filter among [evs]. *)
Definition link_filter_calls (evs : list Event) : list Event :=
  filter (fun ev =>
            match ev with
            | xEMAC_AddMulticastAddress _ => true
            | xEMAC_RemoveMulticastAddress _ => true
            | _ => false
            end) evs.

Definition socket_of (req : MCastGroupDesc_ptr) : Z := pxSocket (snd req).

(** A descriptor as a socket sends it to join [group]: it names the group
    and carries a report descriptor for it. *)
Definition joins_group (group : Z) (req : MCastGroupDesc_ptr) : Prop :=
  mcg_group (snd req) = group /\
  exists report,
    pxIGMPReportDesc (snd req) = Some report /\ ird_group (snd report) = group.

Definition join_all `{Config} (reqs : list MCastGroupDesc_ptr) (st : State) : State :=
  fold_left (fun st req => vModifyMulticastMembership req eSocketOptAddMembership st)
    reqs st.

Definition leave_all `{Config} (reqs : list MCastGroupDesc_ptr) (st : State) : State :=
  fold_left (fun st req => vModifyMulticastMembership req eSocketOptDropMembership st)
    reqs st.

(** The sockets of [joins] are distinct and none is a member of [group];
    the group is not registered; [leaves] name the group and come from
    distinct sockets among those that join. *)
Definition join_leave_scenario (group : Z) (st : State)
    (joins leaves : list MCastGroupDesc_ptr) : Prop :=
  reports_of group (xIGMP_ScheduleList st) = [] /\
  Forall (joins_group group) joins /\
  NoDup (map socket_of joins) /\
  Forall (fun req =>
            find_group group (xMulticastGroupsList st (socket_of req)) = None) joins /\
  Forall (fun req => mcg_group (snd req) = group) leaves /\
  NoDup (map socket_of leaves) /\
  incl (map socket_of leaves) (map socket_of joins).

(** Reference counting as the design document words it: all but one of
    the joined sockets leave, one report with socket count 1 remains, and
    the link-layer filter is not called during those leaves. *)
Definition reference_counting_as_worded `{Config} (group : Z) (st : State)
    (joins leaves : list MCastGroupDesc_ptr) : Prop :=
  join_leave_scenario group st joins leaves ->
  S (length leaves) = length joins ->
  (exists p d,
     reports_of group (xIGMP_ScheduleList (leave_all leaves (join_all joins st)))
     = [(p, d)] /\ xNumSockets d = 1) /\
  exists evs,
    xTrace (leave_all leaves (join_all joins st))
    = xTrace (join_all joins st) ++ evs /\
    link_filter_calls evs = [].

(** Socket [s] joins [example_group]: descriptor at [addr], candidate
    report at [report_addr]. *)
Definition example_join (s addr report_addr : Z) : MCastGroupDesc_ptr :=
  (addr, {| mcg_mreq := example_mreq example_group;
            pxSocket := s;
            pxIGMPReportDesc := Some (report_addr, example_report example_group 0 0) |}).

(** Socket [s] leaves [example_group]: descriptor at [addr]. *)
Definition example_leave (s addr : Z) : MCastGroupDesc_ptr :=
  (addr, {| mcg_mreq := example_mreq example_group;
            pxSocket := s;
            pxIGMPReportDesc := None |}).

(** What a join and a leave do to the socket counts of a group's reports. *)
Definition add_count (counts : list Z) : list Z :=
  match counts with
  | c :: rest => (c + 1) :: rest
  | [] => [1]
  end.

Definition sub_count (counts : list Z) : list Z :=
  match counts with
  | c :: rest =>
      let n := if c >? 0 then c - 1 else c in
      if 0 =? n then rest else n :: rest
  | [] => []
  end.

Definition counts_of (group : Z) (l : list IGMPReportDesc_ptr) : list Z :=
  map (fun e => xNumSockets (snd e)) (reports_of group l).

(** Two sockets join [example_group]; the first of them leaves it. *)
Definition example_joins : list MCastGroupDesc_ptr :=
  [example_join 0x5000 0x4000 0x3000; example_join 0x5001 0x4001 0x3001].

Definition example_leaves : list MCastGroupDesc_ptr :=
  [example_leave 0x5000 0x4100].

(** ** Further vocabulary: countdowns, ticks, socket lists *)

(** The countdowns of the registered reports, in list order. *)
Definition countdowns (l : list IGMPReportDesc_ptr) : list Z :=
  map (fun e => ucCountDown (snd e)) l.

(** The window of a query with max-response-time [m]. *)
Definition window_of (m : Z) : Z := max 2 m - 1.

(** [n] consecutive calls of [vHandleIGMP_Event]. *)
Definition ticks `{Config} (n : nat) (st : State) : State :=
  Nat.iter n vHandleIGMP_Event st.

(** The groups of a socket's memberships, in list order. *)
Definition socket_groups (l : list MCastGroupDesc_ptr) : list Z :=
  map (fun e => mcg_group (snd e)) l.

(** Two nodes that differ at most in their countdown. *)
Definition same_report (old new : IGMPReportDesc_ptr) : Prop :=
  fst new = fst old /\
  ird_mreq (snd new) = ird_mreq (snd old) /\
  xNumSockets (snd new) = xNumSockets (snd old).

(** Three registered groups, none scheduled; no randomness, no buffer. *)
Definition example_three_unscheduled : State :=
  set_ScheduleList
    [(0x2000, example_report 0x030201EF 1 0);
     (0x2100, example_report 0x040201EF 2 0);
     (0x2200, example_report 0x050201EF 1 0)]
    example_empty.

(** The groups named by the membership reports transmitted in [evs]. *)
Definition reported_groups (evs : list Event) : list Z :=
  flat_map (fun ev =>
              match ev with
              | xNetworkInterfaceOutputToPortX frame _ _ _ =>
                  [uiGroupAddress (xIGMPHeader frame)]
              | _ => []
              end) evs.

(** The registered reports whose countdown is [t]. *)
Definition due_in (t : Z) (l : list IGMPReportDesc_ptr) : list IGMPReportDesc_ptr :=
  filter (fun e => ucCountDown (snd e) =? t) l.

(** The groups that come due during the next [n] ticks: tick by tick, and
    within a tick in list order. *)
Definition due_schedule (n : nat) (l : list IGMPReportDesc_ptr) : list Z :=
  flat_map (fun t => registered_groups (due_in (Z.of_nat t) l)) (seq 1 n).

(** Reports due after 1, 2 and 2 ticks, and a buffer for each. *)
Definition example_three_scheduled : State :=
  set_BufferOutcomes [true; true; true]
    (set_ScheduleList
       [(0x2000, example_report 0x030201EF 1 2);
        (0x2100, example_report 0x040201EF 2 1);
        (0x2200, example_report 0x050201EF 1 2)]
       example_empty).

(** What every reachable registry satisfies: each report stands for at
    least one socket and its countdown is a byte below 255. *)
Definition report_in_range (e : IGMPReportDesc_ptr) : Prop :=
  1 <= xNumSockets (snd e) /\ 0 <= ucCountDown (snd e) <= 254.

Definition registry_in_range (l : list IGMPReportDesc_ptr) : Prop :=
  Forall report_in_range l.

(** The calls of [vPortFree] on address [p] among [evs]. *)
Definition frees_of (p : Z) (evs : list Event) : list Event :=
  filter (fun ev => match ev with vPortFree q => q =? p | _ => false end) evs.

(** Every socket's group list names each group at most once. *)
Definition socket_lists_unique (st : State) : Prop :=
  forall s, NoDup (socket_groups (xMulticastGroupsList st s)).
(** * Properties *)

(** ** Machine-integer facts *)

Lemma uint8_range (x : Z) : 0 <= uint8 x < 256.
Proof. unfold uint8. apply Z.mod_pos_bound. lia. Qed.

Lemma uint32_range (x : Z) : 0 <= uint32 x < 4294967296.
Proof. unfold uint32. apply Z.mod_pos_bound. lia. Qed.

Lemma uint8_small (x : Z) : 0 <= x < 256 -> uint8 x = x.
Proof. intros Hx. unfold uint8. apply Z.mod_small. exact Hx. Qed.

Lemma uint32_small (x : Z) : 0 <= x < 4294967296 -> uint32 x = x.
Proof. intros Hx. unfold uint32. apply Z.mod_small. exact Hx. Qed.

Lemma read_uint8_range (buf : list Z) (off : Z) : 0 <= read_uint8 buf off < 256.
Proof. apply uint8_range. Qed.

Lemma land_uint32 (a b : Z) :
  0 <= a < 4294967296 -> 0 <= Z.land a b < 4294967296.
Proof.
  intros [Ha0 Ha].
  assert (H0 : 0 <= Z.land a b) by (apply Z.land_nonneg; left; exact Ha0).
  split; [exact H0|].
  destruct (Z.eq_dec (Z.land a b) 0) as [E|E]; [rewrite E; lia|].
  change 4294967296 with (2 ^ 32).
  apply Z.log2_lt_pow2; [lia|].
  assert (Hb : Z.testbit (Z.land a b) (Z.log2 (Z.land a b)) = true)
    by (apply Z.bit_log2; lia).
  rewrite Z.land_spec in Hb. apply andb_true_iff in Hb as [Hb _].
  destruct (Z.lt_ge_cases (Z.log2 (Z.land a b)) 32) as [L|L]; [exact L|].
  rewrite Z.bits_above_log2 in Hb; [discriminate|exact Ha0|].
  assert (Z.log2 a < 32); [|lia].
  destruct (Z.eq_dec a 0) as [Ea|Ea]; [subst a; cbn; lia|].
  apply Z.log2_lt_pow2; lia.
Qed.

(** ** The random delay *)

Lemma max_2_spec (m : Z) : max 2 m = Z.max 2 m.
Proof. unfold max. destruct (2 >? m) eqn:E; lia. Qed.

(** For a byte [m], the window is [max 2 m - 1], between 1 and 254. *)
Lemma ucMaxRespTime_of_spec (m : Z) :
  0 <= m < 256 ->
  ucMaxRespTime_of m = max 2 m - 1 /\ 1 <= ucMaxRespTime_of m <= 254.
Proof.
  intros Hm. unfold ucMaxRespTime_of. rewrite max_2_spec.
  rewrite (uint8_small (Z.max 2 m)) by lia.
  rewrite uint8_small by lia. lia.
Qed.

(** The reduction loop leaves through its exit test whenever the window is
    at least one and the fuel covers the starting value; what it leaves is
    in the window. *)
Lemma subtract_while_exits (fuel : nat) (u w : Z) :
  1 <= w -> 1 <= u < 4294967296 -> u <= Z.of_nat fuel ->
  (subtract_while fuel u w >? w) = false /\ 1 <= subtract_while fuel u w <= w.
Proof.
  intros Hw. revert u. induction fuel as [|fuel IH]; intros u Hu Hf.
  - lia.
  - cbn [subtract_while]. destruct (u >? w) eqn:E.
    + rewrite uint32_small by lia. apply IH; lia.
    + lia.
Qed.

Lemma masked_delay_range (w mask r : Z) :
  1 <= w <= 254 -> 0 <= r < 4294967296 ->
  1 <= masked_delay w mask r <= w.
Proof.
  intros Hw Hr. unfold masked_delay.
  pose proof (land_uint32 r mask Hr) as Hl.
  set (u := if Z.land r mask =? 0 then 1 else Z.land r mask).
  assert (Hu : 1 <= u < 4294967296)
    by (subst u; destruct (Z.land r mask =? 0) eqn:E; lia).
  destruct (subtract_while_exits (Z.to_nat u) u w) as [_ Hb]; [lia|exact Hu|lia|].
  rewrite uint8_small; lia.
Qed.

(** One draw: the delay is in the window and the fallback counter stays
    in it, whatever the random source answers. *)
Lemma draw_delay_range (w mask counter : Z) (rnd : list (option Z)) :
  1 <= w <= 254 -> 1 <= counter <= w ->
  1 <= fst (fst (draw_delay w mask counter rnd)) <= w /\
  1 <= snd (fst (draw_delay w mask counter rnd)) <= w.
Proof.
  intros Hw Hc. unfold draw_delay, xApplicationGetRandomNumber.
  assert (Hfail : forall rnd' : list (option Z),
    let r : Z * Z * list (option Z) :=
      (uint8 counter,
       (if uint32 (counter + 1) >? w then 1 else uint32 (counter + 1)),
       rnd') in
    1 <= fst (fst r) <= w /\ 1 <= snd (fst r) <= w).
  { intros rnd'. cbn [fst snd]. rewrite uint8_small by lia.
    rewrite uint32_small by lia.
    destruct (counter + 1 >? w) eqn:E; lia. }
  destruct rnd as [|[v|] rnd'].
  - apply Hfail.
  - cbn [fst snd]. split; [|exact Hc].
    apply masked_delay_range; [exact Hw|apply uint32_range].
  - apply Hfail.
Qed.

Lemma schedule_reports_spec (m counter : Z) (rnd : list (option Z))
    (l : list IGMPReportDesc_ptr) :
  0 <= m < 256 -> 1 <= counter <= ucMaxRespTime_of m ->
  Forall2 (rescheduled m) l
    (fst (schedule_reports m (ucMaxRespTime_of m)
            (RandMask_of (ucMaxRespTime_of m)) counter rnd l)).
Proof.
  intros Hm. destruct (ucMaxRespTime_of_spec m Hm) as [Hw Hwr].
  revert counter rnd. induction l as [|[p d] l IH]; intros counter rnd Hc.
  - constructor.
  - cbn [schedule_reports]. destruct (needs_reschedule m d) eqn:E.
    + pose proof (draw_delay_range (ucMaxRespTime_of m)
                    (RandMask_of (ucMaxRespTime_of m)) counter rnd Hwr Hc) as [Hd Hc'].
      destruct (draw_delay _ _ counter rnd) as [[c counter'] rnd'].
      cbn [fst snd] in Hd, Hc'.
      specialize (IH counter' rnd' Hc').
      destruct (schedule_reports _ _ _ counter' rnd' l) as [rest' rnd''].
      cbn [fst] in *. constructor; [|exact IH].
      unfold rescheduled. cbn [fst snd set_ucCountDown ird_mreq xNumSockets ucCountDown].
      repeat split; try lia. intros F. congruence.
    + specialize (IH counter rnd Hc).
      destruct (schedule_reports _ _ _ counter rnd l) as [rest' rnd''].
      cbn [fst] in *. constructor; [|exact IH].
      unfold rescheduled. cbn [fst snd]. repeat split; try reflexivity; congruence.
Qed.

Lemma query_max_response_time_range `{Config} (buf : NetworkBufferDescriptor_t) :
  0 <= query_max_response_time buf < 256.
Proof. apply read_uint8_range. Qed.

Lemma general_query_schedule `{Config} (buf : NetworkBufferDescriptor_t) (st : State) :
  is_general_query buf ->
  Forall2 (rescheduled (query_max_response_time buf))
    (xIGMP_ScheduleList st)
    (xIGMP_ScheduleList (snd (eProcessIGMPPacket buf st))).
Proof.
  intros (Hlen & Hty & Hgrp).
  pose proof (query_max_response_time_range buf) as Hm.
  destruct (ucMaxRespTime_of_spec _ Hm) as [_ Hw].
  pose proof (schedule_reports_spec (query_max_response_time buf) 1
                (xRandomOutcomes st) (xIGMP_ScheduleList st) Hm ltac:(lia)) as HS.
  unfold eProcessIGMPPacket.
  destruct (xDataLength buf <? sizeof_IGMPPacket_t) eqn:E; [lia|].
  rewrite Hty, Hgrp. cbn [Z.eqb ipIGMP_MEMBERSHIP_QUERY Pos.eqb].
  unfold query_max_response_time in HS.
  change (xRandomOutcomes (set_Queries (uint32 (uiNumIGMP_Queries st + 1)) st))
    with (xRandomOutcomes st).
  change (xIGMP_ScheduleList (set_Queries (uint32 (uiNumIGMP_Queries st + 1)) st))
    with (xIGMP_ScheduleList st).
  destruct (schedule_reports _ _ _ 1 (xRandomOutcomes st) (xIGMP_ScheduleList st))
    as [l rnd].
  exact HS.
Qed.

(** C4. Bounded randomness: on a general query with max-response-time
    [m], every report that is rescheduled gets a countdown in
    [[1, m - 1]] when [m >= 2], never 0, whatever the random source
    answers (a 32-bit value or a failure served by the fallback counter);
    when [m < 2] the window is that of [m = 2] and the countdown is 1. *)
Theorem general_query_delay_in_window `{Config}
    (buf : NetworkBufferDescriptor_t) (st : State) :
  is_general_query buf ->
  (query_max_response_time buf < 2 ->
     ucMaxRespTime_of (query_max_response_time buf) = ucMaxRespTime_of 2) /\
  Forall2 (fun old new =>
     ucCountDown (snd old) <= 0 \/
     ucCountDown (snd old) >= query_max_response_time buf ->
     ucCountDown (snd new) <> 0 /\
     (2 <= query_max_response_time buf ->
        1 <= ucCountDown (snd new) <= query_max_response_time buf - 1) /\
     (query_max_response_time buf < 2 -> ucCountDown (snd new) = 1))
    (xIGMP_ScheduleList st)
    (xIGMP_ScheduleList (snd (eProcessIGMPPacket buf st))).
Proof.
  intros Hq. pose proof (query_max_response_time_range buf) as Hm. split.
  - intros Hlt.
    destruct (ucMaxRespTime_of_spec _ Hm) as [-> _].
    change (ucMaxRespTime_of 2) with 1. rewrite max_2_spec. lia.
  - eapply Forall2_impl; [|apply general_query_schedule; exact Hq].
    intros [p d] [p' d'] (_ & _ & _ & Hre & _). cbn [fst snd] in *. intros Hc.
    assert (E : needs_reschedule (query_max_response_time buf) d = true).
    { unfold needs_reschedule. apply orb_true_iff. destruct Hc; [left|right]; lia. }
    specialize (Hre E). rewrite max_2_spec in Hre. lia.
Qed.

Lemma general_query_delay_in_window_witness :
  @is_general_query example_build (example_frame 0x11 10 0) /\
  Forall2 (fun old new =>
     ucCountDown (snd old) <= 0 \/ ucCountDown (snd old) >= 10 ->
     ucCountDown (snd new) <> 0 /\
     (2 <= 10 -> 1 <= ucCountDown (snd new) <= 10 - 1) /\
     (10 < 2 -> ucCountDown (snd new) = 1))
    (xIGMP_ScheduleList (example_registered 0))
    (xIGMP_ScheduleList
       (snd (@eProcessIGMPPacket example_build (example_frame 0x11 10 0)
               (example_registered 0)))).
Proof.
  assert (Hq : @is_general_query example_build (example_frame 0x11 10 0)).
  { unfold is_general_query. vm_compute. repeat split; discriminate. }
  split; [exact Hq|].
  exact (proj2 (@general_query_delay_in_window example_build
                  (example_frame 0x11 10 0) (example_registered 0) Hq)).
Defined.

(** C5 (as the code has it). On a general query with max-response-time
    [m], every report whose countdown is 0 or at least [m] gets a freshly
    drawn countdown of the window, and every report whose countdown is
    positive and below [m] is left as it is; nothing else of a node
    changes. *)
Theorem general_query_reschedule_condition `{Config}
    (buf : NetworkBufferDescriptor_t) (st : State) :
  is_general_query buf ->
  Forall2 (fun old new =>
     fst new = fst old /\
     ird_mreq (snd new) = ird_mreq (snd old) /\
     xNumSockets (snd new) = xNumSockets (snd old) /\
     (ucCountDown (snd old) = 0 \/
      ucCountDown (snd old) >= query_max_response_time buf ->
      1 <= ucCountDown (snd new) <= max 2 (query_max_response_time buf) - 1) /\
     (0 < ucCountDown (snd old) < query_max_response_time buf ->
      snd new = snd old))
    (xIGMP_ScheduleList st)
    (xIGMP_ScheduleList (snd (eProcessIGMPPacket buf st))).
Proof.
  intros Hq.
  eapply Forall2_impl; [|apply general_query_schedule; exact Hq].
  intros [p d] [p' d'] (Hp & Hm & Hn & Hre & Hkeep). cbn [fst snd] in *.
  split; [exact Hp|]. split; [exact Hm|]. split; [exact Hn|]. split.
  - intros Hc. apply Hre. unfold needs_reschedule. apply orb_true_iff.
    destruct Hc; [left|right]; lia.
  - intros Hc. apply Hkeep. unfold needs_reschedule. apply orb_false_iff.
    split; lia.
Qed.

Lemma general_query_reschedule_condition_witness :
  @is_general_query example_build (example_frame 0x11 11 0) /\
  Forall2 (fun old new =>
     fst new = fst old /\
     ird_mreq (snd new) = ird_mreq (snd old) /\
     xNumSockets (snd new) = xNumSockets (snd old) /\
     (ucCountDown (snd old) = 0 \/ ucCountDown (snd old) >= 11 ->
      1 <= ucCountDown (snd new) <= max 2 11 - 1) /\
     (0 < ucCountDown (snd old) < 11 -> snd new = snd old))
    (xIGMP_ScheduleList (example_registered 3))
    (xIGMP_ScheduleList
       (snd (@eProcessIGMPPacket example_build (example_frame 0x11 11 0)
               (example_registered 3)))).
Proof.
  assert (Hq : @is_general_query example_build (example_frame 0x11 11 0)).
  { unfold is_general_query. vm_compute. repeat split; discriminate. }
  split; [exact Hq|].
  exact (@general_query_reschedule_condition example_build
           (example_frame 0x11 11 0) (example_registered 3) Hq).
Defined.

(** A report due in 3 ticks keeps its countdown under a query whose
    window is 10 (max-response-time 11). *)
Example general_query_keeps_earlier_report :
  map (fun e => ucCountDown (snd e))
    (xIGMP_ScheduleList
       (snd (@eProcessIGMPPacket example_build (example_frame 0x11 11 0)
               (example_registered 3)))) = [3].
Proof. vm_compute. reflexivity. Qed.

(** C5 (as worded) fails: a report with countdown 5 under a general query
    with max-response-time 5 does not exceed it, yet it is rescheduled
    (here to 1, from the fallback counter). *)
Lemma general_query_equal_countdown_overwritten :
  ~ @general_query_rule_as_worded example_build
      (example_frame 0x11 5 0) (example_registered 5).
Proof.
  unfold general_query_rule_as_worded. intros Hclaim.
  assert (Hq : @is_general_query example_build (example_frame 0x11 5 0)).
  { unfold is_general_query. vm_compute. repeat split; discriminate. }
  specialize (Hclaim Hq).
  assert (E : xIGMP_ScheduleList
                (snd (@eProcessIGMPPacket example_build (example_frame 0x11 5 0)
                        (example_registered 5)))
              = [(0x2000, example_report example_group 1 1)])
    by (vm_compute; reflexivity).
  rewrite E in Hclaim.
  change (xIGMP_ScheduleList (example_registered 5))
    with [(0x2000, example_report example_group 1 5)] in Hclaim.
  inversion Hclaim as [|old new l l' [_ Hkeep] Hrest]; subst.
  cbn [snd] in Hkeep.
  assert (Hc : 0 < ucCountDown (example_report example_group 1 5)
               <= @query_max_response_time example_build (example_frame 0x11 5 0))
    by (vm_compute; split; [reflexivity|discriminate]).
  specialize (Hkeep Hc). discriminate Hkeep.
Qed.

(** ** The random mask *)

(** [smallest_mask] is what its name says. *)
Lemma smallest_mask_spec (window : Z) :
  1 <= window ->
  window <= smallest_mask window /\
  smallest_mask window = 2 ^ Z.log2_up (window + 1) - 1 /\
  (forall k, 0 <= k -> window <= 2 ^ k - 1 -> smallest_mask window <= 2 ^ k - 1).
Proof.
  intros Hw. unfold smallest_mask. rewrite Z.ones_equiv.
  destruct (Z.log2_up_spec (window + 1)) as [_ Hup]; [lia|].
  split; [lia|]. split; [lia|].
  intros k Hk Hle.
  assert (Z.log2_up (window + 1) <= k) by (apply Z.log2_up_le_pow2; lia).
  assert (2 ^ Z.log2_up (window + 1) <= 2 ^ k) by (apply Z.pow_le_mono_r; lia).
  lia.
Qed.

(** C7. The mask of the code against the smallest [2^k - 1] that is at
    least the window: for max-response-time 3 (window 2) the code masks
    with 1 where 3 is asked for, and for max-response-time 130 (window
    129) with 240, which is not of the form [2^k - 1], where 255 is asked
    for. *)
Theorem RandMask_of_misses_smallest_mask :
  ucMaxRespTime_of 3 = 2 /\
  RandMask_of (ucMaxRespTime_of 3) = 1 /\
  smallest_mask (ucMaxRespTime_of 3) = 3 /\
  ucMaxRespTime_of 130 = 129 /\
  RandMask_of (ucMaxRespTime_of 130) = 240 /\
  smallest_mask (ucMaxRespTime_of 130) = 255.
Proof. vm_compute. repeat split; reflexivity. Qed.

(** With window 2 every successful draw is reduced to 1: the delay 2 is
    never chosen from a random value. *)
Lemma masked_delay_window_2 (uiRandom : Z) :
  0 <= uiRandom ->
  masked_delay 2 (RandMask_of 2) uiRandom = 1.
Proof.
  intros Hr. change (RandMask_of 2) with (Z.ones 1). unfold masked_delay.
  rewrite Z.land_ones by lia.
  assert (Hm : uiRandom mod 2 ^ 1 = 0 \/ uiRandom mod 2 ^ 1 = 1)
    by (pose proof (Z.mod_pos_bound uiRandom (2 ^ 1)); lia).
  destruct Hm as [-> | ->]; reflexivity.
Qed.

(** ** Receiving frames *)

(** C8. Short-frame safety: a buffer whose data length is below the size
    of the Ethernet, IP and IGMP headers together is released at once; the
    result and the state (schedule list, counters, everything else) are
    the same whatever bytes the buffer holds, so no header field takes
    part. *)
Theorem short_frame_released_untouched `{Config}
    (pxNetworkBuffer : NetworkBufferDescriptor_t) (st : State) :
  xDataLength pxNetworkBuffer < sizeof_IGMPPacket_t ->
  eProcessIGMPPacket pxNetworkBuffer st = (eReleaseBuffer, st) /\
  (forall bytes : list Z,
     eProcessIGMPPacket
       {| pucEthernetBuffer := bytes; xDataLength := xDataLength pxNetworkBuffer |}
       st = (eReleaseBuffer, st)).
Proof.
  intros Hlen. unfold eProcessIGMPPacket. cbn [xDataLength].
  assert (E : (xDataLength pxNetworkBuffer <? sizeof_IGMPPacket_t) = true)
    by (apply Z.ltb_lt; exact Hlen).
  rewrite E. split; [reflexivity|intros bytes; reflexivity].
Qed.

(** One byte short of the 42 bytes of the example build, with the bytes
    of a general query. *)
Lemma short_frame_released_untouched_witness :
  let short :=
    {| pucEthernetBuffer := pucEthernetBuffer (example_frame 0x11 10 0);
       xDataLength := 41 |} in
  xDataLength short < @sizeof_IGMPPacket_t example_build /\
  @eProcessIGMPPacket example_build short (example_registered 0)
  = (eReleaseBuffer, example_registered 0).
Proof.
  cbn zeta.
  assert (Hlen : 41 < @sizeof_IGMPPacket_t example_build) by reflexivity.
  split; [exact Hlen|].
  exact (proj1 (@short_frame_released_untouched example_build
                  {| pucEthernetBuffer := pucEthernetBuffer (example_frame 0x11 10 0);
                     xDataLength := 41 |}
                  (example_registered 0) Hlen)).
Defined.

(** C9. Discard-only result: whatever the buffer (any length, any
    message type) and whatever the state, [eProcessIGMPPacket] returns
    [eReleaseBuffer]. *)
Theorem eProcessIGMPPacket_releases `{Config}
    (pxNetworkBuffer : NetworkBufferDescriptor_t) (st : State) :
  fst (eProcessIGMPPacket pxNetworkBuffer st) = eReleaseBuffer.
Proof.
  unfold eProcessIGMPPacket.
  destruct (xDataLength pxNetworkBuffer <? sizeof_IGMPPacket_t); [reflexivity|].
  destruct (ucTypeOfMessage _ =? ipIGMP_MEMBERSHIP_QUERY); [reflexivity|].
  destruct ((ucTypeOfMessage _ =? ipIGMP_MEMBERSHIP_REPORT_V1)
            || (ucTypeOfMessage _ =? ipIGMP_MEMBERSHIP_REPORT_V2)
            || (ucTypeOfMessage _ =? ipIGMP_MEMBERSHIP_REPORT_V3)); reflexivity.
Qed.

(** ** The tick *)

Lemma vSendIGMP_spec `{Config} (block type resp group dest : Z) (st : State) :
  xIGMP_ScheduleList (vSendIGMP block type resp group dest st) = xIGMP_ScheduleList st /\
  match xBufferOutcomes st with
  | true :: pool =>
      xBufferOutcomes (vSendIGMP block type resp group dest st) = pool /\
      exists frame len,
        xTrace (vSendIGMP block type resp group dest st)
        = xTrace st ++ [xNetworkInterfaceOutputToPortX frame len pdTRUE ETHERNET_PORT_ALL] /\
        ucTypeOfMessage (xIGMPHeader frame) = type /\
        ucMaxResponseTime (xIGMPHeader frame) = resp /\
        uiGroupAddress (xIGMPHeader frame) = group /\
        ulDestinationIPAddress frame = dest /\
        xDestinationAddress frame = vSetMultiCastIPv4MacAddress dest
  | false :: pool =>
      xBufferOutcomes (vSendIGMP block type resp group dest st) = pool /\
      xTrace (vSendIGMP block type resp group dest st) = xTrace st
  | [] =>
      xBufferOutcomes (vSendIGMP block type resp group dest st) = [] /\
      xTrace (vSendIGMP block type resp group dest st) = xTrace st
  end.
Proof.
  unfold vSendIGMP, pxGetNetworkBufferWithDescriptor.
  destruct (xBufferOutcomes st) as [|[|] pool]; cbn.
  - repeat split; reflexivity.
  - split; [reflexivity|]. split; [reflexivity|].
    do 2 eexists. repeat split; reflexivity.
  - repeat split; reflexivity.
Qed.

Lemma handle_reports_spec `{Config} (l : list IGMPReportDesc_ptr) (st : State) :
  countdowns_are_bytes l ->
  Forall2 ticked l (fst (handle_reports l st)) /\
  exists evs,
    xTrace (snd (handle_reports l st)) = xTrace st ++ evs /\
    Forall2 is_report_for
      (map (fun e => ird_group (snd e)) (granted (xBufferOutcomes st) (filter due l)))
      evs.
Proof.
  revert st. induction l as [|[p d] l IH]; intros st Hb.
  - cbn. split; [constructor|]. exists []. rewrite app_nil_r.
    split; [reflexivity|constructor].
  - inversion Hb as [|x l0 Hd Hl]; subst. cbn [snd] in Hd.
    cbn [handle_reports filter]. unfold due at 1. cbn [snd].
    destruct (ucCountDown d >? 0) eqn:Epos.
    + destruct (ucCountDown d =? 1) eqn:Eone.
      * assert (ucCountDown d = 1) as E1 by lia. rewrite E1.
        change (uint8 (1 - 1) =? 0) with true. cbn iota.
        destruct (vSendIGMP_spec 0 ipIGMP_MEMBERSHIP_REPORT_V2 0
                    (ird_group d) (ird_group d) st) as [_ Hsend].
        set (st1 := vSendIGMP 0 ipIGMP_MEMBERSHIP_REPORT_V2 0
                      (ird_group d) (ird_group d) st) in *.
        destruct (IH st1 Hl) as [HF (evs & Htr & Hev)].
        destruct (handle_reports l st1) as [rest' st2]. cbn [fst snd] in *.
        split.
        { constructor; [|exact HF]. unfold ticked. cbn [fst snd].
          rewrite E1. repeat split; try reflexivity. lia. }
        destruct (xBufferOutcomes st) as [|[|] pool].
        -- destruct Hsend as [Hpool Htr1]. rewrite Hpool in Hev.
           exists evs. rewrite Htr, Htr1. split; [reflexivity|].
           cbn [granted map]. destruct (filter due l); exact Hev.
        -- destruct Hsend as [Hpool (frame & len & Htr1 & Hty & _ & Hg & Hdst & Hmac)].
           rewrite Hpool in Hev.
           exists (xNetworkInterfaceOutputToPortX frame len pdTRUE ETHERNET_PORT_ALL :: evs).
           rewrite Htr, Htr1, <- app_assoc. split; [reflexivity|].
           cbn [granted map snd]. constructor; [|exact Hev].
           cbn. repeat split; assumption.
        -- destruct Hsend as [Hpool Htr1]. rewrite Hpool in Hev.
           exists evs. rewrite Htr, Htr1. split; [reflexivity|]. exact Hev.
      * assert (Hnz : (uint8 (ucCountDown d - 1) =? 0) = false).
        { rewrite uint8_small by lia. lia. }
        rewrite Hnz.
        destruct (IH st Hl) as [HF Hev].
        destruct (handle_reports l st) as [rest' st2]. cbn [fst snd] in *.
        split; [|exact Hev].
        constructor; [|exact HF]. unfold ticked. cbn [fst snd].
        rewrite uint8_small by lia. repeat split; try reflexivity. lia.
    + assert (ucCountDown d = 0) as E0 by lia.
      rewrite E0. change (0 =? 1) with false. cbn iota.
      destruct (IH st Hl) as [HF Hev].
      destruct (handle_reports l st) as [rest' st2]. cbn [fst snd] in *.
      split; [|exact Hev].
      constructor; [|exact HF]. unfold ticked. cbn [fst snd].
      repeat split; try reflexivity. lia.
Qed.

(** C6 (as the code has it). One tick leaves a report with countdown 0 as
    it is and lowers every positive countdown by one. The frames it sends
    are, in list order, one IGMPv2 membership report per node whose
    countdown went from 1 to 0 and for which the buffer pool had a buffer,
    each for the node's group and addressed to that group; a node that
    comes due while the pool is empty is not reported. *)
Theorem tick_decrements_and_reports `{Config} (st : State) :
  countdowns_are_bytes (xIGMP_ScheduleList st) ->
  Forall2 ticked (xIGMP_ScheduleList st) (xIGMP_ScheduleList (vHandleIGMP_Event st)) /\
  exists evs,
    xTrace (vHandleIGMP_Event st) = xTrace st ++ evs /\
    Forall2 is_report_for
      (map (fun e => ird_group (snd e))
         (granted (xBufferOutcomes st) (filter due (xIGMP_ScheduleList st))))
      evs.
Proof.
  intros Hb. unfold vHandleIGMP_Event.
  destruct (handle_reports_spec (xIGMP_ScheduleList st) st Hb) as [HF Hev].
  destruct (handle_reports (xIGMP_ScheduleList st) st) as [l st'].
  cbn [fst snd] in *. split; [exact HF|exact Hev].
Qed.

Lemma tick_decrements_and_reports_witness :
  countdowns_are_bytes (xIGMP_ScheduleList example_due_with_buffer) /\
  exists evs,
    xTrace (@vHandleIGMP_Event example_build example_due_with_buffer)
    = xTrace example_due_with_buffer ++ evs /\
    Forall2 (@is_report_for example_build)
      (map (fun e => ird_group (snd e))
         (granted (xBufferOutcomes example_due_with_buffer)
            (filter due (xIGMP_ScheduleList example_due_with_buffer))))
      evs.
Proof.
  assert (Hb : countdowns_are_bytes (xIGMP_ScheduleList example_due_with_buffer)).
  { repeat constructor; discriminate. }
  split; [exact Hb|].
  exact (proj2 (@tick_decrements_and_reports example_build
                  example_due_with_buffer Hb)).
Defined.

(** With a buffer for every report that comes due, each of them is sent. *)
Lemma granted_all_available {A : Type} (pool : list bool) (l : list A) :
  (length l <= length pool)%nat ->
  Forall (fun b => b = true) (firstn (length l) pool) ->
  granted pool l = l.
Proof.
  revert pool. induction l as [|x l IH]; intros pool Hlen Hall; [reflexivity|].
  destruct pool as [|b pool]; cbn in Hlen; [lia|].
  cbn [length firstn] in Hall. inversion Hall as [|? ? Hb Hall']; subst.
  cbn [granted]. rewrite IH; [reflexivity|lia|exact Hall'].
Qed.

Corollary tick_reports_every_due_node `{Config} (st : State) :
  countdowns_are_bytes (xIGMP_ScheduleList st) ->
  (length (filter due (xIGMP_ScheduleList st)) <= length (xBufferOutcomes st))%nat ->
  Forall (fun b => b = true)
    (firstn (length (filter due (xIGMP_ScheduleList st))) (xBufferOutcomes st)) ->
  exists evs,
    xTrace (vHandleIGMP_Event st) = xTrace st ++ evs /\
    Forall2 is_report_for
      (map (fun e => ird_group (snd e)) (filter due (xIGMP_ScheduleList st))) evs.
Proof.
  intros Hb Hlen Hall.
  destruct (handle_reports_spec (xIGMP_ScheduleList st) st Hb) as [_ Hev].
  unfold vHandleIGMP_Event.
  destruct (handle_reports (xIGMP_ScheduleList st) st) as [l st'].
  cbn [fst snd] in *. rewrite granted_all_available in Hev by assumption.
  exact Hev.
Qed.

(** C6 (as worded) fails: the report of [example_registered 1] comes due
    at the tick, the buffer pool is empty, and no frame is sent. *)
Lemma tick_without_buffer_sends_nothing :
  ~ @tick_rule_as_worded example_build (example_registered 1).
Proof.
  unfold tick_rule_as_worded. intros Hclaim.
  destruct Hclaim as [_ (evs & Htr & Hev)].
  { repeat constructor; discriminate. }
  vm_compute in Htr. subst evs.
  vm_compute in Hev. inversion Hev.
Qed.

(** ** Frame lemmas for the registry operations *)

Lemma bump_duplicate_groups (group : Z) (l l' : list IGMPReportDesc_ptr) :
  bump_duplicate group l = Some l' ->
  registered_groups l' = registered_groups l /\ map fst l' = map fst l /\
  In group (registered_groups l).
Proof.
  unfold registered_groups.
  revert l'. induction l as [|[p d] l IH]; intros l' Hb; cbn in Hb; [discriminate|].
  destruct (ird_group d =? group) eqn:E.
  - injection Hb as <-. cbn. repeat split. left. lia.
  - destruct (bump_duplicate group l) as [rest'|]; [|discriminate].
    injection Hb as <-. destruct (IH rest' eq_refl) as (Hg & Hp & Hin).
    cbn. rewrite Hg, Hp. repeat split. right. exact Hin.
Qed.

Lemma bump_duplicate_None (group : Z) (l : list IGMPReportDesc_ptr) :
  bump_duplicate group l = None <-> ~ In group (registered_groups l).
Proof.
  unfold registered_groups.
  induction l as [|[p d] l IH]; cbn.
  - split; [intros _ []|reflexivity].
  - destruct (ird_group d =? group) eqn:E.
    + split; [discriminate|]. intros Hn. exfalso. apply Hn. left. lia.
    + destruct (bump_duplicate group l) as [rest'|].
      * split; [discriminate|]. intros Hn. exfalso.
        assert (Hin : ~ In group (map (fun e => ird_group (snd e)) l)) by tauto.
        apply IH in Hin. discriminate.
      * split; [|reflexivity]. intros _ [Heq|Hin]; [lia|].
        apply IH in Hin; [exact Hin|reflexivity].
Qed.

Lemma xAddIGMPReportToList_frame (pNewEntry : IGMPReportDesc_ptr) (st : State) :
  xTrace (snd (xAddIGMPReportToList pNewEntry st)) = xTrace st /\
  xMulticastGroupsList (snd (xAddIGMPReportToList pNewEntry st))
  = xMulticastGroupsList st /\
  xBufferOutcomes (snd (xAddIGMPReportToList pNewEntry st)) = xBufferOutcomes st.
Proof.
  unfold xAddIGMPReportToList.
  destruct (bump_duplicate _ _); [repeat split|].
  destruct (xApplicationGetRandomNumber _) as [r rnd]. repeat split.
Qed.

Lemma remove_report_groups (group : Z) (l : list IGMPReportDesc_ptr) :
  NoDup (registered_groups l) ->
  NoDup (registered_groups (fst (remove_report group l))) /\
  (forall g, In g (registered_groups (fst (remove_report group l))) ->
             In g (registered_groups l)).
Proof.
  unfold registered_groups.
  induction l as [|[p d] l IH]; intros Hnd; cbn [remove_report].
  - split; [constructor|intros g []].
  - inversion Hnd as [|g0 l0 Hnotin Hnd']; subst. cbn [snd] in Hnotin.
    destruct (ird_group d =? group) eqn:E.
    + destruct (0 =? (if xNumSockets d >? 0 then xNumSockets d - 1 else xNumSockets d));
        cbn [fst map snd set_xNumSockets ird_group ird_mreq].
      * split; [exact Hnd'|]. intros g Hg. right. exact Hg.
      * split; [exact Hnd|]. intros g Hg. exact Hg.
    + destruct (IH Hnd') as [IH1 IH2].
      destruct (remove_report group l) as [rest' evs].
      cbn [fst map snd] in *.
      split.
      * constructor; [|exact IH1]. intros Hin. apply Hnotin, IH2, Hin.
      * intros g [Hg|Hg]; [left; exact Hg|right; apply IH2, Hg].
Qed.

Lemma vRemoveIGMPReportFromList_frame (pMCastGroup : freertos_ip_mreq) (st : State) :
  xMulticastGroupsList (vRemoveIGMPReportFromList pMCastGroup st)
  = xMulticastGroupsList st /\
  xIGMP_ScheduleList (vRemoveIGMPReportFromList pMCastGroup st)
  = fst (remove_report (sin_addr (imr_multiaddr pMCastGroup)) (xIGMP_ScheduleList st)) /\
  xTrace (vRemoveIGMPReportFromList pMCastGroup st)
  = xTrace st
    ++ snd (remove_report (sin_addr (imr_multiaddr pMCastGroup)) (xIGMP_ScheduleList st)).
Proof.
  unfold vRemoveIGMPReportFromList.
  destruct (remove_report _ _) as [l evs]. repeat split.
Qed.

(** ** Uniqueness of the registered groups *)

Arguments registered_groups : simpl never.

Lemma registered_groups_app (l l' : list IGMPReportDesc_ptr) :
  registered_groups (l ++ l') = registered_groups l ++ registered_groups l'.
Proof. unfold registered_groups. apply map_app. Qed.

Lemma xAddIGMPReportToList_unique (pNewEntry : IGMPReportDesc_ptr) (st : State) :
  NoDup (registered_groups (xIGMP_ScheduleList st)) ->
  NoDup (registered_groups (xIGMP_ScheduleList (snd (xAddIGMPReportToList pNewEntry st)))).
Proof.
  intros Hnd. unfold xAddIGMPReportToList.
  destruct (bump_duplicate _ _) as [l|] eqn:Eb.
  - apply bump_duplicate_groups in Eb as [Hg _]. cbn. rewrite Hg. exact Hnd.
  - apply bump_duplicate_None in Eb.
    destruct (xApplicationGetRandomNumber _) as [r rnd]. cbn [snd].
    cbn [xIGMP_ScheduleList set_RandomOutcomes set_ScheduleList].
    rewrite registered_groups_app. apply NoDup_app; [exact Hnd| |].
    + cbn. constructor; [intros []|constructor].
    + intros g Hin [Hg|[]]. cbn in Hg. subst g. exact (Eb Hin).
Qed.

Lemma vRemoveIGMPReportFromList_unique (pMCastGroup : freertos_ip_mreq) (st : State) :
  NoDup (registered_groups (xIGMP_ScheduleList st)) ->
  NoDup (registered_groups (xIGMP_ScheduleList (vRemoveIGMPReportFromList pMCastGroup st))).
Proof.
  intros Hnd.
  destruct (vRemoveIGMPReportFromList_frame pMCastGroup st) as (_ & -> & _).
  apply remove_report_groups, Hnd.
Qed.

Lemma schedule_reports_groups (m w mask counter : Z) (rnd : list (option Z))
    (l : list IGMPReportDesc_ptr) :
  registered_groups (fst (schedule_reports m w mask counter rnd l))
  = registered_groups l.
Proof.
  unfold registered_groups.
  revert counter rnd. induction l as [|[p d] l IH]; intros counter rnd;
    cbn [schedule_reports]; [reflexivity|].
  destruct (needs_reschedule m d).
  - destruct (draw_delay w mask counter rnd) as [[c counter'] rnd'].
    specialize (IH counter' rnd').
    destruct (schedule_reports m w mask counter' rnd' l) as [rest' rnd''].
    cbn [fst map snd] in *. rewrite IH. reflexivity.
  - specialize (IH counter rnd).
    destruct (schedule_reports m w mask counter rnd l) as [rest' rnd''].
    cbn [fst map snd] in *. rewrite IH. reflexivity.
Qed.

Lemma eProcessIGMPPacket_groups `{Config}
    (pxNetworkBuffer : NetworkBufferDescriptor_t) (st : State) :
  registered_groups (xIGMP_ScheduleList (snd (eProcessIGMPPacket pxNetworkBuffer st)))
  = registered_groups (xIGMP_ScheduleList st).
Proof.
  unfold eProcessIGMPPacket.
  destruct (xDataLength pxNetworkBuffer <? sizeof_IGMPPacket_t); [reflexivity|].
  destruct (ucTypeOfMessage _ =? ipIGMP_MEMBERSHIP_QUERY).
  - destruct (uiGroupAddress _ =? 0); [|reflexivity].
    cbn [snd xRandomOutcomes xIGMP_ScheduleList set_Queries].
    match goal with
    | |- context [schedule_reports ?m ?w ?k ?c ?r ?l] =>
        pose proof (schedule_reports_groups m w k c r l) as Hs;
        destruct (schedule_reports m w k c r l) as [l' rnd]
    end.
    exact Hs.
  - destruct (_ || _); reflexivity.
Qed.

Lemma handle_reports_groups `{Config} (l : list IGMPReportDesc_ptr) (st : State) :
  registered_groups (fst (handle_reports l st)) = registered_groups l.
Proof.
  unfold registered_groups.
  revert st. induction l as [|[p d] l IH]; intros st; cbn [handle_reports];
    [reflexivity|].
  destruct (ucCountDown d >? 0).
  - match goal with
    | |- context [handle_reports l ?s] =>
        specialize (IH s); destruct (handle_reports l s) as [rest' st2]
    end.
    cbn [fst map snd] in *. rewrite IH. reflexivity.
  - specialize (IH st). destruct (handle_reports l st) as [rest' st2].
    cbn [fst map snd] in *. rewrite IH. reflexivity.
Qed.

Lemma vHandleIGMP_Event_groups `{Config} (st : State) :
  registered_groups (xIGMP_ScheduleList (vHandleIGMP_Event st))
  = registered_groups (xIGMP_ScheduleList st).
Proof.
  unfold vHandleIGMP_Event.
  pose proof (handle_reports_groups (xIGMP_ScheduleList st) st) as Hh.
  destruct (handle_reports (xIGMP_ScheduleList st) st) as [l st']. exact Hh.
Qed.

Lemma vModifyMulticastMembership_unique `{Config}
    (pxMulticastGroup : MCastGroupDesc_ptr) (bAction : Z) (st : State) :
  NoDup (registered_groups (xIGMP_ScheduleList st)) ->
  NoDup (registered_groups
           (xIGMP_ScheduleList (vModifyMulticastMembership pxMulticastGroup bAction st))).
Proof.
  intros Hnd. unfold vModifyMulticastMembership.
  destruct (negb _ && negb _); [exact Hnd|].
  destruct pxMulticastGroup as [addr desc].
  destruct (eSocketOptAddMembership =? bAction).
  - destruct (find_group _ _) as [found|].
    + destruct (pxIGMPReportDesc desc); exact Hnd.
    + destruct (pxIGMPReportDesc desc) as [report|]; [|exact Hnd].
      match goal with
      | |- context [xAddIGMPReportToList report ?s] =>
          pose proof (xAddIGMPReportToList_unique report s Hnd) as Ha;
          destruct (xAddIGMPReportToList report s) as [consumed st2]
      end.
      destruct (negb _); exact Ha.
  - destruct (find_group _ _) as [[pMCG pxMCG]|]; [|exact Hnd].
    destruct (negb (addr =? pMCG)); cbn [xIGMP_ScheduleList emit];
      apply vRemoveIGMPReportFromList_unique; exact Hnd.
Qed.

Lemma vIGMP_Init_unique `{Config} (pxIRD : Z) (st : State) :
  NoDup (registered_groups (xIGMP_ScheduleList (vIGMP_Init pxIRD st))).
Proof.
  unfold vIGMP_Init.
  assert (H0 : NoDup (registered_groups (@nil IGMPReportDesc_ptr))) by constructor.
  destruct ipconfigUSE_LLMNR; [|exact H0].
  destruct (negb (NULL =? pxIRD)); [|exact H0].
  match goal with
  | |- context [xAddIGMPReportToList ?e ?s] =>
      pose proof (xAddIGMPReportToList_unique e s H0) as Ha;
      destruct (xAddIGMPReportToList e s) as [consumed st']
  end.
  destruct (negb _); exact Ha.
Qed.

Lemma step_unique `{Config} (st : State) (c : Call) :
  NoDup (registered_groups (xIGMP_ScheduleList st)) ->
  NoDup (registered_groups (xIGMP_ScheduleList (step st c))).
Proof.
  intros Hnd. destruct c; cbn [step].
  - apply vModifyMulticastMembership_unique, Hnd.
  - apply xAddIGMPReportToList_unique, Hnd.
  - apply vRemoveIGMPReportFromList_unique, Hnd.
  - rewrite eProcessIGMPPacket_groups. exact Hnd.
  - rewrite vHandleIGMP_Event_groups. exact Hnd.
Qed.

(** C1. Registry uniqueness: after [vIGMP_Init], whatever it found before
    and whatever the allocator answered, and after any sequence of calls
    of the module (joins and leaves with any descriptor and action, direct
    registry calls, received frames, ticks), no two registered reports
    have the same multicast group address. *)
Theorem registry_groups_unique `{Config} (pxIRD : Z) (st0 : State)
    (calls : list Call) :
  NoDup (registered_groups
           (xIGMP_ScheduleList (run calls (vIGMP_Init pxIRD st0)))).
Proof.
  unfold run.
  pose proof (vIGMP_Init_unique pxIRD st0) as Hinit.
  revert Hinit. generalize (vIGMP_Init pxIRD st0).
  induction calls as [|c calls IH]; intros st Hnd; cbn [fold_left].
  - exact Hnd.
  - apply IH, step_unique, Hnd.
Qed.

(** ** The ownership contract of [xAddIGMPReportToList] *)

Lemma bump_duplicate_Some (group : Z) (l l' : list IGMPReportDesc_ptr) :
  bump_duplicate group l = Some l' ->
  exists before p d after,
    l = before ++ (p, d) :: after /\
    ~ In group (registered_groups before) /\
    ird_group d = group /\
    l' = before ++ (p, set_xNumSockets (xNumSockets d + 1) d) :: after.
Proof.
  unfold registered_groups.
  revert l'. induction l as [|[p d] l IH]; intros l' Hb; cbn in Hb; [discriminate|].
  destruct (ird_group d =? group) eqn:E.
  - injection Hb as <-. exists [], p, d, l. cbn. repeat split; [tauto|lia].
  - destruct (bump_duplicate group l) as [rest'|]; [|discriminate].
    injection Hb as <-.
    destruct (IH rest' eq_refl) as (before & p0 & d0 & after & -> & Hnot & Hg & ->).
    exists ((p, d) :: before), p0, d0, after. cbn. repeat split; [|exact Hg].
    intros [Heq|Hin]; [lia|exact (Hnot Hin)].
Qed.

Lemma unsolicited_countdown_range (uiRandom : Z) :
  0 <= uiRandom ->
  2 <= uint8 (uint32 (2 + Z.land uiRandom 0x07)) <= 9.
Proof.
  intros Hr. change 0x07 with (Z.ones 3). rewrite Z.land_ones by lia.
  pose proof (Z.mod_pos_bound uiRandom (2 ^ 3) ltac:(lia)) as Hm.
  change (2 ^ 3) with 8 in *.
  rewrite uint32_small by lia. rewrite uint8_small by lia. lia.
Qed.

(** C3. Ownership contract: for a non-null candidate that is an object of
    its own (its address is not that of a registered node),
    - if a report of the candidate's group is registered, the first such
      report has its socket count raised by one, nothing else changes in
      the list, the candidate's address is not in the list afterwards,
      and the call returns [pdFALSE];
    - otherwise the call returns [pdTRUE] and the list gains, at its end,
      the candidate with socket count 1 and a countdown between 2 and 9. *)
Theorem xAddIGMPReportToList_ownership (pNewEntry : IGMPReportDesc_ptr) (st : State) :
  fst pNewEntry <> NULL ->
  ~ In (fst pNewEntry) (map fst (xIGMP_ScheduleList st)) ->
  (In (ird_group (snd pNewEntry)) (registered_groups (xIGMP_ScheduleList st)) ->
     fst (xAddIGMPReportToList pNewEntry st) = pdFALSE /\
     ~ In (fst pNewEntry)
          (map fst (xIGMP_ScheduleList (snd (xAddIGMPReportToList pNewEntry st)))) /\
     exists before p d after,
       xIGMP_ScheduleList st = before ++ (p, d) :: after /\
       ~ In (ird_group (snd pNewEntry)) (registered_groups before) /\
       ird_group d = ird_group (snd pNewEntry) /\
       xIGMP_ScheduleList (snd (xAddIGMPReportToList pNewEntry st))
       = before ++ (p, set_xNumSockets (xNumSockets d + 1) d) :: after) /\
  (~ In (ird_group (snd pNewEntry)) (registered_groups (xIGMP_ScheduleList st)) ->
     fst (xAddIGMPReportToList pNewEntry st) = pdTRUE /\
     exists c,
       2 <= c <= 9 /\
       xIGMP_ScheduleList (snd (xAddIGMPReportToList pNewEntry st))
       = xIGMP_ScheduleList st
         ++ [(fst pNewEntry,
              set_ucCountDown c (set_xNumSockets 1 (snd pNewEntry)))]).
Proof.
  intros _ Hfresh. unfold xAddIGMPReportToList.
  destruct (bump_duplicate _ _) as [l|] eqn:Eb.
  - split.
    + intros _. cbn [fst snd xIGMP_ScheduleList set_ScheduleList].
      split; [reflexivity|]. split.
      * destruct (bump_duplicate_groups _ _ _ Eb) as (_ & -> & _). exact Hfresh.
      * destruct (bump_duplicate_Some _ _ _ Eb)
          as (before & p & d & after & Hl & Hnot & Hg & Hl').
        exists before, p, d, after. repeat split; assumption.
    + intros Hnot. exfalso. apply Hnot.
      apply (bump_duplicate_groups _ _ _ Eb).
  - apply bump_duplicate_None in Eb. split; [intros Hin; contradiction|].
    intros _.
    destruct (xApplicationGetRandomNumber (xRandomOutcomes st)) as [[v|] rnd] eqn:Er;
      cbn [fst snd xIGMP_ScheduleList set_RandomOutcomes set_ScheduleList];
      (split; [reflexivity|]).
    + exists (uint8 (uint32 (2 + Z.land v 0x07))). split; [|reflexivity].
      apply unsolicited_countdown_range.
      unfold xApplicationGetRandomNumber in Er.
      destruct (xRandomOutcomes st) as [|[v0|] rest]; try discriminate.
      injection Er as <- _. apply uint32_range.
    + exists (uint8 (uint32 (2 + Z.land (uint32 (fst pNewEntry)) 0x07))).
      split; [|reflexivity].
      apply unsolicited_countdown_range, uint32_range.
Qed.

Lemma xAddIGMPReportToList_ownership_witness :
  let candidate := (0x3000, example_report example_group 0 0) in
  fst candidate <> NULL /\
  ~ In (fst candidate) (map fst (xIGMP_ScheduleList (example_registered 0))) /\
  fst (xAddIGMPReportToList candidate (example_registered 0)) = pdFALSE.
Proof.
  cbn zeta.
  assert (Hnn : fst (0x3000, example_report example_group 0 0) <> NULL)
    by discriminate.
  assert (Hfresh : ~ In (fst (0x3000, example_report example_group 0 0))
                        (map fst (xIGMP_ScheduleList (example_registered 0)))).
  { cbn. intros [Heq|[]]. discriminate Heq. }
  split; [exact Hnn|]. split; [exact Hfresh|].
  apply (proj1 (xAddIGMPReportToList_ownership
                  (0x3000, example_report example_group 0 0)
                  (example_registered 0) Hnn Hfresh)).
  cbn. left. reflexivity.
Defined.

(** ** Invalid and valid actions of [vModifyMulticastMembership] *)

Lemma set_GroupsList_same (s : Z) (l : list MCastGroupDesc_ptr) (st : State) :
  xMulticastGroupsList (set_GroupsList s l st) s = l.
Proof. cbn. rewrite Z.eqb_refl. reflexivity. Qed.

Lemma set_GroupsList_other (s s' : Z) (l : list MCastGroupDesc_ptr) (st : State) :
  s' <> s ->
  xMulticastGroupsList (set_GroupsList s l st) s' = xMulticastGroupsList st s'.
Proof. intros Hne. cbn. destruct (s' =? s) eqn:E; [lia|reflexivity]. Qed.

(** C10. An action that is neither [eSocketOptAddMembership] nor
    [eSocketOptDropMembership] leaves the whole state as it was: the
    socket's groups, the registry and the trace of outside calls, so the
    descriptor passed in is neither stored nor freed. Under either valid
    action the descriptor is freed or becomes the last node of its
    socket's group list. *)
Theorem invalid_action_changes_nothing `{Config}
    (pxMulticastGroup : MCastGroupDesc_ptr) (bAction : Z) (st : State) :
  (bAction <> eSocketOptAddMembership ->
   bAction <> eSocketOptDropMembership ->
   vModifyMulticastMembership pxMulticastGroup bAction st = st) /\
  (bAction = eSocketOptAddMembership \/ bAction = eSocketOptDropMembership ->
   exists evs,
     xTrace (vModifyMulticastMembership pxMulticastGroup bAction st)
     = xTrace st ++ evs /\
     (In (vPortFree (fst pxMulticastGroup)) evs \/
      exists desc',
        xMulticastGroupsList
          (vModifyMulticastMembership pxMulticastGroup bAction st)
          (pxSocket (snd pxMulticastGroup))
        = xMulticastGroupsList st (pxSocket (snd pxMulticastGroup))
          ++ [(fst pxMulticastGroup, desc')])).
Proof.
  split.
  - intros Hna Hnd. unfold vModifyMulticastMembership.
    assert (Ea : (eSocketOptAddMembership =? bAction) = false) by lia.
    assert (Ed : (eSocketOptDropMembership =? bAction) = false) by lia.
    rewrite Ea, Ed. reflexivity.
  - intros Hvalid. unfold vModifyMulticastMembership.
    assert (Eg : negb (eSocketOptAddMembership =? bAction)
                 && negb (eSocketOptDropMembership =? bAction) = false).
    { destruct Hvalid as [-> | ->]; rewrite Z.eqb_refl;
        [reflexivity|apply andb_false_r]. }
    rewrite Eg. destruct pxMulticastGroup as [addr desc]. cbn [fst snd].
    destruct (eSocketOptAddMembership =? bAction).
    + destruct (find_group _ _) as [found|].
      * destruct (pxIGMPReportDesc desc) as [report|]; cbn [xTrace emit].
        -- exists [vPortFree (fst report); vPortFree addr].
           rewrite <- app_assoc. split; [reflexivity|]. left. cbn. tauto.
        -- exists [vPortFree addr]. split; [reflexivity|]. left. cbn. tauto.
      * destruct (pxIGMPReportDesc desc) as [report|].
        -- match goal with
           | |- context [xAddIGMPReportToList report ?s] =>
               destruct (xAddIGMPReportToList_frame report s) as (Htr & Hgl & _);
               destruct (xAddIGMPReportToList report s) as [consumed st2]
           end.
           cbn [snd xTrace xMulticastGroupsList emit] in Htr, Hgl.
           destruct (negb (pdTRUE =? consumed)).
           ++ exists [xEMAC_AddMulticastAddress
                        (vSetMultiCastIPv4MacAddress (mcg_group desc));
                      vPortFree (fst report)].
              split.
              ** cbn [xTrace emit set_GroupsList]. rewrite Htr, <- app_assoc.
                 reflexivity.
              ** right. exists (set_pxIGMPReportDesc None desc).
                 cbn [xMulticastGroupsList emit].
                 apply set_GroupsList_same.
           ++ exists [xEMAC_AddMulticastAddress
                        (vSetMultiCastIPv4MacAddress (mcg_group desc))].
              split.
              ** cbn [xTrace set_GroupsList]. exact Htr.
              ** right. exists desc. apply set_GroupsList_same.
        -- exists [xEMAC_AddMulticastAddress
                     (vSetMultiCastIPv4MacAddress (mcg_group desc))].
           split; [reflexivity|]. right. exists desc. apply set_GroupsList_same.
    + destruct (find_group _ _) as [[pMCG pxMCG]|].
      * match goal with
        | |- context [vRemoveIGMPReportFromList ?m ?s] =>
            destruct (vRemoveIGMPReportFromList_frame m s) as (_ & _ & Htr);
            set (st3 := vRemoveIGMPReportFromList m s) in *
        end.
        cbn [xTrace emit set_GroupsList xIGMP_ScheduleList] in Htr.
        destruct (addr =? pMCG) eqn:Ealias; cbn [negb xTrace emit].
        -- assert (addr = pMCG) by lia. subst pMCG.
           eexists. rewrite Htr, <- !app_assoc. split; [reflexivity|].
           left. apply in_or_app. right. apply in_or_app. right. cbn. tauto.
        -- eexists. rewrite Htr, <- !app_assoc. split; [reflexivity|].
           left. apply in_or_app. right. apply in_or_app. right. cbn. tauto.
      * exists [vPortFree addr]. split; [reflexivity|]. left. cbn. tauto.
Qed.

Lemma invalid_action_changes_nothing_witness :
  let request :=
    (0x4000, {| mcg_mreq := example_mreq example_group;
                pxSocket := 0x5000;
                pxIGMPReportDesc := Some (0x3000, example_report example_group 0 0) |}) in
  7 <> @eSocketOptAddMembership example_build /\
  7 <> @eSocketOptDropMembership example_build /\
  @vModifyMulticastMembership example_build request 7 (example_registered 0)
  = example_registered 0.
Proof.
  cbn zeta.
  assert (Ha : 7 <> @eSocketOptAddMembership example_build) by discriminate.
  assert (Hd : 7 <> @eSocketOptDropMembership example_build) by discriminate.
  split; [exact Ha|]. split; [exact Hd|].
  exact (proj1 (@invalid_action_changes_nothing example_build
                  (0x4000,
                   {| mcg_mreq := example_mreq example_group;
                      pxSocket := 0x5000;
                      pxIGMPReportDesc :=
                        Some (0x3000, example_report example_group 0 0) |})
                  7 (example_registered 0)) Ha Hd).
Defined.

(** ** Reference counting *)

Lemma ird_group_set_xNumSockets (n : Z) (d : IGMPReportDesc_t) :
  ird_group (set_xNumSockets n d) = ird_group d.
Proof. reflexivity. Qed.

Lemma ird_group_set_ucCountDown (c : Z) (d : IGMPReportDesc_t) :
  ird_group (set_ucCountDown c d) = ird_group d.
Proof. reflexivity. Qed.

Lemma reports_of_nil_iff (group : Z) (l : list IGMPReportDesc_ptr) :
  reports_of group l = [] <-> ~ In group (registered_groups l).
Proof.
  unfold reports_of, registered_groups. induction l as [|[p d] l IH]; cbn.
  - tauto.
  - destruct (ird_group d =? group) eqn:E.
    + split; [discriminate|]. intros Hn. exfalso. apply Hn. left. lia.
    + rewrite IH. split; [intros Hn [Heq|Hin]; [lia|tauto]|tauto].
Qed.

Lemma bump_duplicate_counts (group : Z) (l l' : list IGMPReportDesc_ptr) :
  bump_duplicate group l = Some l' ->
  counts_of group l' = add_count (counts_of group l) /\ counts_of group l <> [].
Proof.
  unfold counts_of, reports_of.
  revert l'. induction l as [|[p d] l IH]; intros l' Hb; cbn in Hb; [discriminate|].
  destruct (ird_group d =? group) eqn:E.
  - injection Hb as <-. cbn [filter snd].
    rewrite ird_group_set_xNumSockets, E. cbn. split; [reflexivity|discriminate].
  - destruct (bump_duplicate group l) as [rest'|]; [|discriminate].
    injection Hb as <-. cbn [filter snd]. rewrite E. apply IH. reflexivity.
Qed.

Lemma reports_of_app (group : Z) (l l' : list IGMPReportDesc_ptr) :
  reports_of group (l ++ l') = reports_of group l ++ reports_of group l'.
Proof. apply filter_app. Qed.

Lemma counts_of_new_report (group p : Z) (d : IGMPReportDesc_t)
    (l : list IGMPReportDesc_ptr) :
  reports_of group l = [] -> ird_group d = group ->
  counts_of group (l ++ [(p, d)]) = [xNumSockets d].
Proof.
  intros Hnil Hd. unfold counts_of. rewrite reports_of_app, Hnil.
  unfold reports_of. cbn [filter snd app]. rewrite Hd, Z.eqb_refl.
  reflexivity.
Qed.

Lemma xAddIGMPReportToList_counts (pNewEntry : IGMPReportDesc_ptr) (st : State) :
  counts_of (ird_group (snd pNewEntry))
    (xIGMP_ScheduleList (snd (xAddIGMPReportToList pNewEntry st)))
  = add_count (counts_of (ird_group (snd pNewEntry)) (xIGMP_ScheduleList st)).
Proof.
  unfold xAddIGMPReportToList.
  destruct (bump_duplicate _ _) as [l|] eqn:Eb.
  - apply bump_duplicate_counts in Eb as [Hc _]. exact Hc.
  - apply bump_duplicate_None, reports_of_nil_iff in Eb.
    destruct (xApplicationGetRandomNumber _) as [r rnd].
    cbn [snd xIGMP_ScheduleList set_RandomOutcomes set_ScheduleList].
    rewrite counts_of_new_report; [|exact Eb|reflexivity].
    unfold counts_of. rewrite Eb. reflexivity.
Qed.

Lemma remove_report_counts (group : Z) (l : list IGMPReportDesc_ptr) :
  counts_of group (fst (remove_report group l)) = sub_count (counts_of group l) /\
  link_filter_calls (snd (remove_report group l)) = [].
Proof.
  unfold counts_of, reports_of.
  induction l as [|[p d] l IH]; cbn [remove_report]; [split; reflexivity|].
  destruct (ird_group d =? group) eqn:E.
  - cbn [filter snd]. rewrite E. cbn [map sub_count snd].
    destruct (0 =? (if xNumSockets d >? 0 then xNumSockets d - 1 else xNumSockets d));
      cbn [fst snd filter link_filter_calls].
    + split; reflexivity.
    + rewrite ird_group_set_xNumSockets, E. split; reflexivity.
  - destruct IH as [IH1 IH2].
    destruct (remove_report group l) as [rest' evs].
    cbn [fst snd filter] in *. rewrite E. split; [exact IH1|exact IH2].
Qed.

Lemma find_group_Some (group : Z) (l : list MCastGroupDesc_ptr)
    (found : MCastGroupDesc_ptr) :
  find_group group l = Some found -> mcg_group (snd found) = group.
Proof.
  induction l as [|[p d] l IH]; cbn; [discriminate|].
  destruct (mcg_group d =? group) eqn:E; [|exact IH].
  intros Hf. injection Hf as <-. cbn. lia.
Qed.

Lemma find_group_app_last (group : Z) (l : list MCastGroupDesc_ptr)
    (addr : Z) (desc : MCastGroupDesc_t) :
  mcg_group desc = group ->
  find_group group (l ++ [(addr, desc)]) <> None.
Proof.
  intros Hg. induction l as [|[p d] l IH]; cbn.
  - rewrite Hg, Z.eqb_refl. discriminate.
  - destruct (mcg_group d =? group); [discriminate|exact IH].
Qed.

(** One join of a socket that is not yet a member. *)
Lemma join_step `{Config} (group : Z) (req : MCastGroupDesc_ptr) (st : State) :
  joins_group group req ->
  find_group group (xMulticastGroupsList st (socket_of req)) = None ->
  let st' := vModifyMulticastMembership req eSocketOptAddMembership st in
  counts_of group (xIGMP_ScheduleList st')
  = add_count (counts_of group (xIGMP_ScheduleList st)) /\
  find_group group (xMulticastGroupsList st' (socket_of req)) <> None /\
  (forall s, s <> socket_of req ->
             xMulticastGroupsList st' s = xMulticastGroupsList st s).
Proof.
  intros [Hg (report & Hrep & Hrg)] Hnone. cbn zeta.
  unfold vModifyMulticastMembership. rewrite Z.eqb_refl. cbn [negb andb].
  destruct req as [addr desc]. unfold socket_of in *. cbn [snd fst] in *.
  rewrite Hg, Hnone, Hrep.
  match goal with
  | |- context [xAddIGMPReportToList report ?s] =>
      pose proof (xAddIGMPReportToList_counts report s) as Hc;
      destruct (xAddIGMPReportToList_frame report s) as (_ & Hgl & _);
      destruct (xAddIGMPReportToList report s) as [consumed st2]
  end.
  rewrite Hrg in Hc. cbn [snd xIGMP_ScheduleList xMulticastGroupsList emit] in Hc, Hgl.
  destruct (negb (pdTRUE =? consumed));
    cbn [xIGMP_ScheduleList emit set_GroupsList xMulticastGroupsList].
  - split; [exact Hc|]. rewrite Z.eqb_refl. split.
    + apply find_group_app_last. exact Hg.
    + intros s Hs. destruct (s =? pxSocket desc) eqn:E; [lia|].
      rewrite Hgl. reflexivity.
  - split; [exact Hc|]. rewrite Z.eqb_refl. split.
    + apply find_group_app_last. exact Hg.
    + intros s Hs. destruct (s =? pxSocket desc) eqn:E; [lia|].
      rewrite Hgl. reflexivity.
Qed.

(** One leave of a socket that is a member. *)
Lemma leave_step `{Config} (group : Z) (req : MCastGroupDesc_ptr) (st : State) :
  mcg_group (snd req) = group ->
  find_group group (xMulticastGroupsList st (socket_of req)) <> None ->
  let st' := vModifyMulticastMembership req eSocketOptDropMembership st in
  counts_of group (xIGMP_ScheduleList st')
  = sub_count (counts_of group (xIGMP_ScheduleList st)) /\
  (forall s, s <> socket_of req ->
             xMulticastGroupsList st' s = xMulticastGroupsList st s) /\
  exists evs,
    xTrace st' = xTrace st ++ evs /\
    link_filter_calls evs
    = [xEMAC_RemoveMulticastAddress (vSetMultiCastIPv4MacAddress group)].
Proof.
  intros Hg Hmember. cbn zeta.
  unfold vModifyMulticastMembership. rewrite Z.eqb_refl.
  assert (Ead : (eSocketOptAddMembership =? eSocketOptDropMembership) = false).
  { pose proof eSocketOpt_distinct. lia. }
  rewrite Ead. cbn [negb andb].
  destruct req as [addr desc]. unfold socket_of in *. cbn [snd fst] in *.
  rewrite Hg.
  destruct (find_group group (xMulticastGroupsList st (pxSocket desc)))
    as [[pMCG pxMCG]|] eqn:Ef; [|contradiction].
  apply find_group_Some in Ef. cbn [snd] in Ef.
  match goal with
  | |- context [vRemoveIGMPReportFromList ?m ?s] =>
      destruct (vRemoveIGMPReportFromList_frame m s) as (Hgl & Hl & Htr);
      set (st3 := vRemoveIGMPReportFromList m s) in *
  end.
  cbn [xTrace xIGMP_ScheduleList xMulticastGroupsList emit set_GroupsList] in Hgl, Hl, Htr.
  fold (mcg_group pxMCG) in Hl, Htr. rewrite Ef in Hl, Htr.
  destruct (remove_report_counts group (xIGMP_ScheduleList st)) as [Hc Hev].
  assert (Hlist : forall b : bool,
            xIGMP_ScheduleList
              (emit [vPortFree pMCG] (if b then emit [vPortFree addr] st3 else st3))
            = xIGMP_ScheduleList st3) by (intros []; reflexivity).
  assert (Hgroups : forall b : bool,
            xMulticastGroupsList
              (emit [vPortFree pMCG] (if b then emit [vPortFree addr] st3 else st3))
            = xMulticastGroupsList st3) by (intros []; reflexivity).
  rewrite Hlist, Hgroups, Hl, Hgl. split; [exact Hc|]. split.
  - intros s Hs. destruct (s =? pxSocket desc) eqn:E; [lia|reflexivity].
  - destruct (negb (addr =? pMCG)); cbn [xTrace emit]; rewrite Htr;
      eexists; rewrite <- !app_assoc; (split; [reflexivity|]);
      unfold link_filter_calls in *; cbn [app filter];
      rewrite filter_app, Hev; reflexivity.
Qed.

Lemma iter_add_count (n : nat) (c : Z) :
  Nat.iter n add_count [c] = [c + Z.of_nat n].
Proof.
  induction n as [|n IH].
  - cbn. f_equal. lia.
  - rewrite Nat.iter_succ, IH. cbn [add_count]. f_equal. lia.
Qed.

Lemma iter_add_count_nil (n : nat) :
  Nat.iter (S n) add_count [] = [Z.of_nat (S n)].
Proof.
  rewrite Nat.iter_succ_r. cbn [add_count]. rewrite iter_add_count. f_equal. lia.
Qed.

Lemma iter_sub_count_some (k : nat) (n : Z) :
  Z.of_nat k < n ->
  Nat.iter k sub_count [n] = [n - Z.of_nat k].
Proof.
  induction k as [|k IH]; intros Hk.
  - cbn. f_equal. lia.
  - rewrite Nat.iter_succ, IH by lia. cbn [sub_count].
    destruct (n - Z.of_nat k >? 0) eqn:E1; [|lia].
    destruct (0 =? n - Z.of_nat k - 1) eqn:E2; [lia|]. f_equal. lia.
Qed.

Lemma iter_sub_count_all (k : nat) :
  Nat.iter (S k) sub_count [Z.of_nat (S k)] = [].
Proof.
  rewrite Nat.iter_succ, iter_sub_count_some by lia.
  replace (Z.of_nat (S k) - Z.of_nat k) with 1 by lia. reflexivity.
Qed.

Lemma join_all_spec `{Config} (group : Z) (joins : list MCastGroupDesc_ptr) :
  forall st : State,
  Forall (joins_group group) joins ->
  NoDup (map socket_of joins) ->
  Forall (fun req =>
            find_group group (xMulticastGroupsList st (socket_of req)) = None) joins ->
  counts_of group (xIGMP_ScheduleList (join_all joins st))
  = Nat.iter (length joins) add_count (counts_of group (xIGMP_ScheduleList st)) /\
  (forall s, In s (map socket_of joins) ->
     find_group group (xMulticastGroupsList (join_all joins st) s) <> None) /\
  (forall s, ~ In s (map socket_of joins) ->
     xMulticastGroupsList (join_all joins st) s = xMulticastGroupsList st s).
Proof.
  induction joins as [|req joins IH]; intros st Hj Hnd Hnm.
  - cbn. repeat split. intros s [].
  - inversion Hj as [|? ? Hreq Hj']; subst.
    inversion Hnd as [|? ? Hnotin Hnd']; subst.
    inversion Hnm as [|? ? Hnone Hnm']; subst.
    destruct (join_step group req st Hreq Hnone) as (Hc & Hmem & Hoth).
    cbn zeta in Hc, Hmem, Hoth.
    set (st' := vModifyMulticastMembership req eSocketOptAddMembership st) in *.
    assert (Hnm'' : Forall (fun r =>
              find_group group (xMulticastGroupsList st' (socket_of r)) = None) joins).
    { rewrite Forall_forall in *. intros r Hr.
      rewrite Hoth; [apply Hnm', Hr|].
      intros Heq. apply Hnotin. rewrite <- Heq. apply in_map, Hr. }
    destruct (IH st' Hj' Hnd' Hnm'') as (IHc & IHmem & IHoth).
    change (join_all (req :: joins) st) with (join_all joins st').
    split; [|split].
    + rewrite IHc, Hc. cbn [length]. rewrite Nat.iter_succ_r. reflexivity.
    + intros s [Hs|Hs].
      * subst s. rewrite IHoth; [exact Hmem|exact Hnotin].
      * apply IHmem, Hs.
    + intros s Hs. cbn [map In] in Hs.
      rewrite IHoth by tauto. apply Hoth. intros Heq. apply Hs. left. congruence.
Qed.

Lemma leave_all_spec `{Config} (group : Z) (leaves : list MCastGroupDesc_ptr) :
  forall st : State,
  Forall (fun req => mcg_group (snd req) = group) leaves ->
  NoDup (map socket_of leaves) ->
  (forall s, In s (map socket_of leaves) ->
     find_group group (xMulticastGroupsList st s) <> None) ->
  counts_of group (xIGMP_ScheduleList (leave_all leaves st))
  = Nat.iter (length leaves) sub_count (counts_of group (xIGMP_ScheduleList st)) /\
  exists evs,
    xTrace (leave_all leaves st) = xTrace st ++ evs /\
    link_filter_calls evs
    = repeat (xEMAC_RemoveMulticastAddress (vSetMultiCastIPv4MacAddress group))
        (length leaves).
Proof.
  induction leaves as [|req leaves IH]; intros st Hl Hnd Hmem.
  - cbn. split; [reflexivity|]. exists []. rewrite app_nil_r. split; reflexivity.
  - inversion Hl as [|? ? Hreq Hl']; subst.
    inversion Hnd as [|? ? Hnotin Hnd']; subst.
    destruct (leave_step (mcg_group (snd req)) req st eq_refl
                (Hmem _ (or_introl eq_refl)))
      as (Hc & Hoth & evs1 & Htr1 & Hf1).
    cbn zeta in Hc, Hoth, Htr1.
    set (st' := vModifyMulticastMembership req eSocketOptDropMembership st) in *.
    assert (Hmem' : forall s, In s (map socket_of leaves) ->
              find_group (mcg_group (snd req)) (xMulticastGroupsList st' s) <> None).
    { intros s Hs. rewrite Hoth; [apply Hmem; right; exact Hs|].
      intros Heq. apply Hnotin. rewrite <- Heq. exact Hs. }
    destruct (IH st' Hl' Hnd' Hmem') as (IHc & evs2 & Htr2 & Hf2).
    change (leave_all (req :: leaves) st) with (leave_all leaves st').
    split.
    + rewrite IHc, Hc. cbn [length]. rewrite Nat.iter_succ_r. reflexivity.
    + exists (evs1 ++ evs2). rewrite Htr2, Htr1, <- app_assoc.
      split; [reflexivity|].
      unfold link_filter_calls in *. rewrite filter_app, Hf1, Hf2. reflexivity.
Qed.

Lemma counts_of_singleton (group n : Z) (l : list IGMPReportDesc_ptr) :
  counts_of group l = [n] ->
  exists p d, reports_of group l = [(p, d)] /\ xNumSockets d = n.
Proof.
  unfold counts_of. destruct (reports_of group l) as [|[p d] [|e rest]];
    cbn; try discriminate.
  intros Hn. injection Hn as Hn. exists p, d. split; [reflexivity|exact Hn].
Qed.

Lemma counts_of_nil (group : Z) (l : list IGMPReportDesc_ptr) :
  counts_of group l = [] -> reports_of group l = [].
Proof.
  unfold counts_of. destruct (reports_of group l); [reflexivity|discriminate].
Qed.

(** C2 (as the code has it). Let distinct sockets, none a member of a
    group that is not registered, each join the group, and let some of
    them, each once, then leave it. While fewer have left than joined,
    exactly one report of the group is registered and its socket count is
    the number of sockets still joined: 1 after all but one have left.
    When all have left, no report of the group is registered. The
    link-layer filter is called during the leaves once per leave, each
    time to remove the MAC address of the group: it is called on every
    leave, not only on the last. *)
Theorem reference_counting `{Config} (group : Z) (st : State)
    (joins leaves : list MCastGroupDesc_ptr) :
  join_leave_scenario group st joins leaves ->
  ((length leaves < length joins)%nat ->
   exists p d,
     reports_of group (xIGMP_ScheduleList (leave_all leaves (join_all joins st)))
     = [(p, d)] /\
     xNumSockets d = Z.of_nat (length joins) - Z.of_nat (length leaves)) /\
  (length leaves = length joins ->
   reports_of group (xIGMP_ScheduleList (leave_all leaves (join_all joins st)))
   = []) /\
  exists evs,
    xTrace (leave_all leaves (join_all joins st))
    = xTrace (join_all joins st) ++ evs /\
    link_filter_calls evs
    = repeat (xEMAC_RemoveMulticastAddress (vSetMultiCastIPv4MacAddress group))
        (length leaves).
Proof.
  intros (Hunreg & Hj & Hndj & Hnm & Hl & Hndl & Hincl).
  destruct (join_all_spec group joins st Hj Hndj Hnm) as (Hc1 & Hmem & _).
  assert (Hmem' : forall s, In s (map socket_of leaves) ->
            find_group group (xMulticastGroupsList (join_all joins st) s) <> None)
    by (intros s Hs; apply Hmem, Hincl, Hs).
  destruct (leave_all_spec group leaves (join_all joins st) Hl Hndl Hmem')
    as (Hc2 & Hev).
  assert (Hc0 : counts_of group (xIGMP_ScheduleList st) = [])
    by (unfold counts_of; rewrite Hunreg; reflexivity).
  rewrite Hc1, Hc0 in Hc2.
  split; [|split; [|exact Hev]].
  - intros Hlt. apply counts_of_singleton. rewrite Hc2.
    destruct (length joins) as [|n]; [lia|].
    rewrite iter_add_count_nil. apply iter_sub_count_some. lia.
  - intros Heq. apply counts_of_nil. rewrite Hc2, Heq.
    destruct (length joins) as [|n]; [reflexivity|].
    rewrite iter_add_count_nil. apply iter_sub_count_all.
Qed.

Lemma example_scenario :
  join_leave_scenario example_group example_empty example_joins example_leaves.
Proof.
  unfold join_leave_scenario, example_joins, example_leaves.
  split; [reflexivity|]. split.
  { repeat constructor; eexists; split; reflexivity. }
  split.
  { repeat constructor; cbn; intros Hin; repeat destruct Hin as [Hin|Hin];
      try discriminate Hin; exact Hin. }
  split; [repeat constructor|]. split; [repeat constructor|]. split.
  { repeat constructor. intros []. }
  intros s [<-|[]]. left. reflexivity.
Qed.

Lemma reference_counting_witness :
  join_leave_scenario example_group example_empty example_joins example_leaves /\
  exists p d,
    reports_of example_group
      (xIGMP_ScheduleList
         (@leave_all example_build example_leaves
            (@join_all example_build example_joins example_empty)))
    = [(p, d)] /\
    xNumSockets d = Z.of_nat (length example_joins) - Z.of_nat (length example_leaves).
Proof.
  split; [exact example_scenario|].
  apply (proj1 (@reference_counting example_build example_group example_empty
                  example_joins example_leaves example_scenario)).
  cbn. lia.
Defined.

(** C2 (as worded) fails: two sockets join, the first leaves, and that
    leave, which is not the last, calls [xEMAC_RemoveMulticastAddress]. *)
Lemma leave_before_last_calls_link_filter :
  ~ @reference_counting_as_worded example_build example_group example_empty
      example_joins example_leaves.
Proof.
  unfold reference_counting_as_worded. intros Hclaim.
  destruct (Hclaim example_scenario eq_refl) as [_ (evs & Htr & Hcalls)].
  vm_compute in Htr. injection Htr as <-.
  vm_compute in Hcalls. discriminate Hcalls.
Qed.

Example leave_before_last_trace :
  xTrace (@leave_all example_build example_leaves
            (@join_all example_build example_joins example_empty))
  = xTrace (@join_all example_build example_joins example_empty)
    ++ [xEMAC_RemoveMulticastAddress (example_multicast_mac example_group);
        vPortFree 0x4100; vPortFree 0x4000].
Proof. vm_compute. reflexivity. Qed.

(** * Further properties of the code *)

(** ** Reading the group address *)

(** X1. A query is a general query exactly when the four bytes of its group
    address field are zero, in either byte order of the build. *)
Theorem group_address_zero_iff `{Config} (buf : list Z) :
  uiGroupAddress (cast_xIGMPHeader buf) = 0 <->
  read_uint8 buf (sizeof_EthernetHeader_t + sizeof_IPHeader_t + 4) = 0 /\
  read_uint8 buf (sizeof_EthernetHeader_t + sizeof_IPHeader_t + 4 + 1) = 0 /\
  read_uint8 buf (sizeof_EthernetHeader_t + sizeof_IPHeader_t + 4 + 2) = 0 /\
  read_uint8 buf (sizeof_EthernetHeader_t + sizeof_IPHeader_t + 4 + 3) = 0.
Proof.
  unfold cast_xIGMPHeader. cbn [uiGroupAddress]. unfold read_uint32.
  destruct ipconfigBYTE_ORDER;
    rewrite !Z.lor_eq_0_iff, !Z.shiftl_eq_0_iff by lia; tauto.
Qed.

(** ** The reduction loop and the fallback counter *)

Lemma subtract_while_closed_form (fuel : nat) (u w : Z) :
  1 <= w -> 1 <= u < 4294967296 -> u <= Z.of_nat fuel ->
  subtract_while fuel u w = (u - 1) mod w + 1.
Proof.
  intros Hw. revert u. induction fuel as [|fuel IH]; intros u Hu Hf; [lia|].
  cbn [subtract_while]. destruct (u >? w) eqn:E.
  - rewrite uint32_small by lia. rewrite IH by lia.
    replace (u - 1) with (u - w - 1 + 1 * w) by ring.
    rewrite Z_mod_plus_full. reflexivity.
  - rewrite Z.mod_small by lia. lia.
Qed.

Lemma masked_delay_window_value (window mask uiRandom : Z) :
  1 <= window <= 254 -> 0 <= uiRandom < 4294967296 ->
  masked_delay window mask uiRandom
  = (Z.max 1 (Z.land uiRandom mask) - 1) mod window + 1.
Proof.
  intros Hw Hr. unfold masked_delay.
  pose proof (land_uint32 uiRandom mask Hr) as Hl.
  assert (Hu : (if Z.land uiRandom mask =? 0 then 1 else Z.land uiRandom mask)
               = Z.max 1 (Z.land uiRandom mask))
    by (destruct (Z.land uiRandom mask =? 0) eqn:E; lia).
  rewrite Hu.
  rewrite subtract_while_closed_form by lia.
  pose proof (Z.mod_pos_bound (Z.max 1 (Z.land uiRandom mask) - 1) window ltac:(lia)).
  apply uint8_small. lia.
Qed.

(** X2. The delay taken from a successful draw: the drawn value is masked,
    a zero is lifted to one, and the repeated subtraction brings it to
    [1 + (u - 1) mod window]; the result is never zero and never above the
    window. *)
Theorem masked_delay_closed_form (window mask uiRandom : Z) :
  1 <= window <= 254 -> 0 <= uiRandom < 4294967296 ->
  masked_delay window mask uiRandom
  = (Z.max 1 (Z.land uiRandom mask) - 1) mod window + 1.
Proof. exact (masked_delay_window_value window mask uiRandom). Qed.

Lemma masked_delay_closed_form_witness :
  1 <= 9 <= 254 /\ 0 <= 1000 < 4294967296 /\
  masked_delay 9 (RandMask_of 9) 1000 = (Z.max 1 (Z.land 1000 (RandMask_of 9)) - 1) mod 9 + 1.
Proof.
  assert (Hw : 1 <= 9 <= 254) by lia.
  assert (Hr : 0 <= 1000 < 4294967296) by lia.
  split; [exact Hw|]. split; [exact Hr|].
  exact (masked_delay_closed_form 9 (RandMask_of 9) 1000 Hw Hr).
Defined.

(** ** The mask over all windows *)

Lemma byte_window_cases (P : Z -> bool) :
  forallb P (map Z.of_nat (seq 1 254)) = true ->
  forall w, 1 <= w <= 254 -> P w = true.
Proof.
  intros Hall w Hw. rewrite forallb_forall in Hall. apply Hall.
  rewrite <- (Z2Nat.id w) by lia. apply in_map, in_seq. lia.
Qed.

(** X3. For every window a query can produce (1 to 254) the mask is at
    least 1, at least [window - 1] and at most 255, so a masked draw needs
    fewer than 255 subtractions; up to window 16 the mask is the smallest
    [2^k - 1] that is at least [window - 1] (1 for window 1). *)
Theorem RandMask_of_bounds (window : Z) :
  1 <= window <= 254 ->
  Z.max 1 (window - 1) <= RandMask_of window <= 255 /\
  (window <= 16 -> RandMask_of window = Z.max 1 (smallest_mask (window - 1))).
Proof.
  intros Hw.
  pose proof (byte_window_cases
    (fun w => (Z.max 1 (w - 1) <=? RandMask_of w) && (RandMask_of w <=? 255)
              && ((16 <? w) || (RandMask_of w =? Z.max 1 (smallest_mask (w - 1)))))
    ltac:(vm_compute; reflexivity) window Hw) as Hc.
  cbv beta in Hc.
  apply andb_true_iff in Hc as [Hc H16]. apply andb_true_iff in Hc as [Hlo Hhi].
  split; [lia|]. intros Hle.
  apply orb_true_iff in H16 as [H16|H16]; lia.
Qed.

Lemma RandMask_of_bounds_witness :
  1 <= 10 <= 254 /\ RandMask_of 10 = 15.
Proof.
  assert (Hw : 1 <= 10 <= 254) by lia.
  split; [exact Hw|].
  rewrite (proj2 (RandMask_of_bounds 10 Hw)) by lia. reflexivity.
Defined.

(** ** The deterministic fallback *)

Lemma draw_delay_failing (w mask counter : Z) (rnd : list (option Z)) :
  1 <= w <= 254 -> 1 <= counter <= w ->
  Forall (fun o => o = None) rnd ->
  exists rnd',
    draw_delay w mask counter rnd
    = (counter, (if counter + 1 >? w then 1 else counter + 1), rnd') /\
    Forall (fun o => o = None) rnd'.
Proof.
  intros Hw Hc Hfail. unfold draw_delay, xApplicationGetRandomNumber.
  rewrite (uint8_small counter) by lia. rewrite (uint32_small (counter + 1)) by lia.
  destruct rnd as [|o rnd'].
  - exists []. split; [reflexivity|constructor].
  - inversion Hfail as [|? ? Ho Hrest]; subst. exists rnd'. split; [reflexivity|exact Hrest].
Qed.

Lemma schedule_reports_failing (m w mask counter : Z) (rnd : list (option Z))
    (l : list IGMPReportDesc_ptr) :
  1 <= w <= 254 -> 1 <= counter <= w ->
  Forall (fun o => o = None) rnd ->
  Forall (fun e => needs_reschedule m (snd e) = true) l ->
  countdowns (fst (schedule_reports m w mask counter rnd l))
  = map (fun i => (counter - 1 + Z.of_nat i) mod w + 1) (seq 0 (length l)).
Proof.
  intros Hw. unfold countdowns.
  revert counter rnd. induction l as [|[p d] l IH]; intros counter rnd Hc Hfail Hall;
    [reflexivity|].
  inversion Hall as [|? ? Hd Hall']; subst. cbn [snd] in Hd.
  cbn [schedule_reports]. rewrite Hd.
  destruct (draw_delay_failing w mask counter rnd Hw Hc Hfail) as (rnd' & -> & Hfail').
  assert (Hc' : 1 <= (if counter + 1 >? w then 1 else counter + 1) <= w)
    by (destruct (counter + 1 >? w) eqn:E; lia).
  specialize (IH _ rnd' Hc' Hfail' Hall').
  destruct (schedule_reports m w mask _ rnd' l) as [rest' rnd''].
  cbn [fst map snd set_ucCountDown ucCountDown length seq] in *.
  rewrite IH. f_equal.
  - rewrite Z.add_0_r. rewrite Z.mod_small by lia. lia.
  - rewrite <- seq_shift, map_map. apply map_ext. intros i.
    destruct (counter + 1 >? w) eqn:E.
    + assert (counter = w) by lia. subst counter.
      replace (w - 1 + Z.of_nat (S i)) with (1 - 1 + Z.of_nat i + 1 * w) by lia.
      rewrite Z_mod_plus_full. reflexivity.
    + f_equal. f_equal. lia.
Qed.

(** X4. Deterministic fallback: when every call of the random source
    fails and every registered report has to be rescheduled, a general
    query hands out the countdowns 1, 2, ..., window, 1, 2, ... in list
    order: the report at position [i] (from 0) gets [i mod window + 1]. *)
Theorem general_query_fallback_rotation `{Config}
    (buf : NetworkBufferDescriptor_t) (st : State) :
  is_general_query buf ->
  Forall (fun o => o = None) (xRandomOutcomes st) ->
  Forall (fun e => needs_reschedule (query_max_response_time buf) (snd e) = true)
    (xIGMP_ScheduleList st) ->
  countdowns (xIGMP_ScheduleList (snd (eProcessIGMPPacket buf st)))
  = map (fun i => Z.of_nat i mod window_of (query_max_response_time buf) + 1)
      (seq 0 (length (xIGMP_ScheduleList st))).
Proof.
  intros (Hlen & Hty & Hgrp) Hfail Hall.
  pose proof (query_max_response_time_range buf) as Hm.
  destruct (ucMaxRespTime_of_spec _ Hm) as [Hweq Hw].
  pose proof (schedule_reports_failing (query_max_response_time buf)
                (ucMaxRespTime_of (query_max_response_time buf))
                (RandMask_of (ucMaxRespTime_of (query_max_response_time buf)))
                1 (xRandomOutcomes st) (xIGMP_ScheduleList st)
                Hw ltac:(lia) Hfail Hall) as HS.
  unfold eProcessIGMPPacket.
  destruct (xDataLength buf <? sizeof_IGMPPacket_t) eqn:E; [lia|].
  rewrite Hty, Hgrp. cbn [Z.eqb ipIGMP_MEMBERSHIP_QUERY Pos.eqb].
  unfold query_max_response_time in *.
  change (xRandomOutcomes (set_Queries (uint32 (uiNumIGMP_Queries st + 1)) st))
    with (xRandomOutcomes st).
  change (xIGMP_ScheduleList (set_Queries (uint32 (uiNumIGMP_Queries st + 1)) st))
    with (xIGMP_ScheduleList st).
  destruct (schedule_reports _ _ _ 1 (xRandomOutcomes st) (xIGMP_ScheduleList st))
    as [l rnd].
  cbn [fst snd xIGMP_ScheduleList set_RandomOutcomes set_ScheduleList] in *.
  rewrite HS. unfold window_of. rewrite <- Hweq.
  apply map_ext. intros i. f_equal.
Qed.

Lemma general_query_fallback_rotation_witness :
  @is_general_query example_build (example_frame 0x11 3 0) /\
  countdowns
    (xIGMP_ScheduleList
       (snd (@eProcessIGMPPacket example_build (example_frame 0x11 3 0)
               example_three_unscheduled)))
  = [1; 2; 1].
Proof.
  assert (Hq : @is_general_query example_build (example_frame 0x11 3 0)).
  { unfold is_general_query. vm_compute. repeat split; discriminate. }
  split; [exact Hq|].
  rewrite (@general_query_fallback_rotation example_build
             (example_frame 0x11 3 0) example_three_unscheduled Hq).
  - vm_compute. reflexivity.
  - constructor.
  - repeat constructor.
Defined.

(** ** What a received frame can and cannot change *)

Lemma Forall2_same_report_refl (l : list IGMPReportDesc_ptr) :
  Forall2 same_report l l.
Proof. induction l; constructor; [repeat split|assumption]. Qed.

Lemma schedule_reports_same_report (m w mask counter : Z) (rnd : list (option Z))
    (l : list IGMPReportDesc_ptr) :
  Forall2 same_report l (fst (schedule_reports m w mask counter rnd l)).
Proof.
  revert counter rnd. induction l as [|[p d] l IH]; intros counter rnd;
    cbn [schedule_reports]; [constructor|].
  destruct (needs_reschedule m d).
  - destruct (draw_delay w mask counter rnd) as [[c counter'] rnd'].
    specialize (IH counter' rnd').
    destruct (schedule_reports m w mask counter' rnd' l) as [rest' rnd''].
    cbn [fst] in *. constructor; [repeat split|exact IH].
  - specialize (IH counter rnd).
    destruct (schedule_reports m w mask counter rnd l) as [rest' rnd''].
    cbn [fst] in *. constructor; [repeat split|exact IH].
Qed.

Lemma general_query_countdowns_in_window `{Config}
    (buf : NetworkBufferDescriptor_t) (st : State) :
  is_general_query buf ->
  Forall (fun c => 1 <= c <= window_of (query_max_response_time buf))
    (countdowns (xIGMP_ScheduleList (snd (eProcessIGMPPacket buf st)))).
Proof.
  intros Hq. pose proof (general_query_schedule buf st Hq) as HF.
  unfold countdowns, window_of.
  induction HF as [|[p d] [p' d'] l l' (_ & _ & _ & Hre & Hkeep) HF IH];
    cbn [map]; constructor; [|exact IH].
  cbn [fst snd] in *.
  destruct (needs_reschedule (query_max_response_time buf) d) eqn:E.
  - apply Hre. reflexivity.
  - rewrite (Hkeep eq_refl). unfold needs_reschedule in E.
    apply orb_false_iff in E as [E1 E2]. rewrite max_2_spec. lia.
Qed.

(** X5. After a general query every registered report is scheduled: its
    countdown is at least 1 and at most the window, whether it was
    rescheduled or kept. *)
Theorem general_query_schedules_every_report `{Config}
    (buf : NetworkBufferDescriptor_t) (st : State) :
  is_general_query buf ->
  Forall (fun c => 1 <= c <= window_of (query_max_response_time buf))
    (countdowns (xIGMP_ScheduleList (snd (eProcessIGMPPacket buf st)))).
Proof. exact (general_query_countdowns_in_window buf st). Qed.

Lemma general_query_schedules_every_report_witness :
  @is_general_query example_build (example_frame 0x11 10 0) /\
  Forall (fun c => 1 <= c <= window_of 10)
    (countdowns
       (xIGMP_ScheduleList
          (snd (@eProcessIGMPPacket example_build (example_frame 0x11 10 0)
                  example_three_unscheduled)))).
Proof.
  assert (Hq : @is_general_query example_build (example_frame 0x11 10 0)).
  { unfold is_general_query. vm_compute. repeat split; discriminate. }
  split; [exact Hq|].
  exact (@general_query_schedules_every_report example_build
           (example_frame 0x11 10 0) example_three_unscheduled Hq).
Defined.

(** X6. Receiving a frame, whatever it holds, makes no call outside the
    module and touches neither a socket's groups nor the buffer pool; in
    the registry it changes at most countdowns: the nodes, their
    addresses, their group requests and their socket counts stay. *)
Theorem eProcessIGMPPacket_changes_only_countdowns `{Config}
    (pxNetworkBuffer : NetworkBufferDescriptor_t) (st : State) :
  xTrace (snd (eProcessIGMPPacket pxNetworkBuffer st)) = xTrace st /\
  xMulticastGroupsList (snd (eProcessIGMPPacket pxNetworkBuffer st))
  = xMulticastGroupsList st /\
  xBufferOutcomes (snd (eProcessIGMPPacket pxNetworkBuffer st)) = xBufferOutcomes st /\
  Forall2 same_report (xIGMP_ScheduleList st)
    (xIGMP_ScheduleList (snd (eProcessIGMPPacket pxNetworkBuffer st))).
Proof.
  unfold eProcessIGMPPacket.
  destruct (xDataLength pxNetworkBuffer <? sizeof_IGMPPacket_t).
  { repeat split. apply Forall2_same_report_refl. }
  destruct (ucTypeOfMessage _ =? ipIGMP_MEMBERSHIP_QUERY).
  - destruct (uiGroupAddress _ =? 0).
    + cbn [snd xRandomOutcomes xIGMP_ScheduleList set_Queries].
      match goal with
      | |- context [schedule_reports ?m ?w ?k ?c ?r ?l] =>
          pose proof (schedule_reports_same_report m w k c r l) as Hs;
          destruct (schedule_reports m w k c r l) as [l' rnd]
      end.
      repeat split. exact Hs.
    + repeat split. apply Forall2_same_report_refl.
  - destruct (_ || _); repeat split; apply Forall2_same_report_refl.
Qed.

(** X7. Counting and dispatch, for a frame that passes the length check:
    a membership query raises [uiNumIGMP_Queries] by one (modulo 2^32) and,
    unless its group address is zero, changes nothing else; a v1, v2 or v3
    membership report raises [uiNumIGMP_Reports] by one and changes nothing
    else; any other type changes nothing at all. *)
Theorem eProcessIGMPPacket_dispatch `{Config}
    (pxNetworkBuffer : NetworkBufferDescriptor_t) (st : State) :
  sizeof_IGMPPacket_t <= xDataLength pxNetworkBuffer ->
  let hdr := cast_xIGMPHeader (pucEthernetBuffer pxNetworkBuffer) in
  (ucTypeOfMessage hdr = ipIGMP_MEMBERSHIP_QUERY ->
     uiNumIGMP_Queries (snd (eProcessIGMPPacket pxNetworkBuffer st))
     = uint32 (uiNumIGMP_Queries st + 1) /\
     uiNumIGMP_Reports (snd (eProcessIGMPPacket pxNetworkBuffer st))
     = uiNumIGMP_Reports st /\
     (uiGroupAddress hdr <> 0 ->
      snd (eProcessIGMPPacket pxNetworkBuffer st)
      = set_Queries (uint32 (uiNumIGMP_Queries st + 1)) st)) /\
  (ucTypeOfMessage hdr = ipIGMP_MEMBERSHIP_REPORT_V1 \/
   ucTypeOfMessage hdr = ipIGMP_MEMBERSHIP_REPORT_V2 \/
   ucTypeOfMessage hdr = ipIGMP_MEMBERSHIP_REPORT_V3 ->
     snd (eProcessIGMPPacket pxNetworkBuffer st)
     = set_Reports (uint32 (uiNumIGMP_Reports st + 1)) st) /\
  (ucTypeOfMessage hdr <> ipIGMP_MEMBERSHIP_QUERY ->
   ucTypeOfMessage hdr <> ipIGMP_MEMBERSHIP_REPORT_V1 ->
   ucTypeOfMessage hdr <> ipIGMP_MEMBERSHIP_REPORT_V2 ->
   ucTypeOfMessage hdr <> ipIGMP_MEMBERSHIP_REPORT_V3 ->
     snd (eProcessIGMPPacket pxNetworkBuffer st) = st).
Proof.
  intros Hlen hdr. unfold eProcessIGMPPacket. fold hdr.
  assert (El : (xDataLength pxNetworkBuffer <? sizeof_IGMPPacket_t) = false) by lia.
  rewrite El. split; [|split].
  - intros Hq. rewrite Hq. cbn [Z.eqb ipIGMP_MEMBERSHIP_QUERY Pos.eqb snd].
    destruct (uiGroupAddress hdr =? 0) eqn:Eg.
    + cbn [xRandomOutcomes xIGMP_ScheduleList set_Queries].
      destruct (schedule_reports _ _ _ _ _ _) as [l rnd].
      repeat split. intros Hne. lia.
    + repeat split.
  - intros Hr.
    assert (Eq : (ucTypeOfMessage hdr =? ipIGMP_MEMBERSHIP_QUERY) = false).
    { unfold ipIGMP_MEMBERSHIP_QUERY, ipIGMP_MEMBERSHIP_REPORT_V1,
        ipIGMP_MEMBERSHIP_REPORT_V2, ipIGMP_MEMBERSHIP_REPORT_V3 in *. lia. }
    assert (Er : (ucTypeOfMessage hdr =? ipIGMP_MEMBERSHIP_REPORT_V1)
                 || (ucTypeOfMessage hdr =? ipIGMP_MEMBERSHIP_REPORT_V2)
                 || (ucTypeOfMessage hdr =? ipIGMP_MEMBERSHIP_REPORT_V3) = true).
    { rewrite !orb_true_iff. lia. }
    rewrite Eq, Er. reflexivity.
  - intros H1 H2 H3 H4.
    assert (Eq : (ucTypeOfMessage hdr =? ipIGMP_MEMBERSHIP_QUERY) = false) by lia.
    assert (Er : (ucTypeOfMessage hdr =? ipIGMP_MEMBERSHIP_REPORT_V1)
                 || (ucTypeOfMessage hdr =? ipIGMP_MEMBERSHIP_REPORT_V2)
                 || (ucTypeOfMessage hdr =? ipIGMP_MEMBERSHIP_REPORT_V3) = false).
    { rewrite !orb_false_iff. lia. }
    rewrite Eq, Er. reflexivity.
Qed.

Lemma eProcessIGMPPacket_dispatch_witness :
  @sizeof_IGMPPacket_t example_build <= xDataLength (example_frame 0x16 0 0xEF) /\
  snd (@eProcessIGMPPacket example_build (example_frame 0x16 0 0xEF) example_three_unscheduled)
  = set_Reports (uint32 (uiNumIGMP_Reports example_three_unscheduled + 1))
      example_three_unscheduled.
Proof.
  assert (Hlen : @sizeof_IGMPPacket_t example_build
                 <= xDataLength (example_frame 0x16 0 0xEF)) by discriminate.
  split; [exact Hlen|].
  apply (proj1 (proj2 (@eProcessIGMPPacket_dispatch example_build
                         (example_frame 0x16 0 0xEF) example_three_unscheduled Hlen))).
  right. left. reflexivity.
Defined.

(** ** Ticks *)

Lemma vSendIGMP_frame `{Config} (block type resp group dest : Z) (st : State) :
  xMulticastGroupsList (vSendIGMP block type resp group dest st) = xMulticastGroupsList st /\
  xRandomOutcomes (vSendIGMP block type resp group dest st) = xRandomOutcomes st /\
  uiNumIGMP_Queries (vSendIGMP block type resp group dest st) = uiNumIGMP_Queries st /\
  uiNumIGMP_Reports (vSendIGMP block type resp group dest st) = uiNumIGMP_Reports st.
Proof.
  unfold vSendIGMP.
  destruct (pxGetNetworkBufferWithDescriptor _) as [[|] pool]; repeat split.
Qed.

Lemma handle_reports_frame `{Config} (l : list IGMPReportDesc_ptr) (st : State) :
  Forall2 same_report l (fst (handle_reports l st)) /\
  xIGMP_ScheduleList (snd (handle_reports l st)) = xIGMP_ScheduleList st /\
  xMulticastGroupsList (snd (handle_reports l st)) = xMulticastGroupsList st /\
  xRandomOutcomes (snd (handle_reports l st)) = xRandomOutcomes st /\
  uiNumIGMP_Queries (snd (handle_reports l st)) = uiNumIGMP_Queries st /\
  uiNumIGMP_Reports (snd (handle_reports l st)) = uiNumIGMP_Reports st.
Proof.
  revert st. induction l as [|[p d] l IH]; intros st; cbn [handle_reports].
  - repeat split. constructor.
  - destruct (ucCountDown d >? 0).
    + set (st1 := if uint8 (ucCountDown d - 1) =? 0
                  then vSendIGMP 0 ipIGMP_MEMBERSHIP_REPORT_V2 0
                         (ird_group d) (ird_group d) st
                  else st).
      assert (H1 : xIGMP_ScheduleList st1 = xIGMP_ScheduleList st /\
                   xMulticastGroupsList st1 = xMulticastGroupsList st /\
                   xRandomOutcomes st1 = xRandomOutcomes st /\
                   uiNumIGMP_Queries st1 = uiNumIGMP_Queries st /\
                   uiNumIGMP_Reports st1 = uiNumIGMP_Reports st).
      { subst st1. destruct (uint8 (ucCountDown d - 1) =? 0); [|repeat split].
        destruct (vSendIGMP_frame 0 ipIGMP_MEMBERSHIP_REPORT_V2 0
                    (ird_group d) (ird_group d) st) as (? & ? & ? & ?).
        destruct (vSendIGMP_spec 0 ipIGMP_MEMBERSHIP_REPORT_V2 0
                    (ird_group d) (ird_group d) st) as [? _].
        repeat split; assumption. }
      destruct H1 as (E1 & E2 & E3 & E4 & E5).
      destruct (IH st1) as (HF & I1 & I2 & I3 & I4 & I5).
      destruct (handle_reports l st1) as [rest' st2]. cbn [fst snd] in *.
      split; [constructor; [repeat split|exact HF]|].
      repeat split; congruence.
    + destruct (IH st) as (HF & I1 & I2 & I3 & I4 & I5).
      destruct (handle_reports l st) as [rest' st2]. cbn [fst snd] in *.
      split; [constructor; [repeat split|exact HF]|].
      repeat split; assumption.
Qed.

(** X8. A tick touches nothing but countdowns, the buffer pool and the
    trace: the registry keeps its nodes with their addresses, group
    requests and socket counts, and the sockets' groups, the frame
    counters and the random source are as before. *)
Theorem vHandleIGMP_Event_frame `{Config} (st : State) :
  Forall2 same_report (xIGMP_ScheduleList st)
    (xIGMP_ScheduleList (vHandleIGMP_Event st)) /\
  xMulticastGroupsList (vHandleIGMP_Event st) = xMulticastGroupsList st /\
  xRandomOutcomes (vHandleIGMP_Event st) = xRandomOutcomes st /\
  uiNumIGMP_Queries (vHandleIGMP_Event st) = uiNumIGMP_Queries st /\
  uiNumIGMP_Reports (vHandleIGMP_Event st) = uiNumIGMP_Reports st.
Proof.
  unfold vHandleIGMP_Event.
  destruct (handle_reports_frame (xIGMP_ScheduleList st) st)
    as (HF & _ & I2 & I3 & I4 & I5).
  destruct (handle_reports (xIGMP_ScheduleList st) st) as [l st'].
  cbn [fst snd] in *. repeat split; assumption.
Qed.

Lemma set_ScheduleList_same (st : State) :
  set_ScheduleList (xIGMP_ScheduleList st) st = st.
Proof. destruct st. reflexivity. Qed.

Lemma handle_reports_idle `{Config} (l : list IGMPReportDesc_ptr) (st : State) :
  Forall (fun c => c = 0) (countdowns l) ->
  handle_reports l st = (l, st).
Proof.
  unfold countdowns. induction l as [|[p d] l IH]; intros Hz; [reflexivity|].
  cbn [map snd] in Hz. inversion Hz as [|? ? Hd Hz']; subst.
  cbn [handle_reports]. rewrite Hd. cbn [Z.gtb Z.compare].
  rewrite (IH Hz'). reflexivity.
Qed.

(** X9. A tick over a registry in which no report is scheduled (every
    countdown 0, or no report at all) changes nothing: no countdown
    wraps below zero, no buffer is asked for, nothing is sent. *)
Theorem idle_tick_changes_nothing `{Config} (st : State) :
  Forall (fun c => c = 0) (countdowns (xIGMP_ScheduleList st)) ->
  vHandleIGMP_Event st = st.
Proof.
  intros Hz. unfold vHandleIGMP_Event.
  rewrite (handle_reports_idle _ st Hz). apply set_ScheduleList_same.
Qed.

Lemma idle_tick_changes_nothing_witness :
  Forall (fun c => c = 0) (countdowns (xIGMP_ScheduleList example_three_unscheduled)) /\
  @vHandleIGMP_Event example_build example_three_unscheduled
  = example_three_unscheduled.
Proof.
  assert (Hz : Forall (fun c => c = 0)
                 (countdowns (xIGMP_ScheduleList example_three_unscheduled)))
    by (repeat constructor).
  split; [exact Hz|].
  exact (@idle_tick_changes_nothing example_build example_three_unscheduled Hz).
Defined.

Lemma handle_reports_pool `{Config} (l : list IGMPReportDesc_ptr) (st : State) :
  countdowns_are_bytes l ->
  xBufferOutcomes (snd (handle_reports l st))
  = skipn (length (due_in 1 l)) (xBufferOutcomes st).
Proof.
  unfold due_in.
  revert st. induction l as [|[p d] l IH]; intros st Hb; [reflexivity|].
  inversion Hb as [|x l0 Hd Hl]; subst. cbn [snd] in Hd.
  cbn [handle_reports filter snd].
  destruct (ucCountDown d >? 0) eqn:Epos.
  - destruct (ucCountDown d =? 1) eqn:Eone.
    + assert (ucCountDown d = 1) as E1 by lia. rewrite E1.
      change (uint8 (1 - 1) =? 0) with true. cbn iota.
      destruct (vSendIGMP_spec 0 ipIGMP_MEMBERSHIP_REPORT_V2 0
                  (ird_group d) (ird_group d) st) as [_ Hsend].
      set (st1 := vSendIGMP 0 ipIGMP_MEMBERSHIP_REPORT_V2 0
                    (ird_group d) (ird_group d) st) in *.
      specialize (IH st1 Hl).
      destruct (handle_reports l st1) as [rest' st2]. cbn [fst snd length] in *.
      rewrite IH.
      destruct (xBufferOutcomes st) as [|[|] pool].
      * destruct Hsend as [-> _]. rewrite !skipn_nil. reflexivity.
      * destruct Hsend as [-> _]. reflexivity.
      * destruct Hsend as [-> _]. reflexivity.
    + assert (Hnz : (uint8 (ucCountDown d - 1) =? 0) = false).
      { rewrite uint8_small by lia. lia. }
      rewrite Hnz. specialize (IH st Hl).
      destruct (handle_reports l st) as [rest' st2]. exact IH.
  - assert (ucCountDown d = 0) as E0 by lia. rewrite E0.
    change (0 =? 1) with false. cbn iota. specialize (IH st Hl).
    destruct (handle_reports l st) as [rest' st2]. exact IH.
Qed.

Lemma ticked_countdowns (l l' : list IGMPReportDesc_ptr) :
  Forall2 ticked l l' -> countdowns_are_bytes l ->
  countdowns l' = map (fun c => Z.max 0 (c - 1)) (countdowns l) /\
  countdowns_are_bytes l' /\
  (forall t, 1 <= t ->
     registered_groups (due_in t l') = registered_groups (due_in (t + 1) l)).
Proof.
  unfold countdowns, countdowns_are_bytes, registered_groups, due_in.
  induction 1 as [|[p d] [p' d'] l l' (Hp & Hz & Hpos) HF IH]; intros Hb.
  - repeat split. constructor.
  - inversion Hb as [|? ? Hd Hl]; subst. cbn [fst snd] in *.
    destruct (IH Hl) as (IH1 & IH2 & IH3).
    assert (Hd' : d' = set_ucCountDown (Z.max 0 (ucCountDown d - 1)) d).
    { destruct (Z.eq_dec (ucCountDown d) 0) as [E|E].
      - rewrite (Hz E), E. destruct d; cbn in *; subst; reflexivity.
      - rewrite Hpos by lia. f_equal. lia. }
    subst d'. cbn [map snd set_ucCountDown ucCountDown filter].
    split; [rewrite IH1; reflexivity|]. split; [constructor; [cbn; lia|exact IH2]|].
    intros t Ht.
    assert (Et : (Z.max 0 (ucCountDown d - 1) =? t) = (ucCountDown d =? t + 1))
      by (destruct (ucCountDown d =? t + 1) eqn:E; lia).
    rewrite Et. destruct (ucCountDown d =? t + 1); cbn [map snd];
      rewrite (IH3 t Ht); reflexivity.
Qed.

Lemma is_report_for_groups `{Config} (groups : list Z) (evs : list Event) :
  Forall2 is_report_for groups evs -> reported_groups evs = groups.
Proof.
  unfold reported_groups.
  induction 1 as [|g ev groups evs Hr HF IH]; [reflexivity|].
  destruct ev; try contradiction. destruct Hr as (_ & Hg & _).
  cbn [flat_map app]. rewrite Hg, IH. reflexivity.
Qed.

Lemma firstn_repeat_split (a b : nat) (pool : list bool) :
  firstn (a + b) pool = repeat true (a + b) ->
  firstn a pool = repeat true a /\ firstn b (skipn a pool) = repeat true b.
Proof.
  revert pool. induction a as [|a IH]; intros pool Hp; cbn in *.
  - split; [reflexivity|exact Hp].
  - destruct pool as [|x pool]; [discriminate|]. cbn in Hp.
    injection Hp as -> Hp. destruct (IH pool Hp) as [H1 H2].
    split; [cbn; rewrite H1; reflexivity|exact H2].
Qed.

Lemma granted_repeat_true {A : Type} (pool : list bool) (l : list A) :
  firstn (length l) pool = repeat true (length l) -> granted pool l = l.
Proof.
  revert pool. induction l as [|x l IH]; intros pool Hp; [reflexivity|].
  destruct pool as [|b pool]; [discriminate|]. cbn in Hp.
  injection Hp as -> Hp. cbn [granted]. rewrite (IH pool Hp). reflexivity.
Qed.

(** One tick, with everything the later statements need. *)
Lemma tick_step `{Config} (st : State) :
  countdowns_are_bytes (xIGMP_ScheduleList st) ->
  countdowns (xIGMP_ScheduleList (vHandleIGMP_Event st))
  = map (fun c => Z.max 0 (c - 1)) (countdowns (xIGMP_ScheduleList st)) /\
  countdowns_are_bytes (xIGMP_ScheduleList (vHandleIGMP_Event st)) /\
  (forall t, 1 <= t ->
     registered_groups (due_in t (xIGMP_ScheduleList (vHandleIGMP_Event st)))
     = registered_groups (due_in (t + 1) (xIGMP_ScheduleList st))) /\
  xBufferOutcomes (vHandleIGMP_Event st)
  = skipn (length (due_in 1 (xIGMP_ScheduleList st))) (xBufferOutcomes st) /\
  (firstn (length (due_in 1 (xIGMP_ScheduleList st))) (xBufferOutcomes st)
   = repeat true (length (due_in 1 (xIGMP_ScheduleList st))) ->
   exists evs,
     xTrace (vHandleIGMP_Event st) = xTrace st ++ evs /\
     reported_groups evs = registered_groups (due_in 1 (xIGMP_ScheduleList st))).
Proof.
  intros Hb. unfold vHandleIGMP_Event.
  destruct (handle_reports_spec (xIGMP_ScheduleList st) st Hb) as [HF (evs & Htr & Hev)].
  pose proof (handle_reports_pool (xIGMP_ScheduleList st) st Hb) as Hpool.
  destruct (handle_reports (xIGMP_ScheduleList st) st) as [l st'].
  cbn [fst snd xIGMP_ScheduleList xBufferOutcomes xTrace set_ScheduleList] in *.
  destruct (ticked_countdowns _ _ HF Hb) as (Hc & Hb' & Hdue).
  split; [exact Hc|]. split; [exact Hb'|]. split; [exact Hdue|].
  split; [exact Hpool|].
  intros Hfull. exists evs. split; [exact Htr|].
  apply is_report_for_groups.
  change (filter due (xIGMP_ScheduleList st))
    with (due_in 1 (xIGMP_ScheduleList st)) in Hev.
  rewrite granted_repeat_true in Hev by exact Hfull. exact Hev.
Qed.

Lemma ticks_succ_r `{Config} (n : nat) (st : State) :
  ticks (S n) st = ticks n (vHandleIGMP_Event st).
Proof. unfold ticks. apply Nat.iter_succ_r. Qed.

Lemma ticks_countdowns `{Config} (n : nat) (st : State) :
  countdowns_are_bytes (xIGMP_ScheduleList st) ->
  countdowns (xIGMP_ScheduleList (ticks n st))
  = map (fun c => Z.max 0 (c - Z.of_nat n)) (countdowns (xIGMP_ScheduleList st)) /\
  countdowns_are_bytes (xIGMP_ScheduleList (ticks n st)).
Proof.
  revert st. induction n as [|n IH]; intros st Hb.
  - change (ticks 0 st) with st. split; [|exact Hb].
    unfold countdowns_are_bytes, countdowns in *.
    rewrite map_map. apply map_ext_in. intros e He.
    rewrite Forall_forall in Hb. specialize (Hb e He). cbn beta in Hb. lia.
  - rewrite ticks_succ_r.
    destruct (tick_step st Hb) as (Hc & Hb' & _).
    destruct (IH _ Hb') as [IHc IHb]. split; [|exact IHb].
    rewrite IHc, Hc, map_map. apply map_ext. intros c. lia.
Qed.

(** X10. After [n] ticks a countdown [c] stands at [max 0 (c - n)]: it
    goes down by one per tick and stays at zero once it has reached it;
    the countdowns remain bytes. *)
Theorem ticks_count_down `{Config} (n : nat) (st : State) :
  countdowns_are_bytes (xIGMP_ScheduleList st) ->
  countdowns (xIGMP_ScheduleList (ticks n st))
  = map (fun c => Z.max 0 (c - Z.of_nat n)) (countdowns (xIGMP_ScheduleList st)) /\
  countdowns_are_bytes (xIGMP_ScheduleList (ticks n st)).
Proof. exact (ticks_countdowns n st). Qed.

Lemma ticks_count_down_witness :
  countdowns_are_bytes (xIGMP_ScheduleList example_three_scheduled) /\
  countdowns (xIGMP_ScheduleList (@ticks example_build 1 example_three_scheduled))
  = [1; 0; 1].
Proof.
  assert (Hb : countdowns_are_bytes (xIGMP_ScheduleList example_three_scheduled)).
  { repeat constructor; discriminate. }
  split; [exact Hb|].
  rewrite (proj1 (@ticks_count_down example_build 1 example_three_scheduled Hb)).
  reflexivity.
Defined.

(** X11. A general query followed by as many ticks as its window is long
    leaves no report scheduled: every countdown is back at 0, so every
    registered group has come due within the max-response-time, whatever
    the registry held before and whatever the random source answered. *)
Theorem general_query_then_window_of_ticks `{Config}
    (buf : NetworkBufferDescriptor_t) (st : State) (n : nat) :
  is_general_query buf ->
  window_of (query_max_response_time buf) <= Z.of_nat n ->
  Forall (fun c => c = 0)
    (countdowns (xIGMP_ScheduleList (ticks n (snd (eProcessIGMPPacket buf st))))).
Proof.
  intros Hq Hn.
  pose proof (general_query_countdowns_in_window buf st Hq) as Hall.
  pose proof (query_max_response_time_range buf) as Hm.
  destruct (ucMaxRespTime_of_spec _ Hm) as [Hweq Hw].
  fold (window_of (query_max_response_time buf)) in Hweq.
  set (st1 := snd (eProcessIGMPPacket buf st)) in *.
  assert (Hb : countdowns_are_bytes (xIGMP_ScheduleList st1)).
  { unfold countdowns_are_bytes, countdowns in *.
    rewrite Forall_map in Hall. eapply Forall_impl; [|exact Hall].
    cbn beta. intros e He. lia. }
  destruct (ticks_countdowns n st1 Hb) as [-> _].
  rewrite Forall_map. eapply Forall_impl; [|exact Hall]. cbn beta. lia.
Qed.

Lemma general_query_then_window_of_ticks_witness :
  @is_general_query example_build (example_frame 0x11 3 0) /\
  window_of (@query_max_response_time example_build (example_frame 0x11 3 0))
  <= Z.of_nat 2 /\
  Forall (fun c => c = 0)
    (countdowns
       (xIGMP_ScheduleList
          (@ticks example_build 2
             (snd (@eProcessIGMPPacket example_build (example_frame 0x11 3 0)
                     example_three_unscheduled))))).
Proof.
  assert (Hq : @is_general_query example_build (example_frame 0x11 3 0)).
  { unfold is_general_query. vm_compute. repeat split; discriminate. }
  assert (Hn : window_of (@query_max_response_time example_build
                            (example_frame 0x11 3 0)) <= Z.of_nat 2)
    by (vm_compute; discriminate).
  split; [exact Hq|]. split; [exact Hn|].
  exact (@general_query_then_window_of_ticks example_build
           (example_frame 0x11 3 0) example_three_unscheduled 2 Hq Hn).
Defined.

Lemma due_schedule_succ (n : nat) (l l1 : list IGMPReportDesc_ptr) :
  (forall t, 1 <= t ->
     registered_groups (due_in t l1) = registered_groups (due_in (t + 1) l)) ->
  due_schedule (S n) l = registered_groups (due_in 1 l) ++ due_schedule n l1.
Proof.
  intros Hshift. unfold due_schedule. cbn [seq flat_map].
  change (Z.of_nat 1) with 1. f_equal.
  rewrite <- seq_shift, !flat_map_concat_map, map_map. f_equal.
  apply map_ext_in. intros t Ht. apply in_seq in Ht.
  rewrite Hshift by lia. f_equal. f_equal. lia.
Qed.

(** X12. With a buffer at hand for every report that comes due, [n]
    ticks transmit exactly the reports of the due schedule: those whose
    countdown was 1, then those whose countdown was 2, and so on up to
    [n], within a tick in list order, each once; reports that are not
    scheduled or are due later are not transmitted. *)
Theorem ticks_send_the_due_schedule `{Config} (n : nat) (st : State) :
  countdowns_are_bytes (xIGMP_ScheduleList st) ->
  firstn (length (due_schedule n (xIGMP_ScheduleList st))) (xBufferOutcomes st)
  = repeat true (length (due_schedule n (xIGMP_ScheduleList st))) ->
  exists evs,
    xTrace (ticks n st) = xTrace st ++ evs /\
    reported_groups evs = due_schedule n (xIGMP_ScheduleList st).
Proof.
  revert st. induction n as [|n IH]; intros st Hb Hpool.
  - exists []. cbn. rewrite app_nil_r. split; reflexivity.
  - rewrite ticks_succ_r.
    destruct (tick_step st Hb) as (_ & Hb' & Hshift & Hpool' & Hsend).
    rewrite (due_schedule_succ n _ _ Hshift) in *.
    rewrite length_app in Hpool.
    apply firstn_repeat_split in Hpool as [Hp1 Hp2].
    assert (Hlen : length (registered_groups (due_in 1 (xIGMP_ScheduleList st)))
                   = length (due_in 1 (xIGMP_ScheduleList st)))
      by (unfold registered_groups; apply length_map).
    rewrite Hlen in Hp1, Hp2.
    destruct (Hsend Hp1) as (evs1 & Htr1 & Hg1).
    rewrite <- Hpool' in Hp2.
    destruct (IH _ Hb' Hp2) as (evs2 & Htr2 & Hg2).
    exists (evs1 ++ evs2). rewrite Htr2, Htr1, <- app_assoc. split; [reflexivity|].
    unfold reported_groups in *. rewrite flat_map_app, Hg1, Hg2. reflexivity.
Qed.

Lemma ticks_send_the_due_schedule_witness :
  countdowns_are_bytes (xIGMP_ScheduleList example_three_scheduled) /\
  exists evs,
    xTrace (@ticks example_build 2 example_three_scheduled)
    = xTrace example_three_scheduled ++ evs /\
    reported_groups evs = [0x040201EF; 0x030201EF; 0x050201EF].
Proof.
  assert (Hb : countdowns_are_bytes (xIGMP_ScheduleList example_three_scheduled)).
  { repeat constructor; discriminate. }
  split; [exact Hb|].
  exact (@ticks_send_the_due_schedule example_build 2 example_three_scheduled
           Hb eq_refl).
Defined.

(** ** Registry operations: misses, round trips, ranges *)

Lemma emit_nil (st : State) : emit [] st = st.
Proof. destruct st. unfold emit. cbn. rewrite app_nil_r. reflexivity. Qed.

Lemma remove_report_miss (group : Z) (l : list IGMPReportDesc_ptr) :
  ~ In group (registered_groups l) -> remove_report group l = (l, []).
Proof.
  unfold registered_groups.
  induction l as [|[p d] l IH]; intros Hn; [reflexivity|].
  cbn [remove_report]. cbn [map snd In] in Hn.
  destruct (ird_group d =? group) eqn:E; [exfalso; apply Hn; left; lia|].
  rewrite IH by tauto. reflexivity.
Qed.

(** X13. Removing a group that is not registered is a no-op: the state,
    trace included, is what it was, so repeating the call is harmless. *)
Theorem vRemoveIGMPReportFromList_miss (pMCastGroup : freertos_ip_mreq) (st : State) :
  ~ In (sin_addr (imr_multiaddr pMCastGroup))
       (registered_groups (xIGMP_ScheduleList st)) ->
  vRemoveIGMPReportFromList pMCastGroup st = st.
Proof.
  intros Hn. unfold vRemoveIGMPReportFromList.
  rewrite (remove_report_miss _ _ Hn), set_ScheduleList_same. apply emit_nil.
Qed.

Lemma vRemoveIGMPReportFromList_miss_witness :
  ~ In (sin_addr (imr_multiaddr (example_mreq 0x060201EF)))
       (registered_groups (xIGMP_ScheduleList example_three_unscheduled)) /\
  vRemoveIGMPReportFromList (example_mreq 0x060201EF) example_three_unscheduled
  = example_three_unscheduled.
Proof.
  assert (Hn : ~ In (sin_addr (imr_multiaddr (example_mreq 0x060201EF)))
                    (registered_groups (xIGMP_ScheduleList example_three_unscheduled))).
  { cbv. intros Hin. repeat destruct Hin as [Hin|Hin]; try discriminate Hin; exact Hin. }
  split; [exact Hn|].
  exact (vRemoveIGMPReportFromList_miss (example_mreq 0x060201EF)
           example_three_unscheduled Hn).
Defined.

Lemma set_xNumSockets_same (d : IGMPReportDesc_t) :
  set_xNumSockets (xNumSockets d) d = d.
Proof. destruct d. reflexivity. Qed.

Lemma remove_after_bump (group : Z) (l l' : list IGMPReportDesc_ptr) :
  Forall (fun e => 1 <= xNumSockets (snd e)) l ->
  bump_duplicate group l = Some l' ->
  remove_report group l' = (l, []).
Proof.
  revert l'. induction l as [|[p d] l IH]; intros l' Hpos Hb; cbn in Hb; [discriminate|].
  inversion Hpos as [|? ? Hd Hpos']; subst. cbn [snd] in Hd.
  destruct (ird_group d =? group) eqn:E.
  - injection Hb as <-. cbn [remove_report].
    rewrite ird_group_set_xNumSockets, E.
    cbn [xNumSockets set_xNumSockets].
    assert (E1 : (xNumSockets d + 1 >? 0) = true) by lia. rewrite E1.
    assert (E2 : (0 =? xNumSockets d + 1 - 1) = false) by lia. rewrite E2.
    replace (xNumSockets d + 1 - 1) with (xNumSockets d) by lia.
    change (set_xNumSockets (xNumSockets d) (set_xNumSockets (xNumSockets d + 1) d))
      with (set_xNumSockets (xNumSockets d) d).
    rewrite set_xNumSockets_same. reflexivity.
  - destruct (bump_duplicate group l) as [rest'|]; [|discriminate].
    injection Hb as <-. cbn [remove_report]. rewrite E.
    rewrite (IH rest' Hpos' eq_refl). reflexivity.
Qed.

Lemma remove_after_append (group p : Z) (d : IGMPReportDesc_t)
    (l : list IGMPReportDesc_ptr) :
  ~ In group (registered_groups l) -> ird_group d = group -> xNumSockets d = 1 ->
  remove_report group (l ++ [(p, d)]) = (l, [vPortFree p]).
Proof.
  unfold registered_groups. intros Hn Hg Hc.
  induction l as [|[q r] l IH]; cbn [app remove_report].
  - rewrite Hg, Z.eqb_refl, Hc. reflexivity.
  - cbn [map snd In] in Hn.
    destruct (ird_group r =? group) eqn:E; [exfalso; apply Hn; left; lia|].
    rewrite IH by tauto. reflexivity.
Qed.

Lemma add_then_remove_lists (pNewEntry : IGMPReportDesc_ptr) (st : State) :
  Forall (fun e => 1 <= xNumSockets (snd e)) (xIGMP_ScheduleList st) ->
  fst (remove_report (ird_group (snd pNewEntry))
         (xIGMP_ScheduleList (snd (xAddIGMPReportToList pNewEntry st))))
  = xIGMP_ScheduleList st /\
  snd (remove_report (ird_group (snd pNewEntry))
         (xIGMP_ScheduleList (snd (xAddIGMPReportToList pNewEntry st))))
  = (if pdTRUE =? fst (xAddIGMPReportToList pNewEntry st)
     then [vPortFree (fst pNewEntry)] else []).
Proof.
  intros Hpos. unfold xAddIGMPReportToList.
  destruct (bump_duplicate _ _) as [l|] eqn:Eb.
  - cbn [fst snd xIGMP_ScheduleList set_ScheduleList].
    rewrite (remove_after_bump _ _ _ Hpos Eb). split; reflexivity.
  - apply bump_duplicate_None in Eb.
    destruct (xApplicationGetRandomNumber _) as [r rnd].
    cbn [fst snd xIGMP_ScheduleList set_RandomOutcomes set_ScheduleList].
    rewrite remove_after_append; [|exact Eb|reflexivity|reflexivity].
    split; reflexivity.
Qed.

(** X14. Add then remove is a round trip on the registry: when every
    registered report stands for at least one socket, registering a
    candidate and then removing its group gives back the schedule list as
    it was. If the group was already registered nothing is freed by the
    removal; if it was not, the removal frees the candidate that the
    registration had consumed. *)
Theorem add_then_remove_restores_registry (pNewEntry : IGMPReportDesc_ptr)
    (st : State) :
  Forall (fun e => 1 <= xNumSockets (snd e)) (xIGMP_ScheduleList st) ->
  let st1 := snd (xAddIGMPReportToList pNewEntry st) in
  let st2 := vRemoveIGMPReportFromList (ird_mreq (snd pNewEntry)) st1 in
  xIGMP_ScheduleList st2 = xIGMP_ScheduleList st /\
  (In (ird_group (snd pNewEntry)) (registered_groups (xIGMP_ScheduleList st)) ->
     xTrace st2 = xTrace st) /\
  (~ In (ird_group (snd pNewEntry)) (registered_groups (xIGMP_ScheduleList st)) ->
     xTrace st2 = xTrace st ++ [vPortFree (fst pNewEntry)]).
Proof.
  intros Hpos. cbn zeta.
  destruct (vRemoveIGMPReportFromList_frame (ird_mreq (snd pNewEntry))
              (snd (xAddIGMPReportToList pNewEntry st))) as (_ & -> & ->).
  destruct (xAddIGMPReportToList_frame pNewEntry st) as (-> & _ & _).
  fold (ird_group (snd pNewEntry)).
  unfold xAddIGMPReportToList.
  destruct (bump_duplicate _ _) as [l|] eqn:Eb.
  - cbn [snd xIGMP_ScheduleList set_ScheduleList].
    rewrite (remove_after_bump _ _ _ Hpos Eb). cbn [fst snd].
    split; [reflexivity|]. split.
    + intros _. apply app_nil_r.
    + intros Hn. exfalso. apply Hn. apply (bump_duplicate_groups _ _ _ Eb).
  - apply bump_duplicate_None in Eb.
    destruct (xApplicationGetRandomNumber _) as [r rnd].
    cbn [snd xIGMP_ScheduleList set_RandomOutcomes set_ScheduleList].
    rewrite remove_after_append; [|exact Eb|reflexivity|reflexivity].
    cbn [fst snd]. split; [reflexivity|]. split; [intros Hin; contradiction|].
    intros _. reflexivity.
Qed.

Lemma add_then_remove_restores_registry_witness :
  Forall (fun e => 1 <= xNumSockets (snd e))
    (xIGMP_ScheduleList example_three_unscheduled) /\
  xIGMP_ScheduleList
    (vRemoveIGMPReportFromList (example_mreq 0x040201EF)
       (snd (xAddIGMPReportToList (0x3000, example_report 0x040201EF 0 0)
               example_three_unscheduled)))
  = xIGMP_ScheduleList example_three_unscheduled.
Proof.
  assert (Hpos : Forall (fun e => 1 <= xNumSockets (snd e))
                   (xIGMP_ScheduleList example_three_unscheduled)).
  { repeat constructor; discriminate. }
  split; [exact Hpos|].
  exact (proj1 (add_then_remove_restores_registry
                  (0x3000, example_report 0x040201EF 0 0)
                  example_three_unscheduled Hpos)).
Defined.

(** ** Ranges that hold in every reachable state *)

Lemma xAddIGMPReportToList_in_range (pNewEntry : IGMPReportDesc_ptr) (st : State) :
  registry_in_range (xIGMP_ScheduleList st) ->
  registry_in_range (xIGMP_ScheduleList (snd (xAddIGMPReportToList pNewEntry st))).
Proof.
  unfold registry_in_range. intros Hr.
  unfold xAddIGMPReportToList.
  destruct (bump_duplicate _ _) as [l|] eqn:Eb.
  - destruct (bump_duplicate_Some _ _ _ Eb)
      as (before & p & d & after & Hl & _ & _ & ->).
    cbn [snd xIGMP_ScheduleList set_ScheduleList]. rewrite Hl in Hr.
    apply Forall_app in Hr as [Hb Ha]. inversion Ha as [|? ? Hd Ha']; subst.
    apply Forall_app. split; [exact Hb|]. constructor; [|exact Ha'].
    unfold report_in_range in *. cbn [snd set_xNumSockets xNumSockets ucCountDown] in *.
    lia.
  - destruct (xApplicationGetRandomNumber (xRandomOutcomes st)) as [r rnd].
    cbn [snd xIGMP_ScheduleList set_RandomOutcomes set_ScheduleList].
    apply Forall_app. split; [exact Hr|]. constructor; [|constructor].
    unfold report_in_range.
    cbn [snd set_xNumSockets set_ucCountDown xNumSockets ucCountDown].
    change 0x07 with (Z.ones 3). rewrite Z.land_ones by lia.
    match goal with
    | |- context [?u mod 2 ^ 3] =>
        pose proof (Z.mod_pos_bound u (2 ^ 3) ltac:(lia)) as Hm
    end.
    change (2 ^ 3) with 8 in *.
    rewrite uint32_small by lia. rewrite uint8_small by lia. lia.
Qed.

Lemma remove_report_in_range (group : Z) (l : list IGMPReportDesc_ptr) :
  registry_in_range l -> registry_in_range (fst (remove_report group l)).
Proof.
  unfold registry_in_range.
  induction l as [|[p d] l IH]; intros Hr; cbn [remove_report]; [constructor|].
  inversion Hr as [|? ? Hd Hr']; subst.
  destruct (ird_group d =? group).
  - unfold report_in_range in Hd. cbn [snd] in Hd.
    assert (E1 : (xNumSockets d >? 0) = true) by lia. rewrite E1.
    destruct (0 =? xNumSockets d - 1) eqn:E2; cbn [fst]; [exact Hr'|].
    constructor; [|exact Hr']. unfold report_in_range.
    cbn [snd set_xNumSockets xNumSockets ucCountDown]. lia.
  - specialize (IH Hr'). destruct (remove_report group l) as [rest' evs].
    cbn [fst] in *. constructor; assumption.
Qed.

Lemma vRemoveIGMPReportFromList_in_range (pMCastGroup : freertos_ip_mreq) (st : State) :
  registry_in_range (xIGMP_ScheduleList st) ->
  registry_in_range (xIGMP_ScheduleList (vRemoveIGMPReportFromList pMCastGroup st)).
Proof.
  intros Hr.
  destruct (vRemoveIGMPReportFromList_frame pMCastGroup st) as (_ & -> & _).
  apply remove_report_in_range, Hr.
Qed.

Lemma schedule_reports_in_range (m counter : Z) (rnd : list (option Z))
    (l : list IGMPReportDesc_ptr) :
  0 <= m < 256 -> 1 <= counter <= ucMaxRespTime_of m ->
  registry_in_range l ->
  registry_in_range
    (fst (schedule_reports m (ucMaxRespTime_of m)
            (RandMask_of (ucMaxRespTime_of m)) counter rnd l)).
Proof.
  intros Hm Hc Hr.
  pose proof (schedule_reports_spec m counter rnd l Hm Hc) as HF.
  destruct (ucMaxRespTime_of_spec m Hm) as [Hweq Hw].
  unfold registry_in_range in *.
  induction HF as [|[p d] [p' d'] l0 l' (_ & _ & Hn & Hre & Hkeep) HF IH];
    [constructor|].
  inversion Hr as [|? ? Hd Hr']; subst. constructor; [|apply IH, Hr'].
  unfold report_in_range in *. cbn [fst snd] in *.
  destruct (needs_reschedule m d) eqn:E.
  - specialize (Hre eq_refl). lia.
  - rewrite (Hkeep eq_refl). exact Hd.
Qed.

Lemma eProcessIGMPPacket_in_range `{Config}
    (pxNetworkBuffer : NetworkBufferDescriptor_t) (st : State) :
  registry_in_range (xIGMP_ScheduleList st) ->
  registry_in_range (xIGMP_ScheduleList (snd (eProcessIGMPPacket pxNetworkBuffer st))).
Proof.
  intros Hr. unfold eProcessIGMPPacket.
  destruct (xDataLength pxNetworkBuffer <? sizeof_IGMPPacket_t); [exact Hr|].
  destruct (ucTypeOfMessage _ =? ipIGMP_MEMBERSHIP_QUERY).
  - destruct (uiGroupAddress _ =? 0); [|exact Hr].
    cbn [snd xRandomOutcomes xIGMP_ScheduleList set_Queries].
    match goal with
    | |- context [schedule_reports ?m (ucMaxRespTime_of ?m) ?k 1 ?r ?l] =>
        assert (Hm : 0 <= m < 256) by apply read_uint8_range;
        pose proof (proj2 (ucMaxRespTime_of_spec m Hm)) as Hw;
        pose proof (schedule_reports_in_range m 1 r l Hm ltac:(lia) Hr) as Hs;
        destruct (schedule_reports m (ucMaxRespTime_of m) k 1 r l) as [l' rnd]
    end.
    exact Hs.
  - destruct (_ || _); exact Hr.
Qed.

Lemma handle_reports_in_range `{Config} (l : list IGMPReportDesc_ptr) (st : State) :
  registry_in_range l -> registry_in_range (fst (handle_reports l st)).
Proof.
  unfold registry_in_range.
  revert st. induction l as [|[p d] l IH]; intros st Hr; cbn [handle_reports];
    [constructor|].
  inversion Hr as [|? ? Hd Hr']; subst.
  unfold report_in_range in Hd. cbn [snd] in Hd.
  destruct (ucCountDown d >? 0) eqn:E.
  - match goal with
    | |- context [handle_reports l ?s] =>
        specialize (IH s Hr'); destruct (handle_reports l s) as [rest' st2]
    end.
    cbn [fst] in *. constructor; [|exact IH]. unfold report_in_range.
    cbn [snd set_ucCountDown xNumSockets ucCountDown].
    rewrite uint8_small by lia. lia.
  - specialize (IH st Hr'). destruct (handle_reports l st) as [rest' st2].
    cbn [fst] in *. constructor; [exact Hd|exact IH].
Qed.

Lemma vHandleIGMP_Event_in_range `{Config} (st : State) :
  registry_in_range (xIGMP_ScheduleList st) ->
  registry_in_range (xIGMP_ScheduleList (vHandleIGMP_Event st)).
Proof.
  intros Hr. unfold vHandleIGMP_Event.
  pose proof (handle_reports_in_range (xIGMP_ScheduleList st) st Hr) as Hh.
  destruct (handle_reports (xIGMP_ScheduleList st) st) as [l st']. exact Hh.
Qed.

Lemma vModifyMulticastMembership_in_range `{Config}
    (pxMulticastGroup : MCastGroupDesc_ptr) (bAction : Z) (st : State) :
  registry_in_range (xIGMP_ScheduleList st) ->
  registry_in_range
    (xIGMP_ScheduleList (vModifyMulticastMembership pxMulticastGroup bAction st)).
Proof.
  intros Hr. unfold vModifyMulticastMembership.
  destruct (negb _ && negb _); [exact Hr|].
  destruct pxMulticastGroup as [addr desc].
  destruct (eSocketOptAddMembership =? bAction).
  - destruct (find_group _ _) as [found|].
    + destruct (pxIGMPReportDesc desc); exact Hr.
    + destruct (pxIGMPReportDesc desc) as [report|]; [|exact Hr].
      match goal with
      | |- context [xAddIGMPReportToList report ?s] =>
          pose proof (xAddIGMPReportToList_in_range report s Hr) as Ha;
          destruct (xAddIGMPReportToList report s) as [consumed st2]
      end.
      destruct (negb _); exact Ha.
  - destruct (find_group _ _) as [[pMCG pxMCG]|]; [|exact Hr].
    destruct (negb (addr =? pMCG)); cbn [xIGMP_ScheduleList emit];
      apply vRemoveIGMPReportFromList_in_range; exact Hr.
Qed.

Lemma vIGMP_Init_in_range `{Config} (pxIRD : Z) (st : State) :
  registry_in_range (xIGMP_ScheduleList (vIGMP_Init pxIRD st)).
Proof.
  unfold vIGMP_Init.
  assert (H0 : registry_in_range (@nil IGMPReportDesc_ptr)) by constructor.
  destruct ipconfigUSE_LLMNR; [|exact H0].
  destruct (negb (NULL =? pxIRD)); [|exact H0].
  match goal with
  | |- context [xAddIGMPReportToList ?e ?s] =>
      pose proof (xAddIGMPReportToList_in_range e s H0) as Ha;
      destruct (xAddIGMPReportToList e s) as [consumed st']
  end.
  destruct (negb _); exact Ha.
Qed.

(** X15. In every state reached from [vIGMP_Init] by calls of the module,
    each registered report stands for at least one socket (a report whose
    count reaches 0 is removed at once) and its countdown is between 0
    and 254. *)
Theorem reachable_registry_in_range `{Config} (pxIRD : Z) (st0 : State)
    (calls : list Call) :
  registry_in_range (xIGMP_ScheduleList (run calls (vIGMP_Init pxIRD st0))).
Proof.
  unfold run.
  pose proof (vIGMP_Init_in_range pxIRD st0) as Hinit.
  revert Hinit. generalize (vIGMP_Init pxIRD st0).
  induction calls as [|c calls IH]; intros st Hr; cbn [fold_left]; [exact Hr|].
  apply IH. destruct c; cbn [step].
  - apply vModifyMulticastMembership_in_range, Hr.
  - apply xAddIGMPReportToList_in_range, Hr.
  - apply vRemoveIGMPReportFromList_in_range, Hr.
  - apply eProcessIGMPPacket_in_range, Hr.
  - apply vHandleIGMP_Event_in_range, Hr.
Qed.

(** ** The sockets' group lists *)

Lemma find_group_None_iff (group : Z) (l : list MCastGroupDesc_ptr) :
  find_group group l = None <-> ~ In group (socket_groups l).
Proof.
  unfold socket_groups. induction l as [|[p d] l IH]; cbn.
  - tauto.
  - destruct (mcg_group d =? group) eqn:E.
    + split; [discriminate|]. intros Hn. exfalso. apply Hn. left. lia.
    + rewrite IH. split; [intros Hn [Heq|Hin]; [lia|tauto]|tauto].
Qed.

Lemma unlink_group_sub (group : Z) (l : list MCastGroupDesc_ptr) :
  NoDup (socket_groups l) ->
  NoDup (socket_groups (unlink_group group l)) /\
  ~ In group (socket_groups (unlink_group group l)) /\
  (forall g, In g (socket_groups (unlink_group group l)) -> In g (socket_groups l)).
Proof.
  unfold socket_groups.
  induction l as [|[p d] l IH]; intros Hnd; cbn [unlink_group map snd].
  - repeat split; [constructor|intros []|intros g []].
  - inversion Hnd as [|? ? Hnotin Hnd']; subst.
    destruct (mcg_group d =? group) eqn:E.
    + assert (mcg_group d = group) by lia. subst group.
      split; [exact Hnd'|]. split; [exact Hnotin|]. intros g Hg. right. exact Hg.
    + destruct (IH Hnd') as (I1 & I2 & I3). cbn [map snd]. split; [|split].
      * constructor; [|exact I1]. intros Hin. apply Hnotin, I3, Hin.
      * intros [Heq|Hin]; [lia|exact (I2 Hin)].
      * intros g [Hg|Hg]; [left; exact Hg|right; apply I3, Hg].
Qed.

Lemma unlink_group_miss (group : Z) (l : list MCastGroupDesc_ptr) :
  find_group group l = None -> unlink_group group l = l.
Proof.
  induction l as [|[p d] l IH]; cbn; [reflexivity|].
  destruct (mcg_group d =? group); [discriminate|].
  intros Hf. rewrite (IH Hf). reflexivity.
Qed.

Lemma unlink_group_after_append (group addr : Z) (desc : MCastGroupDesc_t)
    (l : list MCastGroupDesc_ptr) :
  find_group group l = None -> mcg_group desc = group ->
  unlink_group group (l ++ [(addr, desc)]) = l.
Proof.
  intros Hf Hg. induction l as [|[p d] l IH]; cbn in *.
  - rewrite Hg, Z.eqb_refl. reflexivity.
  - destruct (mcg_group d =? group); [discriminate|]. rewrite (IH Hf). reflexivity.
Qed.

(** What one call can do to the group list of a socket. *)
Lemma vModifyMulticastMembership_groups `{Config}
    (pxMulticastGroup : MCastGroupDesc_ptr) (bAction : Z) (st : State) (s : Z) :
  let l := xMulticastGroupsList st s in
  let l' := xMulticastGroupsList
              (vModifyMulticastMembership pxMulticastGroup bAction st) s in
  let group := mcg_group (snd pxMulticastGroup) in
  l' = l \/
  (s = socket_of pxMulticastGroup /\ find_group group l = None /\
   exists desc', mcg_group desc' = group /\ l' = l ++ [(fst pxMulticastGroup, desc')]) \/
  (s = socket_of pxMulticastGroup /\ l' = unlink_group group l).
Proof.
  cbn zeta. unfold vModifyMulticastMembership, socket_of.
  destruct (negb _ && negb _); [left; reflexivity|].
  destruct pxMulticastGroup as [addr desc]. cbn [fst snd].
  destruct (eSocketOptAddMembership =? bAction).
  - destruct (find_group _ _) as [found|] eqn:Ef.
    + left. destruct (pxIGMPReportDesc desc); reflexivity.
    + destruct (Z.eq_dec s (pxSocket desc)) as [Es|Es].
      * subst s. right. left. split; [reflexivity|]. split; [exact Ef|].
        destruct (pxIGMPReportDesc desc) as [report|].
        -- match goal with
           | |- context [xAddIGMPReportToList report ?s0] =>
               destruct (xAddIGMPReportToList_frame report s0) as (_ & Hgl & _);
               destruct (xAddIGMPReportToList report s0) as [consumed st2]
           end.
           cbn [snd xMulticastGroupsList emit] in Hgl.
           destruct (negb (pdTRUE =? consumed)).
           ++ exists (set_pxIGMPReportDesc None desc). split; [reflexivity|].
              cbn [xMulticastGroupsList emit]. apply set_GroupsList_same.
           ++ exists desc. split; [reflexivity|]. apply set_GroupsList_same.
        -- exists desc. split; [reflexivity|]. apply set_GroupsList_same.
      * left. destruct (pxIGMPReportDesc desc) as [report|].
        -- match goal with
           | |- context [xAddIGMPReportToList report ?s0] =>
               destruct (xAddIGMPReportToList_frame report s0) as (_ & Hgl & _);
               destruct (xAddIGMPReportToList report s0) as [consumed st2]
           end.
           cbn [snd xMulticastGroupsList emit] in Hgl.
           destruct (negb (pdTRUE =? consumed)); cbn [xMulticastGroupsList emit];
             rewrite set_GroupsList_other by exact Es; rewrite Hgl; reflexivity.
        -- rewrite set_GroupsList_other by exact Es. reflexivity.
  - destruct (find_group _ _) as [[pMCG pxMCG]|] eqn:Ef; [|left; reflexivity].
    match goal with
    | |- context [vRemoveIGMPReportFromList ?m ?s0] =>
        destruct (vRemoveIGMPReportFromList_frame m s0) as (Hgl & _ & _);
        set (st3 := vRemoveIGMPReportFromList m s0) in *
    end.
    assert (Hl : xMulticastGroupsList
                   (emit [vPortFree pMCG]
                      (if negb (addr =? pMCG) then emit [vPortFree addr] st3 else st3))
                 = xMulticastGroupsList st3)
      by (destruct (negb (addr =? pMCG)); reflexivity).
    rewrite Hl, Hgl. cbn [xMulticastGroupsList emit].
    destruct (Z.eq_dec s (pxSocket desc)) as [Es|Es].
    + subst s. right. right. split; [reflexivity|]. apply set_GroupsList_same.
    + left. apply set_GroupsList_other. exact Es.
Qed.

Lemma eProcessIGMPPacket_socket_lists `{Config}
    (pxNetworkBuffer : NetworkBufferDescriptor_t) (st : State) :
  xMulticastGroupsList (snd (eProcessIGMPPacket pxNetworkBuffer st))
  = xMulticastGroupsList st.
Proof.
  unfold eProcessIGMPPacket.
  destruct (xDataLength pxNetworkBuffer <? sizeof_IGMPPacket_t); [reflexivity|].
  destruct (ucTypeOfMessage _ =? ipIGMP_MEMBERSHIP_QUERY).
  - destruct (uiGroupAddress _ =? 0); [|reflexivity].
    destruct (schedule_reports _ _ _ _ _ _) as [l rnd]. reflexivity.
  - destruct (_ || _); reflexivity.
Qed.

Lemma vHandleIGMP_Event_socket_lists `{Config} (st : State) :
  xMulticastGroupsList (vHandleIGMP_Event st) = xMulticastGroupsList st.
Proof.
  unfold vHandleIGMP_Event.
  destruct (handle_reports_frame (xIGMP_ScheduleList st) st) as (_ & _ & Hg & _).
  destruct (handle_reports (xIGMP_ScheduleList st) st) as [l st']. exact Hg.
Qed.

Lemma step_socket_lists `{Config} (st : State) (c : Call) (s : Z) :
  NoDup (socket_groups (xMulticastGroupsList st s)) ->
  NoDup (socket_groups (xMulticastGroupsList (step st c) s)).
Proof.
  intros Hnd. destruct c; cbn [step].
  - destruct (vModifyMulticastMembership_groups pxMulticastGroup bAction st s)
      as [-> | [(_ & Hf & desc' & Hg & ->) | (_ & ->)]].
    + exact Hnd.
    + apply find_group_None_iff in Hf. unfold socket_groups in *.
      rewrite map_app. apply NoDup_app; [exact Hnd| |].
      * cbn. constructor; [intros []|constructor].
      * intros g Hin [Heq|[]]. cbn [snd] in Heq. rewrite Hg in Heq. subst g.
        exact (Hf Hin).
    + apply unlink_group_sub, Hnd.
  - destruct (xAddIGMPReportToList_frame pNewEntry st) as (_ & -> & _). exact Hnd.
  - destruct (vRemoveIGMPReportFromList_frame pMCastGroup st) as (-> & _ & _). exact Hnd.
  - rewrite eProcessIGMPPacket_socket_lists. exact Hnd.
  - rewrite vHandleIGMP_Event_socket_lists. exact Hnd.
Qed.

(** X16. No socket ever holds the same group twice: if every socket's
    group list names each group at most once, it still does after any
    sequence of calls of the module, with any descriptors and actions. *)
Theorem socket_lists_stay_unique `{Config} (st : State) (calls : list Call) :
  socket_lists_unique st -> socket_lists_unique (run calls st).
Proof.
  unfold run. revert st. induction calls as [|c calls IH]; intros st Hu;
    cbn [fold_left]; [exact Hu|].
  apply IH. intros s. apply step_socket_lists, Hu.
Qed.

Lemma socket_lists_stay_unique_witness :
  socket_lists_unique example_empty /\
  socket_lists_unique
    (@run example_build
       [call_vModifyMulticastMembership (example_join 0x5000 0x4000 0x3000) 1;
        call_vModifyMulticastMembership (example_join 0x5000 0x4001 0x3001) 1]
       example_empty).
Proof.
  assert (Hu : socket_lists_unique example_empty) by (intros s; constructor).
  split; [exact Hu|].
  exact (@socket_lists_stay_unique example_build example_empty _ Hu).
Defined.

(** X17. Joining a group the socket already belongs to changes neither
    the socket's groups nor the registry nor the random source, and does
    not call the link-layer filter: the call only frees the candidate
    report, if there is one, and then the request itself. *)
Theorem join_again_only_frees `{Config}
    (pxMulticastGroup : MCastGroupDesc_ptr) (st : State) :
  find_group (mcg_group (snd pxMulticastGroup))
    (xMulticastGroupsList st (socket_of pxMulticastGroup)) <> None ->
  let st' := vModifyMulticastMembership pxMulticastGroup eSocketOptAddMembership st in
  xIGMP_ScheduleList st' = xIGMP_ScheduleList st /\
  xMulticastGroupsList st' = xMulticastGroupsList st /\
  xRandomOutcomes st' = xRandomOutcomes st /\
  xTrace st'
  = xTrace st
    ++ match pxIGMPReportDesc (snd pxMulticastGroup) with
       | Some report => [vPortFree (fst report)]
       | None => []
       end
    ++ [vPortFree (fst pxMulticastGroup)].
Proof.
  intros Hmember. cbn zeta. unfold vModifyMulticastMembership, socket_of in *.
  rewrite Z.eqb_refl. cbn [negb andb].
  destruct pxMulticastGroup as [addr desc]. cbn [fst snd] in *.
  destruct (find_group _ _) as [found|]; [|contradiction].
  destruct (pxIGMPReportDesc desc) as [report|]; cbn [xTrace emit app];
    repeat split. rewrite <- app_assoc. reflexivity.
Qed.

Lemma join_again_only_frees_witness :
  let st := @join_all example_build example_joins example_empty in
  find_group (mcg_group (snd (example_join 0x5000 0x4200 0x3200)))
    (xMulticastGroupsList st (socket_of (example_join 0x5000 0x4200 0x3200))) <> None /\
  xIGMP_ScheduleList
    (@vModifyMulticastMembership example_build (example_join 0x5000 0x4200 0x3200)
       (@eSocketOptAddMembership example_build) st)
  = xIGMP_ScheduleList st.
Proof.
  cbn zeta.
  assert (Hm : find_group (mcg_group (snd (example_join 0x5000 0x4200 0x3200)))
                 (xMulticastGroupsList
                    (@join_all example_build example_joins example_empty)
                    (socket_of (example_join 0x5000 0x4200 0x3200))) <> None)
    by (vm_compute; discriminate).
  split; [exact Hm|].
  exact (proj1 (@join_again_only_frees example_build
                  (example_join 0x5000 0x4200 0x3200)
                  (@join_all example_build example_joins example_empty) Hm)).
Defined.

(** X18. Leaving a group the socket does not belong to frees the request
    and does nothing else: the registry keeps the group's report and its
    socket count even when other sockets have joined the group, and the
    link-layer filter is not called. *)
Theorem leave_without_membership_only_frees `{Config}
    (pxMulticastGroup : MCastGroupDesc_ptr) (st : State) :
  find_group (mcg_group (snd pxMulticastGroup))
    (xMulticastGroupsList st (socket_of pxMulticastGroup)) = None ->
  vModifyMulticastMembership pxMulticastGroup eSocketOptDropMembership st
  = emit [vPortFree (fst pxMulticastGroup)] st.
Proof.
  intros Hnone. unfold vModifyMulticastMembership, socket_of in *.
  rewrite Z.eqb_refl.
  assert (Ead : (eSocketOptAddMembership =? eSocketOptDropMembership) = false).
  { pose proof eSocketOpt_distinct. lia. }
  rewrite Ead. cbn [negb andb].
  destruct pxMulticastGroup as [addr desc]. cbn [fst snd] in *.
  rewrite Hnone. reflexivity.
Qed.

Lemma leave_without_membership_only_frees_witness :
  let st := @join_all example_build example_joins example_empty in
  find_group (mcg_group (snd (example_leave 0x5002 0x4300)))
    (xMulticastGroupsList st (socket_of (example_leave 0x5002 0x4300))) = None /\
  @vModifyMulticastMembership example_build (example_leave 0x5002 0x4300)
    (@eSocketOptDropMembership example_build) st
  = emit [vPortFree 0x4300] st.
Proof.
  cbn zeta.
  assert (Hn : find_group (mcg_group (snd (example_leave 0x5002 0x4300)))
                 (xMulticastGroupsList
                    (@join_all example_build example_joins example_empty)
                    (socket_of (example_leave 0x5002 0x4300))) = None)
    by (vm_compute; reflexivity).
  split; [exact Hn|].
  exact (@leave_without_membership_only_frees example_build
           (example_leave 0x5002 0x4300)
           (@join_all example_build example_joins example_empty) Hn).
Defined.

(** ** Joins and leaves in full *)

(** The state after a leave by a member. *)
Lemma leave_member_state `{Config} (addr : Z) (desc : MCastGroupDesc_t)
    (pMCG : Z) (pxMCG : MCastGroupDesc_t) (st : State) :
  find_group (mcg_group desc) (xMulticastGroupsList st (pxSocket desc))
  = Some (pMCG, pxMCG) ->
  let st' := vModifyMulticastMembership (addr, desc) eSocketOptDropMembership st in
  xIGMP_ScheduleList st'
  = fst (remove_report (mcg_group desc) (xIGMP_ScheduleList st)) /\
  xMulticastGroupsList st' (pxSocket desc)
  = unlink_group (mcg_group desc) (xMulticastGroupsList st (pxSocket desc)) /\
  (forall s, s <> pxSocket desc ->
     xMulticastGroupsList st' s = xMulticastGroupsList st s) /\
  xTrace st'
  = xTrace st
    ++ [xEMAC_RemoveMulticastAddress (vSetMultiCastIPv4MacAddress (mcg_group desc))]
    ++ snd (remove_report (mcg_group desc) (xIGMP_ScheduleList st))
    ++ (if addr =? pMCG then [] else [vPortFree addr])
    ++ [vPortFree pMCG].
Proof.
  intros Ef. cbn zeta. unfold vModifyMulticastMembership.
  rewrite Z.eqb_refl.
  assert (Ead : (eSocketOptAddMembership =? eSocketOptDropMembership) = false).
  { pose proof eSocketOpt_distinct. lia. }
  rewrite Ead. cbn [negb andb]. rewrite Ef.
  pose proof (find_group_Some _ _ _ Ef) as Hg. cbn [snd] in Hg.
  match goal with
  | |- context [vRemoveIGMPReportFromList ?m ?s] =>
      destruct (vRemoveIGMPReportFromList_frame m s) as (Hgl & Hl & Htr);
      set (st3 := vRemoveIGMPReportFromList m s) in *
  end.
  cbn [xTrace xIGMP_ScheduleList xMulticastGroupsList emit set_GroupsList] in Hgl, Hl, Htr.
  fold (mcg_group pxMCG) in Hl, Htr. rewrite Hg in Hl, Htr.
  destruct (addr =? pMCG); cbn [negb xIGMP_ScheduleList xMulticastGroupsList xTrace emit];
    rewrite Hl, Hgl, Htr, Z.eqb_refl; (split; [reflexivity|]);
    (split; [reflexivity|]); split;
    try (intros s Hs; destruct (s =? pxSocket desc) eqn:E; [lia|reflexivity]);
    rewrite <- !app_assoc; reflexivity.
Qed.

(** The state after a join by a socket that is not a member and brings a
    candidate report. *)
Lemma join_nonmember_state `{Config} (addr : Z) (desc : MCastGroupDesc_t)
    (report : IGMPReportDesc_ptr) (st : State) :
  find_group (mcg_group desc) (xMulticastGroupsList st (pxSocket desc)) = None ->
  pxIGMPReportDesc desc = Some report ->
  let st' := vModifyMulticastMembership (addr, desc) eSocketOptAddMembership st in
  xIGMP_ScheduleList st' = xIGMP_ScheduleList (snd (xAddIGMPReportToList report st)) /\
  (exists desc',
     mcg_group desc' = mcg_group desc /\
     xMulticastGroupsList st' (pxSocket desc)
     = xMulticastGroupsList st (pxSocket desc) ++ [(addr, desc')]) /\
  (forall s, s <> pxSocket desc ->
     xMulticastGroupsList st' s = xMulticastGroupsList st s) /\
  xTrace st'
  = xTrace st
    ++ [xEMAC_AddMulticastAddress (vSetMultiCastIPv4MacAddress (mcg_group desc))]
    ++ (if pdTRUE =? fst (xAddIGMPReportToList report st) then []
        else [vPortFree (fst report)]).
Proof.
  intros Ef Hrep. cbn zeta. unfold vModifyMulticastMembership.
  rewrite Z.eqb_refl. cbn [negb andb]. rewrite Ef, Hrep.
  assert (Hsame : forall evs,
            xAddIGMPReportToList report (emit evs st)
            = (fst (xAddIGMPReportToList report st),
               emit evs (snd (xAddIGMPReportToList report st)))).
  { intros evs. unfold xAddIGMPReportToList.
    cbn [xIGMP_ScheduleList xRandomOutcomes emit].
    destruct (bump_duplicate _ _); [reflexivity|].
    destruct (xApplicationGetRandomNumber _) as [r rnd]. reflexivity. }
  rewrite Hsame.
  destruct (xAddIGMPReportToList_frame report st) as (Htr & Hgl & _).
  destruct (xAddIGMPReportToList report st) as [consumed st2]. cbn [fst snd] in *.
  destruct (pdTRUE =? consumed);
    cbn [negb xIGMP_ScheduleList xMulticastGroupsList xTrace emit set_GroupsList];
    rewrite ?Htr, ?Hgl, Z.eqb_refl.
  - split; [reflexivity|]. split; [exists desc; split; reflexivity|]. split.
    + intros s Hs. destruct (s =? pxSocket desc) eqn:E; [lia|reflexivity].
    + rewrite app_nil_r. reflexivity.
  - split; [reflexivity|].
    split; [exists (set_pxIGMPReportDesc None desc); split; reflexivity|]. split.
    + intros s Hs. destruct (s =? pxSocket desc) eqn:E; [lia|reflexivity].
    + rewrite <- app_assoc. reflexivity.
Qed.

(** X19. Join then leave is a round trip: when a socket that is not a
    member joins a group with a candidate report for that group and
    then leaves it, the registry's schedule list and every socket's group
    list are again what they were before the join, provided every
    registered report stood for at least one socket. *)
Theorem join_then_leave_restores `{Config}
    (join leave : MCastGroupDesc_ptr) (group : Z) (st : State) :
  joins_group group join ->
  mcg_group (snd leave) = group ->
  socket_of leave = socket_of join ->
  find_group group (xMulticastGroupsList st (socket_of join)) = None ->
  Forall (fun e => 1 <= xNumSockets (snd e)) (xIGMP_ScheduleList st) ->
  let st1 := vModifyMulticastMembership join eSocketOptAddMembership st in
  let st2 := vModifyMulticastMembership leave eSocketOptDropMembership st1 in
  xIGMP_ScheduleList st2 = xIGMP_ScheduleList st /\
  (forall s, xMulticastGroupsList st2 s = xMulticastGroupsList st s).
Proof.
  intros [Hjg (report & Hrep & Hrg)] Hlg Hsock Hnone Hpos. cbn zeta.
  destruct join as [jaddr jdesc], leave as [laddr ldesc].
  unfold socket_of in *. cbn [fst snd] in *. subst group.
  destruct (join_nonmember_state jaddr jdesc report st Hnone Hrep)
    as (Hl1 & (desc' & Hg' & Hgl1) & Hoth1 & _).
  cbn zeta in Hl1, Hgl1, Hoth1.
  set (st1 := vModifyMulticastMembership (jaddr, jdesc) eSocketOptAddMembership st) in *.
  assert (Ef : exists found,
             find_group (mcg_group ldesc) (xMulticastGroupsList st1 (pxSocket ldesc))
             = Some found).
  { rewrite Hsock, Hgl1, Hlg.
    pose proof (find_group_app_last (mcg_group jdesc)
                  (xMulticastGroupsList st (pxSocket jdesc)) jaddr desc' Hg') as Hne.
    destruct (find_group (mcg_group jdesc)
                (xMulticastGroupsList st (pxSocket jdesc) ++ [(jaddr, desc')]))
      as [found|]; [exists found; reflexivity|contradiction]. }
  destruct Ef as ([pMCG pxMCG] & Ef).
  destruct (leave_member_state laddr ldesc pMCG pxMCG st1 Ef) as (Hl2 & Hgl2 & Hoth2 & _).
  cbn zeta in Hl2, Hgl2, Hoth2. split.
  - rewrite Hl2, Hl1, Hlg, <- Hrg.
    destruct (add_then_remove_lists report st Hpos) as [Hrt _]. exact Hrt.
  - intros s. destruct (Z.eq_dec s (pxSocket jdesc)) as [->|Hs].
    + rewrite <- Hsock at 1. rewrite Hgl2, Hsock, Hgl1, Hlg.
      apply unlink_group_after_append; [exact Hnone|exact Hg'].
    + rewrite Hoth2 by congruence. apply Hoth1. exact Hs.
Qed.

Lemma join_then_leave_restores_witness :
  joins_group example_group (example_join 0x5000 0x4000 0x3000) /\
  xIGMP_ScheduleList
    (@vModifyMulticastMembership example_build (example_leave 0x5000 0x4100)
       (@eSocketOptDropMembership example_build)
       (@vModifyMulticastMembership example_build (example_join 0x5000 0x4000 0x3000)
          (@eSocketOptAddMembership example_build) example_three_unscheduled))
  = xIGMP_ScheduleList example_three_unscheduled.
Proof.
  assert (Hj : joins_group example_group (example_join 0x5000 0x4000 0x3000)).
  { split; [reflexivity|]. eexists. split; reflexivity. }
  split; [exact Hj|].
  refine (proj1 (@join_then_leave_restores example_build
                   (example_join 0x5000 0x4000 0x3000) (example_leave 0x5000 0x4100)
                   example_group example_three_unscheduled Hj eq_refl eq_refl eq_refl _)).
  repeat constructor; discriminate.
Defined.

Lemma xAddIGMPReportToList_addresses (pNewEntry : IGMPReportDesc_ptr) (st : State) :
  (fst (xAddIGMPReportToList pNewEntry st) = pdTRUE /\
   map fst (xIGMP_ScheduleList (snd (xAddIGMPReportToList pNewEntry st)))
   = map fst (xIGMP_ScheduleList st) ++ [fst pNewEntry]) \/
  (fst (xAddIGMPReportToList pNewEntry st) = pdFALSE /\
   map fst (xIGMP_ScheduleList (snd (xAddIGMPReportToList pNewEntry st)))
   = map fst (xIGMP_ScheduleList st)).
Proof.
  unfold xAddIGMPReportToList.
  destruct (bump_duplicate _ _) as [l|] eqn:Eb.
  - right. split; [reflexivity|]. apply (bump_duplicate_groups _ _ _ Eb).
  - left. destruct (xApplicationGetRandomNumber _) as [r rnd].
    split; [reflexivity|].
    cbn [snd xIGMP_ScheduleList set_RandomOutcomes set_ScheduleList].
    rewrite map_app. reflexivity.
Qed.

(** X20. A candidate report handed in with a join has exactly one owner
    afterwards. For a candidate that is an object of its own (its address
    is neither registered nor that of the request), either the registry
    holds it and the call has not freed it, or the registry does not hold
    it and the call has freed it exactly once. *)
Theorem join_candidate_consumed_or_freed `{Config}
    (pxMulticastGroup : MCastGroupDesc_ptr) (report : IGMPReportDesc_ptr)
    (st : State) :
  pxIGMPReportDesc (snd pxMulticastGroup) = Some report ->
  ~ In (fst report) (map fst (xIGMP_ScheduleList st)) ->
  fst report <> fst pxMulticastGroup ->
  let st' := vModifyMulticastMembership pxMulticastGroup eSocketOptAddMembership st in
  exists evs,
    xTrace st' = xTrace st ++ evs /\
    ((In (fst report) (map fst (xIGMP_ScheduleList st')) /\
      frees_of (fst report) evs = []) \/
     (~ In (fst report) (map fst (xIGMP_ScheduleList st')) /\
      frees_of (fst report) evs = [vPortFree (fst report)])).
Proof.
  intros Hrep Hfresh Hne. cbn zeta.
  destruct pxMulticastGroup as [addr desc]. cbn [fst snd] in *.
  destruct (find_group (mcg_group desc) (xMulticastGroupsList st (pxSocket desc)))
    as [found|] eqn:Ef.
  - unfold vModifyMulticastMembership. rewrite Z.eqb_refl. cbn [negb andb].
    rewrite Ef, Hrep. cbn [xTrace xIGMP_ScheduleList emit].
    exists [vPortFree (fst report); vPortFree addr].
    rewrite <- app_assoc. split; [reflexivity|]. right. split; [exact Hfresh|].
    unfold frees_of. cbn [filter]. rewrite Z.eqb_refl.
    destruct (addr =? fst report) eqn:E; [lia|reflexivity].
  - destruct (join_nonmember_state addr desc report st Ef Hrep) as (Hl & _ & _ & Htr).
    cbn zeta in Hl, Htr. rewrite Hl, Htr. eexists. split; [reflexivity|].
    destruct (xAddIGMPReportToList_addresses report st) as [[-> ->]|[-> ->]].
    + left. split; [apply in_or_app; right; left; reflexivity|reflexivity].
    + right. split; [exact Hfresh|].
      unfold frees_of. cbn [Z.eqb pdTRUE pdFALSE app filter].
      rewrite Z.eqb_refl. reflexivity.
Qed.

Lemma join_candidate_consumed_or_freed_witness :
  let request := example_join 0x5000 0x4000 0x3000 in
  let report := (0x3000, example_report example_group 0 0) in
  pxIGMPReportDesc (snd request) = Some report /\
  exists evs,
    xTrace (@vModifyMulticastMembership example_build request
              (@eSocketOptAddMembership example_build) example_three_unscheduled)
    = xTrace example_three_unscheduled ++ evs /\
    ((In (fst report)
         (map fst (xIGMP_ScheduleList
                     (@vModifyMulticastMembership example_build request
                        (@eSocketOptAddMembership example_build)
                        example_three_unscheduled))) /\
      frees_of (fst report) evs = []) \/
     (~ In (fst report)
          (map fst (xIGMP_ScheduleList
                      (@vModifyMulticastMembership example_build request
                         (@eSocketOptAddMembership example_build)
                         example_three_unscheduled))) /\
      frees_of (fst report) evs = [vPortFree (fst report)])).
Proof.
  cbn zeta. split; [reflexivity|].
  refine (@join_candidate_consumed_or_freed example_build
            (example_join 0x5000 0x4000 0x3000)
            (0x3000, example_report example_group 0 0)
            example_three_unscheduled eq_refl _ _).
  - cbn. intros Hin. repeat destruct Hin as [Hin|Hin]; try discriminate Hin; exact Hin.
  - discriminate.
Defined.

Lemma remove_report_events (group : Z) (l : list IGMPReportDesc_ptr) :
  snd (remove_report group l) = [] \/
  exists p, In p (map fst l) /\ snd (remove_report group l) = [vPortFree p].
Proof.
  induction l as [|[p d] l IH]; cbn [remove_report]; [left; reflexivity|].
  destruct (ird_group d =? group).
  - destruct (0 =? _); cbn [snd]; [|left; reflexivity].
    right. exists p. split; [left; reflexivity|reflexivity].
  - destruct (remove_report group l) as [rest' evs]. cbn [snd] in *.
    destruct IH as [->|(q & Hq & ->)]; [left; reflexivity|].
    right. exists q. split; [right; exact Hq|reflexivity].
Qed.

(** X21. A leave by a member frees the request and the stored membership
    exactly once each, also when they are one and the same object (as on
    socket close), and it calls the link-layer filter exactly once, to
    remove the group's MAC address. The addresses of the two descriptors
    are assumed not to be those of registered reports. *)
Theorem leave_frees_each_descriptor_once `{Config}
    (pxMulticastGroup : MCastGroupDesc_ptr) (pMCG : Z) (pxMCG : MCastGroupDesc_t)
    (st : State) :
  find_group (mcg_group (snd pxMulticastGroup))
    (xMulticastGroupsList st (socket_of pxMulticastGroup)) = Some (pMCG, pxMCG) ->
  ~ In (fst pxMulticastGroup) (map fst (xIGMP_ScheduleList st)) ->
  ~ In pMCG (map fst (xIGMP_ScheduleList st)) ->
  exists evs,
    xTrace (vModifyMulticastMembership pxMulticastGroup eSocketOptDropMembership st)
    = xTrace st ++ evs /\
    frees_of (fst pxMulticastGroup) evs = [vPortFree (fst pxMulticastGroup)] /\
    frees_of pMCG evs = [vPortFree pMCG] /\
    link_filter_calls evs
    = [xEMAC_RemoveMulticastAddress
         (vSetMultiCastIPv4MacAddress (mcg_group (snd pxMulticastGroup)))].
Proof.
  destruct pxMulticastGroup as [addr desc]. unfold socket_of. cbn [fst snd].
  intros Ef Hna Hnp.
  destruct (leave_member_state addr desc pMCG pxMCG st Ef) as (_ & _ & _ & Htr).
  cbn zeta in Htr. rewrite Htr. eexists. split; [reflexivity|].
  assert (Hrm : forall q, ~ In q (map fst (xIGMP_ScheduleList st)) ->
            frees_of q (snd (remove_report (mcg_group desc) (xIGMP_ScheduleList st)))
            = []).
  { intros q Hq.
    destruct (remove_report_events (mcg_group desc) (xIGMP_ScheduleList st))
      as [->|(p & Hp & ->)]; [reflexivity|].
    unfold frees_of. cbn [filter].
    destruct (p =? q) eqn:E; [|reflexivity].
    exfalso. apply Hq. assert (p = q) by lia. subst q. exact Hp. }
  destruct (remove_report_counts (mcg_group desc) (xIGMP_ScheduleList st)) as [_ Hlf].
  unfold frees_of, link_filter_calls in *.
  cbn [app filter]. rewrite !filter_app, Hlf, (Hrm addr Hna), (Hrm pMCG Hnp).
  destruct (addr =? pMCG) eqn:E; cbn [app filter].
  - assert (addr = pMCG) by lia. subst pMCG. rewrite Z.eqb_refl. repeat split.
  - rewrite !Z.eqb_refl, E.
    assert (E' : (pMCG =? addr) = false) by lia. rewrite E'. repeat split.
Qed.

Lemma leave_frees_each_descriptor_once_witness :
  let st := @join_all example_build example_joins example_empty in
  let stored := (0x4000,
                 {| mcg_mreq := example_mreq example_group;
                    pxSocket := 0x5000;
                    pxIGMPReportDesc := Some (0x3000, example_report example_group 0 0) |}) in
  find_group (mcg_group (snd stored)) (xMulticastGroupsList st (socket_of stored))
  = Some stored /\
  exists evs,
    xTrace (@vModifyMulticastMembership example_build stored
              (@eSocketOptDropMembership example_build) st)
    = xTrace st ++ evs /\
    frees_of 0x4000 evs = [vPortFree 0x4000].
Proof.
  cbn zeta. split; [vm_compute; reflexivity|].
  edestruct (@leave_frees_each_descriptor_once example_build
               (0x4000,
                {| mcg_mreq := example_mreq example_group;
                   pxSocket := 0x5000;
                   pxIGMPReportDesc :=
                     Some (0x3000, example_report example_group 0 0) |})
               0x4000
               {| mcg_mreq := example_mreq example_group;
                  pxSocket := 0x5000;
                  pxIGMPReportDesc :=
                    Some (0x3000, example_report example_group 0 0) |}
               (@join_all example_build example_joins example_empty))
    as (evs & Htr & Hf & _).
  - vm_compute. reflexivity.
  - vm_compute. intros Hin. repeat destruct Hin as [Hin|Hin]; try discriminate Hin; exact Hin.
  - vm_compute. intros Hin. repeat destruct Hin as [Hin|Hin]; try discriminate Hin; exact Hin.
  - exists evs. split; [exact Htr|exact Hf].
Defined.

Lemma leave_ends_membership `{Config} (pxMulticastGroup : MCastGroupDesc_ptr)
    (st : State) :
  NoDup (socket_groups (xMulticastGroupsList st (socket_of pxMulticastGroup))) ->
  find_group (mcg_group (snd pxMulticastGroup))
    (xMulticastGroupsList
       (vModifyMulticastMembership pxMulticastGroup eSocketOptDropMembership st)
       (socket_of pxMulticastGroup)) = None.
Proof.
  intros Hnd. destruct pxMulticastGroup as [addr desc].
  unfold socket_of in *. cbn [fst snd] in *.
  destruct (find_group (mcg_group desc) (xMulticastGroupsList st (pxSocket desc)))
    as [[pMCG pxMCG]|] eqn:Ef.
  - destruct (leave_member_state addr desc pMCG pxMCG st Ef) as (_ & Hgl & _).
    cbn zeta in Hgl. rewrite Hgl. apply find_group_None_iff.
    apply (unlink_group_sub _ _ Hnd).
  - unfold vModifyMulticastMembership. rewrite Z.eqb_refl.
    assert (Ead : (eSocketOptAddMembership =? eSocketOptDropMembership) = false).
    { pose proof eSocketOpt_distinct. lia. }
    rewrite Ead. cbn [negb andb]. rewrite Ef. exact Ef.
Qed.

(** X22. A membership is counted down at most once: after a socket has
    left a group (its list naming each group at most once), it is not a
    member any more, and a second leave of the same group by the same
    socket only frees its request; the registry, the sockets' lists and
    the link-layer filter are not touched again. *)
Theorem second_leave_only_frees `{Config}
    (first second : MCastGroupDesc_ptr) (st : State) :
  NoDup (socket_groups (xMulticastGroupsList st (socket_of first))) ->
  mcg_group (snd second) = mcg_group (snd first) ->
  socket_of second = socket_of first ->
  let st1 := vModifyMulticastMembership first eSocketOptDropMembership st in
  find_group (mcg_group (snd first)) (xMulticastGroupsList st1 (socket_of first))
  = None /\
  vModifyMulticastMembership second eSocketOptDropMembership st1
  = emit [vPortFree (fst second)] st1.
Proof.
  intros Hnd Hg Hs. cbn zeta.
  pose proof (leave_ends_membership first st Hnd) as Hnone.
  split; [exact Hnone|].
  unfold vModifyMulticastMembership at 1.
  rewrite Z.eqb_refl.
  assert (Ead : (eSocketOptAddMembership =? eSocketOptDropMembership) = false).
  { pose proof eSocketOpt_distinct. lia. }
  rewrite Ead. cbn [negb andb].
  destruct second as [addr desc]. unfold socket_of in *. cbn [fst snd] in *.
  rewrite Hg, Hs, Hnone. reflexivity.
Qed.

Lemma second_leave_only_frees_witness :
  let st := @join_all example_build example_joins example_empty in
  let st1 := @vModifyMulticastMembership example_build (example_leave 0x5000 0x4100)
               (@eSocketOptDropMembership example_build) st in
  NoDup (socket_groups (xMulticastGroupsList st (socket_of (example_leave 0x5000 0x4100)))) /\
  @vModifyMulticastMembership example_build (example_leave 0x5000 0x4101)
    (@eSocketOptDropMembership example_build) st1
  = emit [vPortFree (fst (example_leave 0x5000 0x4101))] st1.
Proof.
  cbn zeta.
  assert (Hnd : NoDup (socket_groups
                  (xMulticastGroupsList
                     (@join_all example_build example_joins example_empty)
                     (socket_of (example_leave 0x5000 0x4100))))).
  { vm_compute. repeat constructor. intros []. }
  split; [exact Hnd|].
  exact (proj2 (@second_leave_only_frees example_build
                  (example_leave 0x5000 0x4100) (example_leave 0x5000 0x4101)
                  (@join_all example_build example_joins example_empty)
                  Hnd eq_refl eq_refl)).
Defined.

(** ** Initialisation *)

(** X23. [vIGMP_Init] empties the registry and asks the link-layer filter
    once, for the all-hosts group address; it never frees anything and
    leaves the sockets' lists alone. With LLMNR compiled in and memory
    available the registry then holds exactly one report, at the
    allocated address, for the LLMNR group, with socket count 1 and a
    countdown between 2 and 9; without LLMNR, or when the allocation
    fails, the registry is empty. *)
Theorem vIGMP_Init_outcome `{Config} (pxIRD : Z) (st : State) :
  xTrace (vIGMP_Init pxIRD st)
  = xTrace st ++ [xEMAC_AddMulticastAddress (vSetMultiCastIPv4MacAddress ipIGMP_IP_ADDR)] /\
  xMulticastGroupsList (vIGMP_Init pxIRD st) = xMulticastGroupsList st /\
  (ipconfigUSE_LLMNR = true -> pxIRD <> NULL ->
   exists d,
     xIGMP_ScheduleList (vIGMP_Init pxIRD st) = [(pxIRD, d)] /\
     ird_group d = ipLLMNR_IP_ADDR /\
     sin_addr (imr_interface (ird_mreq d)) = 0 /\
     xNumSockets d = 1 /\
     2 <= ucCountDown d <= 9) /\
  (ipconfigUSE_LLMNR = false \/ pxIRD = NULL ->
   xIGMP_ScheduleList (vIGMP_Init pxIRD st) = []).
Proof.
  unfold vIGMP_Init.
  destruct ipconfigUSE_LLMNR.
  - destruct (NULL =? pxIRD) eqn:En; cbn [negb].
    + repeat split; try reflexivity.
      * intros _ Hnn. unfold NULL in *. lia.
    + unfold xAddIGMPReportToList.
      cbn [bump_duplicate xIGMP_ScheduleList set_ScheduleList emit snd fst
           xRandomOutcomes].
      destruct (xApplicationGetRandomNumber (xRandomOutcomes st)) as [r rnd] eqn:Er.
      cbn [Z.eqb pdTRUE Pos.eqb negb]. repeat split.
      * intros _ _. eexists. split; [reflexivity|].
        cbn [ird_group ird_mreq set_ucCountDown set_xNumSockets xNumSockets
             ucCountDown imr_multiaddr imr_interface sin_addr].
        repeat split; try reflexivity.
        -- apply unsolicited_countdown_range.
           destruct r as [v|]; [|apply uint32_range].
           unfold xApplicationGetRandomNumber in Er.
           destruct (xRandomOutcomes st) as [|[v0|] rest]; try discriminate.
           injection Er as <- _. apply uint32_range.
        -- apply unsolicited_countdown_range.
           destruct r as [v|]; [|apply uint32_range].
           unfold xApplicationGetRandomNumber in Er.
           destruct (xRandomOutcomes st) as [|[v0|] rest]; try discriminate.
           injection Er as <- _. apply uint32_range.
      * intros [Hf|Hn]; [discriminate|]. unfold NULL in *. lia.
  - repeat split; try reflexivity. intros Hf. discriminate.
Qed.

Lemma vIGMP_Init_outcome_witness :
  @ipconfigUSE_LLMNR example_build = true /\ 0x2000 <> NULL /\
  exists d,
    xIGMP_ScheduleList (@vIGMP_Init example_build 0x2000 example_three_scheduled)
    = [(0x2000, d)] /\
    ird_group d = @ipLLMNR_IP_ADDR example_build /\
    sin_addr (imr_interface (ird_mreq d)) = 0 /\
    xNumSockets d = 1 /\
    2 <= ucCountDown d <= 9.
Proof.
  assert (Hl : @ipconfigUSE_LLMNR example_build = true) by reflexivity.
  assert (Hn : 0x2000 <> NULL) by discriminate.
  split; [exact Hl|]. split; [exact Hn|].
  exact (proj1 (proj2 (proj2 (@vIGMP_Init_outcome example_build 0x2000
                                example_three_scheduled))) Hl Hn).
Defined.

(** ** Nothing freed stays linked *)

Lemma remove_report_unlinks (group : Z) (l : list IGMPReportDesc_ptr) :
  NoDup (map fst l) ->
  (forall p, In (vPortFree p) (snd (remove_report group l)) ->
     In p (map fst l) /\ ~ In p (map fst (fst (remove_report group l)))) /\
  (forall p, In p (map fst (fst (remove_report group l))) -> In p (map fst l)).
Proof.
  induction l as [|[p d] l IH]; intros Hnd; cbn [remove_report].
  - split; [intros q []|intros q []].
  - cbn [map fst] in Hnd. inversion Hnd as [|? ? Hnotin Hnd']; subst.
    destruct (ird_group d =? group).
    + destruct (0 =? _); cbn [fst snd map].
      * split.
        -- intros q [Hq|[]]. injection Hq as <-. split; [left; reflexivity|exact Hnotin].
        -- intros q Hq. right. exact Hq.
      * split; [intros q []|]. intros q Hq. exact Hq.
    + destruct (IH Hnd') as [IH1 IH2].
      destruct (remove_report group l) as [rest' evs]. cbn [fst snd map] in *.
      split.
      * intros q Hq. destruct (IH1 q Hq) as [Hin Hout].
        split; [right; exact Hin|]. intros [Heq|Hin']; [|exact (Hout Hin')].
        subst q. exact (Hnotin Hin).
      * intros q [Hq|Hq]; [left; exact Hq|right; apply IH2, Hq].
Qed.

(** X24. The registry never keeps a report it has freed: when the nodes
    of the schedule list are distinct objects, every address that
    [vRemoveIGMPReportFromList] passes to [vPortFree] was a registered
    node before the call and is not one after it. *)
Theorem vRemoveIGMPReportFromList_unlinks_what_it_frees
    (pMCastGroup : freertos_ip_mreq) (st : State) :
  NoDup (map fst (xIGMP_ScheduleList st)) ->
  exists evs,
    xTrace (vRemoveIGMPReportFromList pMCastGroup st) = xTrace st ++ evs /\
    forall p, In (vPortFree p) evs ->
      In p (map fst (xIGMP_ScheduleList st)) /\
      ~ In p (map fst (xIGMP_ScheduleList (vRemoveIGMPReportFromList pMCastGroup st))).
Proof.
  intros Hnd.
  destruct (vRemoveIGMPReportFromList_frame pMCastGroup st) as (_ & -> & ->).
  eexists. split; [reflexivity|]. apply remove_report_unlinks, Hnd.
Qed.

Lemma vRemoveIGMPReportFromList_unlinks_what_it_frees_witness :
  NoDup (map fst (xIGMP_ScheduleList example_three_unscheduled)) /\
  exists evs,
    xTrace (vRemoveIGMPReportFromList (example_mreq 0x030201EF) example_three_unscheduled)
    = xTrace example_three_unscheduled ++ evs /\
    forall p, In (vPortFree p) evs ->
      In p (map fst (xIGMP_ScheduleList example_three_unscheduled)) /\
      ~ In p (map fst (xIGMP_ScheduleList
                         (vRemoveIGMPReportFromList (example_mreq 0x030201EF)
                            example_three_unscheduled))).
Proof.
  assert (Hnd : NoDup (map fst (xIGMP_ScheduleList example_three_unscheduled))).
  { cbn. repeat constructor; cbn; intros Hin;
      repeat destruct Hin as [Hin|Hin]; try discriminate Hin; exact Hin. }
  split; [exact Hnd|].
  exact (vRemoveIGMPReportFromList_unlinks_what_it_frees
           (example_mreq 0x030201EF) example_three_unscheduled Hnd).
Defined.

Lemma unlink_group_unlinks (group p : Z) (d : MCastGroupDesc_t)
    (l : list MCastGroupDesc_ptr) :
  NoDup (map fst l) -> find_group group l = Some (p, d) ->
  In p (map fst l) /\ ~ In p (map fst (unlink_group group l)) /\
  length (unlink_group group l) = pred (length l).
Proof.
  induction l as [|[q r] l IH]; intros Hnd Hf; cbn in Hf; [discriminate|].
  cbn [map fst] in Hnd. inversion Hnd as [|? ? Hnotin Hnd']; subst.
  cbn [unlink_group map fst length].
  destruct (mcg_group r =? group).
  - injection Hf as <- <-. split; [left; reflexivity|]. split; [exact Hnotin|reflexivity].
  - destruct (IH Hnd' Hf) as (Hin & Hout & Hlen). split; [right; exact Hin|]. split.
    + cbn [map fst]. intros [Heq|Hin']; [|exact (Hout Hin')].
      subst q. exact (Hnotin Hin).
    + cbn [length]. rewrite Hlen. destruct l; [contradiction|reflexivity].
Qed.

(** X25. A leave by a member unlinks exactly the membership it frees:
    when the nodes of the socket's list are distinct objects, the list
    gets shorter by one and the stored descriptor that the call frees is
    no longer in it. *)
Theorem leave_unlinks_the_membership_it_frees `{Config}
    (pxMulticastGroup : MCastGroupDesc_ptr) (pMCG : Z) (pxMCG : MCastGroupDesc_t)
    (st : State) :
  NoDup (map fst (xMulticastGroupsList st (socket_of pxMulticastGroup))) ->
  find_group (mcg_group (snd pxMulticastGroup))
    (xMulticastGroupsList st (socket_of pxMulticastGroup)) = Some (pMCG, pxMCG) ->
  let st' := vModifyMulticastMembership pxMulticastGroup eSocketOptDropMembership st in
  ~ In pMCG (map fst (xMulticastGroupsList st' (socket_of pxMulticastGroup))) /\
  length (xMulticastGroupsList st' (socket_of pxMulticastGroup))
  = pred (length (xMulticastGroupsList st (socket_of pxMulticastGroup))) /\
  exists evs, xTrace st' = xTrace st ++ evs /\ In (vPortFree pMCG) evs.
Proof.
  destruct pxMulticastGroup as [addr desc]. unfold socket_of. cbn [fst snd].
  intros Hnd Ef. cbn zeta.
  destruct (leave_member_state addr desc pMCG pxMCG st Ef) as (_ & Hgl & _ & Htr).
  cbn zeta in Hgl, Htr. rewrite Hgl, Htr.
  destruct (unlink_group_unlinks _ _ _ _ Hnd Ef) as (_ & Hout & Hlen).
  split; [exact Hout|]. split; [exact Hlen|].
  eexists. split; [reflexivity|].
  apply in_or_app. right. apply in_or_app. right. apply in_or_app. right.
  left. reflexivity.
Qed.

Lemma leave_unlinks_the_membership_it_frees_witness :
  let st := @join_all example_build example_joins example_empty in
  NoDup (map fst (xMulticastGroupsList st (socket_of (example_leave 0x5000 0x4100)))) /\
  ~ In 0x4000
      (map fst (xMulticastGroupsList
                  (@vModifyMulticastMembership example_build
                     (example_leave 0x5000 0x4100)
                     (@eSocketOptDropMembership example_build) st)
                  (socket_of (example_leave 0x5000 0x4100)))).
Proof.
  cbn zeta.
  assert (Hnd : NoDup (map fst
                  (xMulticastGroupsList
                     (@join_all example_build example_joins example_empty)
                     (socket_of (example_leave 0x5000 0x4100))))).
  { vm_compute. repeat constructor. intros []. }
  split; [exact Hnd|].
  refine (proj1 (@leave_unlinks_the_membership_it_frees example_build
                   (example_leave 0x5000 0x4100) 0x4000
                   {| mcg_mreq := example_mreq example_group;
                      pxSocket := 0x5000;
                      pxIGMPReportDesc :=
                        Some (0x3000, example_report example_group 0 0) |}
                   (@join_all example_build example_joins example_empty) Hnd _)).
  vm_compute. reflexivity.
Defined.

(** ** A delay that random scheduling never picks *)

(** X26. When the window is a power of two (2, 4, ..., 128) the mask is
    [window - 1], so a delay taken from a successful random draw is at
    most [window - 1]: the last tick of the window is only ever handed
    out by the fallback counter. *)
Theorem power_of_two_window_never_drawn (k uiRandom : Z) :
  1 <= k <= 7 -> 0 <= uiRandom < 4294967296 ->
  RandMask_of (2 ^ k) = 2 ^ k - 1 /\
  1 <= masked_delay (2 ^ k) (RandMask_of (2 ^ k)) uiRandom <= 2 ^ k - 1.
Proof.
  intros Hk Hr.
  assert (Hmask : RandMask_of (2 ^ k) = Z.ones k).
  { assert (Hcases : k = 1 \/ k = 2 \/ k = 3 \/ k = 4 \/ k = 5 \/ k = 6 \/ k = 7) by lia.
    destruct Hcases as [->|[->|[->|[->|[->|[->| ->]]]]]]; reflexivity. }
  assert (Hpow : 2 <= 2 ^ k <= 128).
  { split.
    - change 2 with (2 ^ 1) at 1. apply Z.pow_le_mono_r; lia.
    - change 128 with (2 ^ 7). apply Z.pow_le_mono_r; lia. }
  rewrite Hmask, Z.ones_equiv. split; [lia|].
  rewrite masked_delay_window_value by lia.
  rewrite <- Z.ones_equiv, Z.land_ones by lia.
  pose proof (Z.mod_pos_bound uiRandom (2 ^ k) ltac:(lia)) as Hm.
  rewrite Z.mod_small by lia. lia.
Qed.

Lemma power_of_two_window_never_drawn_witness :
  1 <= 3 <= 7 /\ 0 <= 4294967295 < 4294967296 /\
  masked_delay (2 ^ 3) (RandMask_of (2 ^ 3)) 4294967295 <= 2 ^ 3 - 1.
Proof.
  assert (Hk : 1 <= 3 <= 7) by lia.
  assert (Hr : 0 <= 4294967295 < 4294967296) by lia.
  split; [exact Hk|]. split; [exact Hr|].
  exact (proj2 (proj2 (power_of_two_window_never_drawn 3 4294967295 Hk Hr))).
Defined.
